(** * FinanceX: the scan-and-cache pipeline and the PowerX signal evaluator

    A shallow embedding of [data/cache.py], [scanner/scanner.py],
    [analysis/signals.py], and of the helpers around them in
    [data/provider.py], [config/settings.py] and [universe/manager.py],
    with the properties the specification states about them and further
    properties read off the code.

    Conventions of the embedding.
    - A Python [float] is an exact rational ([Q]); a float that is NaN, and a
      value that is [None], is an absent [option].  Comparisons, [abs], [min]
      and truthiness are then the Python ones; the rounding of float
      arithmetic is not modelled.
    - A Python [str] is a [string] of one-byte characters; an exception is
      the string [str(e)] it carries.
    - A Python [dict] built for output is a [gmap string pyval].
    - Time is an integer number of microseconds, the resolution of
      [datetime]; the local time zone is part of the world.
    - The file system, the clock and the data source form a [World] that is
      threaded through the stateful code by a state-and-exception monad. *)

From Stdlib Require Import ZArith QArith Qabs Qround Qminmax String Ascii List Lia Lqa.
From stdpp Require Import gmap strings pretty list fin_maps.

Local Open Scope string_scope.
Local Open Scope list_scope.

(** ** Python values *)

Inductive Result (A : Type) : Type :=
| Ok (a : A)
| Raise (e : string).
Arguments Ok {A} a.
Arguments Raise {A} e.

Inductive pyval : Type :=
| VNone
| VStr (s : string)
| VNum (x : Q).

(** [x if x else None] on an optional float: [None] and [0.0] are falsy. *)
Definition truthy_float (x : option Q) : bool :=
  match x with
  | None => false
  | Some q => negb (Qeq_bool q 0)
  end.

(** Truthiness of an optional string: [None] and [""] are falsy. *)
Definition truthy_str (s : option string) : bool :=
  match s with
  | None => false
  | Some EmptyString => false
  | Some (String _ _) => true
  end.

Definition Qlt_bool (x y : Q) : bool := negb (Qle_bool y x).

(** Python's two-argument [min(a, b)]: [b] when [b < a], else [a]. *)
Definition py_min (a b : Q) : Q := if Qlt_bool b a then b else a.

(** Round half to even, the rounding of Python's [round]. *)
Definition round_half_even (q : Q) : Z :=
  let f := Qfloor q in
  let r := (q - inject_Z f)%Q in
  if Qlt_bool r (1 # 2) then f
  else if Qlt_bool (1 # 2) r then (f + 1)%Z
  else if Z.even f then f else (f + 1)%Z.

(** [round(x, ndigits)] for a non-negative number of digits. *)
Definition py_round (x : Q) (ndigits : nat) : Q :=
  let scale := inject_Z (10 ^ Z.of_nat ndigits) in
  (inject_Z (round_half_even (x * scale)) / scale)%Q.

(** ** Strings *)

Fixpoint map_chars (f : ascii -> ascii) (s : string) : string :=
  match s with
  | EmptyString => EmptyString
  | String c rest => String (f c) (map_chars f rest)
  end.

Definition upper_char (c : ascii) : ascii :=
  let n := nat_of_ascii c in
  if ((97 <=? n) && (n <=? 122))%nat then ascii_of_nat (n - 32) else c.

(** [s.upper()] on one-byte characters. *)
Definition upper (s : string) : string := map_chars upper_char s.

(** [s.replace(old, new)] for one-character [old] and [new]. *)
Definition replace (old new : ascii) (s : string) : string :=
  map_chars (fun c => if Ascii.eqb c old then new else c) s.

Fixpoint contains_char (c : ascii) (s : string) : bool :=
  match s with
  | EmptyString => false
  | String d rest => Ascii.eqb d c || contains_char c rest
  end.

(** A symbol that sanitising leaves alone: no lower-case letter and none of
    the characters [/], [.] and [_]. *)
Fixpoint plain_symbol (s : string) : bool :=
  match s with
  | EmptyString => true
  | String c rest =>
      Ascii.eqb (upper_char c) c
      && negb (Ascii.eqb c "/") && negb (Ascii.eqb c ".") && negb (Ascii.eqb c "_")
      && plain_symbol rest
  end.

(** ** Price series *)

(** A bar maps a column name to its value; [None] is NaN. *)
Record DataFrame : Type := {
  columns : list string;
  rows : list (gmap string (option Q));
}.

(** [df.empty]: some axis has length zero. *)
Definition empty (df : DataFrame) : bool :=
  match rows df, columns df with
  | [], _ => true
  | _, [] => true
  | _, _ => false
  end.

(** ** The world the pipeline runs in *)

Inductive content : Type :=
| Parquet (df : DataFrame)
| Garbage.

Record file : Type := {
  st_mtime : Z;
  payload : content;
}.

(** [clock] is [time.time()] and [st_mtime] a file's time stamp, both in
    microseconds since the epoch.  [utcoffset t] is the offset of local time
    from UTC in force at the instant [t], in microseconds: it changes where
    the zone's clocks are put forward or back.  [unconvertible t] is the text
    of the exception with which [datetime.fromtimestamp] refuses the time
    stamp [t] (a local year outside 1..9999, or a time the platform's
    [localtime] does not take), [None] when it converts it.  The system
    clock itself is taken to be a time [datetime] represents. *)
Record World : Type := {
  clock : Z;
  utcoffset : Z -> Z;
  unconvertible : Z -> option string;
  files : gmap string file;
  read_only : bool;
  source_calls : list string;
}.

Definition with_files (fs : gmap string file) (w : World) : World :=
  {| clock := clock w; utcoffset := utcoffset w; unconvertible := unconvertible w;
     files := fs; read_only := read_only w;
     source_calls := source_calls w |}.

(** Time passing between two calls. *)
Definition elapse (d : Z) (w : World) : World :=
  {| clock := (clock w + d)%Z; utcoffset := utcoffset w;
     unconvertible := unconvertible w; files := files w;
     read_only := read_only w; source_calls := source_calls w |}.

Definition log_source_call (symbol : string) (w : World) : World :=
  {| clock := clock w; utcoffset := utcoffset w; unconvertible := unconvertible w;
     files := files w; read_only := read_only w;
     source_calls := source_calls w ++ [symbol] |}.

#[global] Instance Result_ret : MRet Result := fun A a => Ok a.
#[global] Instance Result_bind : MBind Result := fun A B f r =>
  match r with
  | Ok a => f a
  | Raise e => Raise e
  end.

(** State over [World] with exceptions. *)
Definition M (A : Type) : Type := World -> Result A * World.

#[global] Instance M_ret : MRet M := fun A a w => (Ok a, w).
#[global] Instance M_bind : MBind M := fun A B f m w =>
  match m w with
  | (Ok a, w') => f a w'
  | (Raise e, w') => (Raise e, w')
  end.

Definition raise {A : Type} (e : string) : M A := fun w => (Raise e, w).

(** [try: body except Exception as e: handler(str(e))] *)
Definition try_except {A : Type} (body : M A) (handler : string -> M A) : M A :=
  fun w =>
    match body w with
    | (Ok a, w') => (Ok a, w')
    | (Raise e, w') => handler e w'
    end.

(** ** Dates and times ([datetime])

    A naive [datetime] is its distance from 1970-01-01T00:00:00 in
    microseconds, a [date] its distance from 1970-01-01 in days, a
    [timedelta] its length in microseconds. *)

Definition microseconds_per_minute : Z := 60000000.
Definition microseconds_per_day : Z := 86400000000.

(** The length of [ttl] minutes. *)
Definition timedelta_minutes (ttl : Z) : Z := (ttl * microseconds_per_minute)%Z.

(** The length of [days] days. *)
Definition timedelta_days (days : Z) : Z := (days * microseconds_per_day)%Z.

(** [timedelta(...)] of a whole number of minutes or days: the constructor
    normalises to days, seconds and microseconds and refuses more than
    999999999 days either way; the count of days is first converted to a C
    [int]. *)
Definition timedelta (span : Z) : Result Z :=
  let days := (span / microseconds_per_day)%Z in
  if negb ((-2147483648 <=? days) && (days <=? 2147483647))%Z then
    Raise "Python int too large to convert to C int"
  else if negb ((-999999999 <=? days) && (days <=? 999999999))%Z then
    Raise ("days=" +:+ pretty days +:+ "; must have magnitude <= 999999999")
  else Ok span.

(** [datetime.min] and [datetime.max]: 0001-01-01T00:00:00 and
    9999-12-31T23:59:59.999999. *)
Definition datetime_min : Z := -62135596800000000.
Definition datetime_max : Z := 253402300799999999.

(** [moment + delta] on a [datetime] *)
Definition datetime_add (moment delta : Z) : Result Z :=
  let sum := (moment + delta)%Z in
  if ((datetime_min <=? sum) && (sum <=? datetime_max))%Z then Ok sum
  else Raise "date value out of range".

(** [date.min] and [date.max]: 0001-01-01 and 9999-12-31. *)
Definition date_min : Z := -719162.
Definition date_max : Z := 2932896.

(** [day - delta] on a [date]: the days of the [timedelta] count. *)
Definition date_sub (day delta : Z) : Result Z :=
  let difference := (day - delta / microseconds_per_day)%Z in
  if ((date_min <=? difference) && (difference <=? date_max))%Z then Ok difference
  else Raise "date value out of range".

(** [datetime.fromtimestamp(t)]: the naive local time at the instant [t]. *)
Definition fromtimestamp (w : World) (t : Z) : Result Z :=
  match unconvertible w t with
  | Some e => Raise e
  | None => Ok (t + utcoffset w t)%Z
  end.

(** [datetime.now()]: the naive local time. *)
Definition now (w : World) : Z := (clock w + utcoffset w (clock w))%Z.

(** [date.today()]: the local date. *)
Definition today (w : World) : Z := (now w / microseconds_per_day)%Z.

(** ** Configuration ([config/settings.py]) *)

Record AppConfig : Type := {
  rsi_config_threshold : Q;
  stochastics_config_threshold : Q;
  data_lookback_days : Z;
  cache_config_enabled : bool;
  cache_config_directory : string;
  cache_config_ttl_minutes : gmap string Z;
  scanner_max_concurrent : Z;
  scanner_batch_delay_ms : Z;
}.

(** The defaults of the pydantic models. *)
Definition default_config : AppConfig := {|
  rsi_config_threshold := 50;
  stochastics_config_threshold := 50;
  data_lookback_days := 60;
  cache_config_enabled := true;
  cache_config_directory := "cache/";
  cache_config_ttl_minutes := <["1d" := 240%Z]> (<["1h" := 30%Z]> (<["5m" := 5%Z]> ∅));
  scanner_max_concurrent := 10;
  scanner_batch_delay_ms := 100;
|}.

(** ** The cache store ([data/cache.py]) *)

Module Cache.

Record CacheManager : Type := {
  cache_dir : string;
  ttl_minutes : gmap string Z;
  enabled : bool;
}.

(** [CacheManager.__init__]: [x or default] takes the default when [x] is
    [None] or falsy (an empty path, an empty dict). *)
Definition init (config : AppConfig) (cache_dir : option string)
    (ttl_minutes : option (gmap string Z)) (enabled : option bool) : CacheManager :=
  {| cache_dir :=
       match cache_dir with
       | Some (String c d) => String c d
       | _ => cache_config_directory config
       end;
     ttl_minutes :=
       match ttl_minutes with
       | Some m => if bool_decide (m = ∅) then cache_config_ttl_minutes config else m
       | None => cache_config_ttl_minutes config
       end;
     enabled :=
       match enabled with
       | Some b => b
       | None => cache_config_enabled config
       end |}.

(** The local [filename] of [_get_cache_path]. *)
Definition cache_filename (symbol interval : string) : string :=
  let safe_symbol := replace "." "_" (replace "/" "_" (upper symbol)) in
  safe_symbol +:+ "_" +:+ interval +:+ ".parquet".

Fixpoint ends_with_slash (s : string) : bool :=
  match s with
  | EmptyString => false
  | String c EmptyString => Ascii.eqb c "/"
  | String _ rest => ends_with_slash rest
  end.

(** [Path(directory) / filename] *)
Definition path_join (directory filename : string) : string :=
  if ends_with_slash directory then directory +:+ filename
  else directory +:+ "/" +:+ filename.

Definition _get_cache_path (self : CacheManager) (symbol interval : string) : string :=
  path_join (cache_dir self) (cache_filename symbol interval).

Definition _get_ttl (self : CacheManager) (interval : string) : Z :=
  default 60%Z (ttl_minutes self !! interval).

(** [mtime + timedelta(minutes=ttl)] for a file stamped [st_mtime]: the
    conversion of the stamp, the [timedelta] and the sum can each raise. *)
Definition expiry (self : CacheManager) (interval : string) (w : World) (st_mtime : Z)
    : Result Z :=
  mtime ← fromtimestamp w st_mtime;
  let ttl := _get_ttl self interval in
  delta ← timedelta (timedelta_minutes ttl);
  datetime_add mtime delta.

Definition is_fresh (self : CacheManager) (symbol interval : string) (w : World)
    : Result bool :=
  if negb (enabled self) then Ok false
  else
    let cache_path := _get_cache_path self symbol interval in
    match files w !! cache_path with
    | None => Ok false
    | Some f =>
        expiry ← expiry self interval w (st_mtime f);
        let is_valid := bool_decide (now w < expiry)%Z in
        Ok is_valid
    end.

(** [pd.read_parquet(path)] *)
Definition read_parquet (path : string) : M DataFrame := fun w =>
  match files w !! path with
  | Some {| payload := Parquet df |} => (Ok df, w)
  | Some {| payload := Garbage |} => (Raise "Could not open Parquet input source", w)
  | None => (Raise "No such file or directory", w)
  end.

(** [data.to_parquet(path, index=True)]: the write stamps the file with the
    current time; on a store that cannot be written it raises. *)
Definition to_parquet (data : DataFrame) (path : string) : M unit := fun w =>
  if read_only w then (Raise "Permission denied", w)
  else (Ok tt, with_files (<[path := {| st_mtime := clock w; payload := Parquet data |}]> (files w)) w).

(** The freshness test is made before the [try]: what it raises leaves
    [get]. *)
Definition get (self : CacheManager) (symbol interval : string) : M (option DataFrame) :=
  if negb (enabled self) then mret None
  else fun w =>
    match is_fresh self symbol interval w with
    | Raise e => (Raise e, w)
    | Ok false => (Ok None, w)
    | Ok true =>
        let cache_path := _get_cache_path self symbol interval in
        try_except (df ← read_parquet cache_path; mret (Some df))
                   (fun _ => mret None) w
    end.

Definition set (self : CacheManager) (symbol interval : string) (data : DataFrame) : M bool :=
  if negb (enabled self) then mret false
  else
    let cache_path := _get_cache_path self symbol interval in
    try_except (_ ← to_parquet data cache_path; mret true)
               (fun _ => mret false).

Definition get_or_fetch (config : AppConfig) (symbol interval : string)
    (fetcher : M DataFrame) (cache : option CacheManager) : M DataFrame :=
  let cache :=
    match cache with
    | Some c => c
    | None => init config None None (Some true)
    end in
  cached ← get cache symbol interval;
  match cached with
  | Some df => mret df
  | None =>
      data ← fetcher;
      _ ← set cache symbol interval data;
      mret data
  end.

End Cache.

(** ** The scan orchestrator ([scanner/scanner.py]) *)

(** [time.sleep], a routine of the platform: [sleep_error t ms] is the text
    of the exception with which, at the instant [t], it refuses a pause of
    [ms / 1000] seconds (the quotient is past what a float holds, or the
    pause past what the platform's clock counts), [None] when it sleeps. *)
Class PyTime : Type := {
  sleep_error : Z -> Z -> option string;
}.

Module Scan.

(** The data source, a collaborator behind [DataProvider.fetch_ohlcv]:
    symbol, start day, end day, interval. *)
Record DataProvider : Type := {
  fetch_ohlcv : string -> Z -> Z -> string -> M DataFrame;
}.

(** The dict [{"symbol": .., "data": .., "error": ..}] of [fetch_symbol]. *)
Record ScanResult : Type := {
  symbol : string;
  data : option DataFrame;
  error : option string;
}.

Record Scanner : Type := {
  config : AppConfig;
  provider : DataProvider;
  cache : Cache.CacheManager;
  max_concurrent : Z;
  batch_delay_ms : Z;
}.

Definition init (config : AppConfig) (provider : DataProvider)
    (cache : option Cache.CacheManager) : Scanner :=
  {| config := config;
     provider := provider;
     cache :=
       match cache with
       | Some c => c
       | None => Cache.init config None None (Some true)
       end;
     max_concurrent := scanner_max_concurrent config;
     batch_delay_ms := scanner_batch_delay_ms config |}.

(** [end - timedelta(days=lookback_days)] *)
Definition start_date (end_ lookback_days : Z) : Result Z :=
  delta ← timedelta (timedelta_days lookback_days);
  date_sub end_ delta.

(** The unit of work of one pool thread.  The two dates are computed before
    the [try]: what that raises leaves [fetch_symbol]. *)
Definition fetch_symbol (self : Scanner) (symbol interval : string)
    (lookback_days : option Z) : M ScanResult := fun w =>
  let lookback_days :=
    match lookback_days with
    | Some d => d
    | None => data_lookback_days (config self)
    end in
  let end_ := today w in
  match start_date end_ lookback_days with
  | Raise e => (Raise e, w)
  | Ok start =>
      let result := {| symbol := symbol; data := None; error := None |} in
      try_except
        (df ← Cache.get_or_fetch (config self) symbol interval
                (fetch_ohlcv (provider self) symbol start end_ interval)
                (Some (cache self));
         mret {| symbol := Scan.symbol result; data := Some df; error := error result |})
        (fun e =>
         mret {| symbol := Scan.symbol result; data := data result; error := Some e |})
        w
  end.

(** [time.sleep(ms / 1000)] *)
Definition sleep `{PyTime} (ms : Z) : M unit := fun w =>
  if (ms <? 0)%Z then (Raise "sleep length must be non-negative", w)
  else
    match sleep_error (clock w) ms with
    | Some e => (Raise e, w)
    | None => (Ok tt, elapse (ms * 1000) w)
    end.

(** [if self.batch_delay_ms > 0: time.sleep(self.batch_delay_ms / 1000)],
    after a completion. *)
Definition pause `{PyTime} (self : Scanner) : M unit :=
  if bool_decide (0 < batch_delay_ms self)%Z
  then sleep (batch_delay_ms self)
  else mret tt.

(** Leaving the [with ThreadPoolExecutor] block, also by an exception,
    waits for the futures still pending: each runs to completion and its
    result is dropped. *)
Fixpoint shutdown (work : string -> M ScanResult) (schedule : list nat)
    (futures : list string) (fuel : nat) (w : World) : World :=
  match fuel with
  | O => w
  | S fuel' =>
      let i := (hd 0 schedule mod length futures)%nat in
      match futures !! i with
      | None => w
      | Some symbol =>
          shutdown work (tl schedule) (delete i futures) fuel' (work symbol w).2
      end
  end.

(** [for future in as_completed(futures)]: the futures complete in an order
    the pool decides.  [schedule] is that decision: at each turn its head,
    modulo the number of futures still pending, is the one that completes
    next.  A unit of work runs to completion on the shared world when its
    turn comes; [work] is the submitted callable.  What a unit of work
    raises is caught and recorded; what the pause raises ends the loop. *)
Fixpoint as_completed `{PyTime} (self : Scanner) (work : string -> M ScanResult)
    (schedule : list nat) (futures : list string) (fuel : nat)
    (results : list ScanResult) (w : World) : Result (list ScanResult) * World :=
  match fuel with
  | O => (Ok results, w)
  | S fuel' =>
      let i := (hd 0 schedule mod length futures)%nat in
      match futures !! i with
      | None => (Ok results, w)
      | Some symbol =>
          let '(outcome, w') := work symbol w in
          let result :=
            match outcome with
            | Ok result => result
            | Raise e => {| symbol := symbol; data := None; error := Some e |}
            end in
          match pause self w' with
          | (Raise e, w'') =>
              (Raise e, shutdown work (tl schedule) (delete i futures) fuel' w'')
          | (Ok _, w'') =>
              as_completed self work (tl schedule) (delete i futures) fuel'
                (results ++ [result]) w''
          end
      end
  end.

(** [ThreadPoolExecutor(max_workers=n)] refuses a pool without workers,
    before any task is submitted. *)
Definition scan_symbols `{PyTime} (self : Scanner) (symbols : list string) (interval : string)
    (schedule : list nat) : M (list ScanResult) := fun w =>
  let total := length symbols in
  if bool_decide (max_concurrent self <= 0)%Z then
    (Raise "max_workers must be greater than 0", w)
  else
    as_completed self (fun symbol => fetch_symbol self symbol interval None)
      schedule symbols total [] w.

End Scan.

(** ** The signal evaluator ([analysis/signals.py]) *)

(** Python's rendering of floats in f-strings, left abstract: [format_1f x]
    is [f"{x:.1f}"] and [str_float x] is [f"{x}"]. *)
Class PyFormat : Type := {
  format_1f : Q -> string;
  str_float : Q -> string;
}.

(** [sep.join(parts)] *)
Fixpoint join (sep : string) (parts : list string) : string :=
  match parts with
  | [] => ""
  | [p] => p
  | p :: rest => p +:+ sep +:+ join sep rest
  end.

Module Signals.

Inductive SignalType : Type := BUY | SELL | NEUTRAL.

(** [SignalType.value] *)
Definition value (t : SignalType) : string :=
  match t with
  | BUY => "BUY"
  | SELL => "SELL"
  | NEUTRAL => "NEUTRAL"
  end.

Record Signal : Type := {
  type : SignalType;
  strength : Q;
  rsi : option Q;
  stoch : option Q;
  macd : option Q;
  macd_signal : option Q;
  reason : string;
}.

Definition is_neutral (t : SignalType) : bool :=
  match t with
  | NEUTRAL => true
  | _ => false
  end.

Definition is_actionable (self : Signal) (min_strength : Q) : bool :=
  negb (is_neutral (type self)) && Qle_bool min_strength (strength self).

(** [round(x, n) if x else None] *)
Definition rounded_if_truthy (x : option Q) (ndigits : nat) : pyval :=
  if truthy_float x then
    match x with
    | Some q => VNum (py_round q ndigits)
    | None => VNone
    end
  else VNone.

Definition to_dict (self : Signal) : gmap string pyval :=
  <["signal" := VStr (value (type self))]>
  (<["strength" := VNum (py_round (strength self) 1)]>
  (<["rsi" := rounded_if_truthy (rsi self) 2]>
  (<["stoch" := rounded_if_truthy (stoch self) 2]>
  (<["macd" := rounded_if_truthy (macd self) 6]>
  (<["macd_signal" := rounded_if_truthy (macd_signal self) 6]>
  (<["reason" := VStr (reason self)]> ∅)))))).

(** The indicator engine, a collaborator: [add_all_indicators] returns the
    frame with the columns [rsi], [stoch_d], [macd] and [macd_signal]
    added, or raises. *)
Record IndicatorEngine : Type := {
  add_all_indicators : DataFrame -> Result DataFrame;
}.

Record SignalGenerator : Type := {
  indicators : IndicatorEngine;
  rsi_threshold : Q;
  stoch_threshold : Q;
}.

Definition init (config : AppConfig) (indicator_engine : IndicatorEngine) : SignalGenerator :=
  {| indicators := indicator_engine;
     rsi_threshold := rsi_config_threshold config;
     stoch_threshold := stochastics_config_threshold config |}.

Section Evaluator.
Context `{PyFormat}.

Definition evaluate_conditions (self : SignalGenerator)
    (rsi stoch macd macd_signal : Q) : SignalType * list string :=
  let rsi_bullish := Qlt_bool (rsi_threshold self) rsi in
  let stoch_bullish := Qlt_bool (stoch_threshold self) stoch in
  let macd_bullish := Qlt_bool macd_signal macd in
  let rsi_bearish := Qlt_bool rsi (rsi_threshold self) in
  let stoch_bearish := Qlt_bool stoch (stoch_threshold self) in
  let macd_bearish := Qlt_bool macd macd_signal in
  if rsi_bullish && stoch_bullish && macd_bullish then
    (BUY,
     ["RSI(" +:+ format_1f rsi +:+ ") > " +:+ str_float (rsi_threshold self);
      "Stoch(" +:+ format_1f stoch +:+ ") > " +:+ str_float (stoch_threshold self);
      "MACD > Signal"])
  else if rsi_bearish && stoch_bearish && macd_bearish then
    (SELL,
     ["RSI(" +:+ format_1f rsi +:+ ") < " +:+ str_float (rsi_threshold self);
      "Stoch(" +:+ format_1f stoch +:+ ") < " +:+ str_float (stoch_threshold self);
      "MACD < Signal"])
  else
    let mixed : list string := [] in
    let mixed := (mixed ++ [if rsi_bullish then "RSI bullish"
                            else if rsi_bearish then "RSI bearish"
                            else "RSI neutral"])%list in
    let mixed := (mixed ++ [if stoch_bullish then "Stoch bullish"
                            else if stoch_bearish then "Stoch bearish"
                            else "Stoch neutral"])%list in
    let mixed := (mixed ++ [if macd_bullish then "MACD bullish" else "MACD bearish"])%list in
    (NEUTRAL, mixed).

Definition calculate_strength (self : SignalGenerator) (signal_type : SignalType)
    (rsi stoch macd macd_signal : Q) : Q :=
  if is_neutral signal_type then 0
  else
    let rsi_strength := (py_min (Qabs (rsi - 50)) 50 * 2)%Q in
    let stoch_strength := (py_min (Qabs (stoch - 50)) 50 * 2)%Q in
    let macd_hist := Qabs (macd - macd_signal) in
    let macd_strength := py_min (macd_hist * 50) 100 in
    let strength := ((rsi_strength + stoch_strength + macd_strength) / 3)%Q in
    py_min strength 100.

(** [df.iloc[-1]] *)
Definition iloc_last (df : DataFrame) : Result (gmap string (option Q)) :=
  match last (rows df) with
  | Some row => Ok row
  | None => Raise "single positional indexer is out-of-bounds"
  end.

(** [latest.get(column)], with [None] for a missing column and for NaN, the
    two values [pd.isna] does not tell apart. *)
Definition latest_get (latest : gmap string (option Q)) (column : string) : option Q :=
  mjoin (latest !! column).

(** [df = self.indicators.add_all_indicators(df)] when asked for, or when
    the frame has no [rsi] column yet. *)
Definition with_indicators (self : SignalGenerator) (df : DataFrame)
    (add_indicators : bool) : Result DataFrame :=
  if add_indicators || negb (bool_decide ("rsi" ∈ columns df))
  then add_all_indicators (indicators self) df
  else Ok df.

Definition generate_signal (self : SignalGenerator) (df : DataFrame)
    (add_indicators : bool) : Result Signal :=
  if empty df then
    Ok {| type := NEUTRAL; strength := 0; rsi := None; stoch := None;
          macd := None; macd_signal := None; reason := "No data" |}
  else
    match with_indicators self df add_indicators with
    | Raise e => Raise e
    | Ok df =>
        match iloc_last df with
        | Raise e => Raise e
        | Ok latest =>
            let rsi := latest_get latest "rsi" in
            let stoch := latest_get latest "stoch_d" in
            let macd := latest_get latest "macd" in
            let macd_signal := latest_get latest "macd_signal" in
            match rsi, stoch, macd, macd_signal with
            | Some rsi, Some stoch, Some macd, Some macd_signal =>
                let '(signal_type, reasons) :=
                  evaluate_conditions self rsi stoch macd macd_signal in
                let strength :=
                  calculate_strength self signal_type rsi stoch macd macd_signal in
                Ok {| type := signal_type; strength := strength;
                      rsi := Some rsi; stoch := Some stoch; macd := Some macd;
                      macd_signal := Some macd_signal;
                      reason := join " | " reasons |}
            | _, _, _, _ =>
                (* pd.isna(rsi) or pd.isna(stoch) or pd.isna(macd) or pd.isna(macd_signal) *)
                Ok {| type := NEUTRAL; strength := 0; rsi := rsi; stoch := stoch;
                      macd := macd; macd_signal := macd_signal;
                      reason := "Insufficient data for indicators" |}
            end
        end
    end.

(** [result.get("error", "No data")] on a dict that has the key. *)
Definition error_value (error : option string) : pyval :=
  match error with
  | Some msg => VStr msg
  | None => VNone
  end.

Definition error_record (symbol : string) (error : pyval) : gmap string pyval :=
  <["symbol" := VStr symbol]>
  (<["signal" := VStr "ERROR"]>
  (<["error" := error]> ∅)).

Definition is_none {A : Type} (x : option A) : bool :=
  match x with
  | None => true
  | Some _ => false
  end.

(** The loop of [generate_signals_batch], [signals] being the list it
    appends to; [generate_signal_of data] is the call
    [self.generate_signal(data)], which raises on a [data] that is no frame. *)
Fixpoint batch_loop (self : SignalGenerator) (scan_results : list Scan.ScanResult)
    (signals : list (gmap string pyval)) : list (gmap string pyval) :=
  let generate_signal_of (data : option DataFrame) : Result Signal :=
    match data with
    | Some df => generate_signal self df true
    | None => Raise "'NoneType' object has no attribute 'empty'"
    end in
  match scan_results with
  | [] => signals
  | result :: rest =>
      let symbol := Scan.symbol result in
      let data := Scan.data result in
      if is_none data || truthy_str (Scan.error result) then
        batch_loop self rest
          (signals ++ [error_record symbol (error_value (Scan.error result))])%list
      else
        match generate_signal_of data with
        | Ok signal =>
            batch_loop self rest
              (signals ++ [to_dict signal ∪ {["symbol" := VStr symbol]}])%list
        | Raise e =>
            batch_loop self rest (signals ++ [error_record symbol (VStr e)])%list
        end
  end.

(** The record one turn of the loop appends for [result]. *)
Definition batch_record (self : SignalGenerator) (result : Scan.ScanResult)
    : gmap string pyval :=
  match batch_loop self [result] [] with
  | record :: _ => record
  | [] => ∅
  end.

Definition generate_signals_batch (self : SignalGenerator)
    (scan_results : list Scan.ScanResult) : list (gmap string pyval) :=
  batch_loop self scan_results [].

End Evaluator.

(** The strength score as the specification words it: the unweighted
    average of three components, the first two being the distance of the
    value from its threshold, doubled and saturating at distance 50, the
    third the gap between the trend value and its reference, times 50 and
    saturating at 100. *)
Definition spec_strength (self : SignalGenerator) (signal_type : SignalType)
    (rsi stoch macd macd_signal : Q) : Q :=
  match signal_type with
  | NEUTRAL => 0
  | _ =>
      ((Qmin (Qabs (rsi - rsi_threshold self)) 50 * 2
        + Qmin (Qabs (stoch - stoch_threshold self)) 50 * 2
        + Qmin (Qabs (macd - macd_signal) * 50) 100) / 3)%Q
  end.

End Signals.

(** ** Sample data

    A small frame, worlds and collaborators, on which the properties below
    are exercised. *)

Module Sample.

Definition bar (close : Q) : gmap string (option Q) :=
  <["open" := Some close]> (<["high" := Some close]> (<["low" := Some close]>
  (<["close" := Some close]> (<["volume" := Some 1000%Q]> ∅)))).

Definition frame : DataFrame :=
  {| columns := ["open"; "high"; "low"; "close"; "volume"];
     rows := [bar 100; bar 101] |}.

Definition cache : Cache.CacheManager := Cache.init default_config None None None.

Definition disabled_cache : Cache.CacheManager :=
  Cache.init default_config None None (Some false).

(** One minute past the epoch, in a zone on UTC, nothing cached yet. *)
Definition world : World :=
  {| clock := 60000000; utcoffset := fun _ => 0%Z; unconvertible := fun _ => None;
     files := ∅; read_only := false;
     source_calls := [] |}.

(** A store holding an unreadable file for (AAPL, 1d), written at the epoch. *)
Definition corrupt_world : World :=
  with_files (<[Cache._get_cache_path cache "AAPL" "1d"
                 := {| st_mtime := 0; payload := Garbage |}]> ∅) world.

(** A store holding [frame] for (AAPL, 1d), written at the epoch. *)
Definition cached_world : World :=
  with_files (<[Cache._get_cache_path cache "AAPL" "1d"
                 := {| st_mtime := 0; payload := Parquet frame |}]> ∅) world.

(** A source that knows every symbol but ["BAD"], and records its calls. *)
Definition source : Scan.DataProvider :=
  {| Scan.fetch_ohlcv := fun symbol _ _ _ w =>
       if String.eqb symbol "BAD"
       then (Raise "Could not fetch data for BAD", log_source_call symbol w)
       else (Ok frame, log_source_call symbol w) |}.

Definition fetcher : M DataFrame := Scan.fetch_ohlcv source "AAPL" 0 0 "1d".

Definition scanner : Scan.Scanner := Scan.init default_config source None.

(** An indicator engine that fills the four columns with the given values. *)
Definition engine (rsi stoch macd macd_signal : option Q) : Signals.IndicatorEngine :=
  {| Signals.add_all_indicators := fun df =>
       Ok {| columns := columns df ++ ["rsi"; "stoch_d"; "macd"; "macd_signal"];
             rows := (fun row => <["rsi" := rsi]> (<["stoch_d" := stoch]>
                       (<["macd" := macd]> (<["macd_signal" := macd_signal]> row))))
                     <$> rows df |} |}.

Definition generator (rsi stoch macd macd_signal : option Q) : Signals.SignalGenerator :=
  Signals.init default_config (engine rsi stoch macd macd_signal).

(** A generator configured with an RSI threshold of 60. *)
Definition generator_60 : Signals.SignalGenerator :=
  {| Signals.indicators := engine None None None None;
     Signals.rsi_threshold := 60;
     Signals.stoch_threshold := 50 |}.

(** Fixed-point rendering with one decimal. *)
Definition fixed_1 (x : Q) : string :=
  let tenths := Z.abs (round_half_even (x * 10)) in
  (if Qlt_bool x 0 then "-" else "")
  +:+ pretty (tenths / 10)%Z +:+ "." +:+ pretty (tenths mod 10)%Z.

#[export] Instance fixed_format : PyFormat :=
  {| format_1f := fixed_1; str_float := fixed_1 |}.

End Sample.

(** ** Cache invalidation ([CacheManager.invalidate]) *)

(** [Path.glob], a library routine that walks the file system:
    [glob_paths directory pattern fs] is what iterating
    [Path(directory).glob(pattern)] yields on the store [fs], each path
    yielded given as the key under which the store holds the file it
    denotes, or the text of the exception raised.  A pattern with [..]
    leads out of the directory; a path yielded that is a directory is no
    key of the store. *)
Class Glob : Type := {
  glob_paths : string -> string -> gmap string file -> Result (list string);
}.

Module Invalidate.

(** [directory.glob(pattern)] *)
Definition glob `{Glob} (directory pattern : string) : M (list string) := fun w =>
  (glob_paths directory pattern (files w), w).

(** [path.unlink()]: a path that is no file of the store (the file is gone,
    or the path is a directory) is refused. *)
Definition unlink (path : string) : M unit := fun w =>
  match files w !! path with
  | None => (Raise "No such file or directory", w)
  | Some _ =>
      if read_only w then (Raise "Permission denied", w)
      else (Ok tt, with_files (delete path (files w)) w)
  end.

(** [for x in xs: body(x)] *)
Fixpoint for_each {A : Type} (body : A -> M unit) (xs : list A) : M unit :=
  match xs with
  | [] => mret tt
  | x :: rest => _ ← body x; for_each body rest
  end.

Definition invalidate `{Glob} (self : Cache.CacheManager)
    (symbol interval : option string) : M unit :=
  if truthy_str symbol && truthy_str interval then
    let cache_path :=
      Cache._get_cache_path self (default "" symbol) (default "" interval) in
    fun w =>
      match files w !! cache_path with
      | Some _ => unlink cache_path w
      | None => (Ok tt, w)
      end
  else
    let pattern :=
      if truthy_str symbol then upper (default "" symbol) +:+ "_*.parquet"
      else if truthy_str interval then "*_" +:+ default "" interval +:+ ".parquet"
      else "*.parquet" in
    cache_files ← glob (Cache.cache_dir self) pattern;
    for_each unlink cache_files.

End Invalidate.

(** ** Filtering signal records ([SignalGenerator.filter_by_signal]) *)

(** The text of the [TypeError] Python raises for [v >= min_strength] on a
    value that is no number. *)
Class PyErrors : Type := {
  not_comparable : pyval -> string;
}.

Module Filter.

(** [s.get("signal") == target] *)
Definition signal_is (target : string) (s : gmap string pyval) : bool :=
  match s !! "signal" with
  | Some (VStr x) => String.eqb x target
  | _ => false
  end.

(** [s.get("strength", 0) >= min_strength] *)
Definition strength_at_least `{PyErrors} (min_strength : Q) (s : gmap string pyval)
    : Result bool :=
  match default (VNum 0) (s !! "strength") with
  | VNum x => Ok (Qle_bool min_strength x)
  | v => Raise (not_comparable v)
  end.

(** The list comprehension: the strength is looked at only when the signal
    matches, and the first comparison that raises ends it. *)
Fixpoint comprehension `{PyErrors} (target : string) (min_strength : Q)
    (signals : list (gmap string pyval)) : Result (list (gmap string pyval)) :=
  match signals with
  | [] => Ok []
  | s :: rest =>
      match (if signal_is target s then strength_at_least min_strength s else Ok false) with
      | Raise e => Raise e
      | Ok keep =>
          match comprehension target min_strength rest with
          | Raise e => Raise e
          | Ok kept => Ok (if keep then s :: kept else kept)
          end
      end
  end.

(** Whether the comprehension keeps a record whose strength is a number or
    is missing. *)
Definition keeps (target : string) (min_strength : Q) (s : gmap string pyval) : bool :=
  signal_is target s
  && match s !! "strength" with
     | Some (VNum y) => Qle_bool min_strength y
     | None => Qle_bool min_strength 0
     | Some _ => false
     end.

(** [signal_type] is a [SignalType] or a string. *)
Definition filter_by_signal `{PyErrors} (signals : list (gmap string pyval))
    (signal_type : Signals.SignalType + string) (min_strength : Q)
    : Result (list (gmap string pyval)) :=
  let target :=
    match signal_type with
    | inl t => Signals.value t
    | inr s => upper s
    end in
  comprehension target min_strength signals.

End Filter.

(** ** The provider interface ([data/provider.py], [data/yfinance_provider.py]) *)

(** Dates are day numbers.  [str_date d] is [f"{d}"] for a date and
    [strptime s] is [datetime.strptime(s, "%Y-%m-%d")], as a day number;
    [empty_min] is the text of the [ValueError] of [min] on an empty
    sequence. *)
Class PyDates : Type := {
  str_date : Z -> string;
  strptime : string -> Result Z;
  empty_min : string;
}.

Module Provider.

(** [c.isspace()] on a one-byte character. *)
Definition is_space (c : ascii) : bool :=
  let n := nat_of_ascii c in
  ((9 <=? n) && (n <=? 13) || (28 <=? n) && (n <=? 32))%nat.

Fixpoint lstrip (s : string) : string :=
  match s with
  | EmptyString => EmptyString
  | String c rest => if is_space c then lstrip rest else s
  end.

Fixpoint rstrip (s : string) : string :=
  match s with
  | EmptyString => EmptyString
  | String c rest =>
      match rstrip rest with
      | EmptyString => if is_space c then EmptyString else String c EmptyString
      | kept => String c kept
      end
  end.

(** [s.strip()] *)
Definition strip (s : string) : string := rstrip (lstrip s).

Definition validate_symbol (symbol : string) : string := upper (strip symbol).

Definition validate_date_range `{PyDates} (w : World) (start end_ : Z) : Result (Z * Z) :=
  let today := today w in
  if (end_ <? start)%Z then
    Raise ("Start date " +:+ str_date start +:+ " is after end date " +:+ str_date end_)
  else if (today <? start)%Z then
    Raise ("Start date " +:+ str_date start +:+ " is in the future")
  else
    let end_ := if (today <? end_)%Z then today else end_ in
    Ok (start, end_).

(** The loop of [min(expirations, key=...)] once a first candidate is
    held: a later item replaces it when its key is strictly smaller. *)
Fixpoint min_by_distance `{PyDates} (target : Z) (best : string) (best_key : Z)
    (rest : list string) : Result string :=
  match rest with
  | [] => Ok best
  | x :: rest' =>
      match strptime x with
      | Raise e => Raise e
      | Ok d =>
          let key := Z.abs (d - target) in
          if (key <? best_key)%Z then min_by_distance target x key rest'
          else min_by_distance target best best_key rest'
      end
  end.

Definition _find_closest_expiration `{PyDates} (expirations : list string) (target : Z)
    : Result string :=
  match expirations with
  | [] => Raise empty_min
  | x :: rest =>
      match strptime x with
      | Raise e => Raise e
      | Ok d => min_by_distance target x (Z.abs (d - target)) rest
      end
  end.

End Provider.

(** ** The configuration singleton ([config/settings.py]) *)

Module Settings.

(** What the configuration files hold: for a path that exists, the outcome
    of reading it and validating it as an [AppConfig]. *)
Record ConfigFiles : Type := {
  default_path : string;
  parsed : gmap string (Result AppConfig);
}.

Definition load_config (env : ConfigFiles) (config_path : option string) : Result AppConfig :=
  let config_path := default (default_path env) config_path in
  match parsed env !! config_path with
  | Some outcome => outcome
  | None => Ok default_config
  end.

(** The module global [_config] is the state. *)
Definition get_config (env : ConfigFiles) (_config : option AppConfig)
    : Result AppConfig * option AppConfig :=
  match _config with
  | Some config => (Ok config, _config)
  | None =>
      match load_config env None with
      | Ok config => (Ok config, Some config)
      | Raise e => (Raise e, _config)
      end
  end.

Definition reload_config (env : ConfigFiles) (config_path : option string)
    (_config : option AppConfig) : Result AppConfig * option AppConfig :=
  match load_config env config_path with
  | Ok config => (Ok config, Some config)
  | Raise e => (Raise e, _config)
  end.

End Settings.

(** ** The universe of symbols ([universe/manager.py]) *)

(** [pathlib]: [Path s] is the path the string [s] denotes, as its
    normalised string; [joinpath p s] is [p / s]. *)
Class PathLib : Type := {
  Path : string -> string;
  joinpath : string -> string -> string;
}.

Definition lower_char (c : ascii) : ascii :=
  let n := nat_of_ascii c in
  if ((65 <=? n) && (n <=? 90))%nat then ascii_of_nat (n + 32) else c.

(** [s.lower()] on one-byte characters. *)
Definition lower (s : string) : string := map_chars lower_char s.

Module Universe.

(** What [yaml.safe_load] returns.  A mapping is the list of its entries as
    written; Python builds the dict from it, so a key written twice keeps
    its first position and takes its last value. *)
#[warnings="-register-all"]
Inductive yaml : Type :=
| YNull
| YStr (s : string)
| YInt (n : Z)
| YSeq (items : list yaml)
| YMap (entries : list (string * yaml)).

(** [data.get(key)] on a mapping. *)
Fixpoint entries_get (key : string) (entries : list (string * yaml)) : option yaml :=
  match entries with
  | [] => None
  | (k, v) :: rest =>
      match entries_get key rest with
      | Some later => Some later
      | None => if String.eqb k key then Some v else None
      end
  end.

(** The keys of the dict, in the order iteration yields them. *)
Fixpoint entries_keys (seen : list string) (entries : list (string * yaml)) : list string :=
  match entries with
  | [] => []
  | (k, _) :: rest =>
      if bool_decide (k ∈ seen) then entries_keys seen rest
      else k :: entries_keys (k :: seen) rest
  end.

(** The characters of a string, each a string. *)
Fixpoint characters (s : string) : list string :=
  match s with
  | EmptyString => []
  | String c rest => String c EmptyString :: characters rest
  end.

(** The files the manager reads and writes: for a path that exists, the
    document it parses to, or [None] when reading or parsing it fails. *)
Definition Documents : Type := gmap string (option yaml).

Record UniverseManager : Type := {
  default_universe : string;
  custom_watchlist : string;
  watchlist_dir : string;
}.

(** [UniverseManager.__init__], with the two settings it reads from the
    configuration. *)
Definition init `{PathLib} (default_universe custom_watchlist : string)
    (watchlist_dir : option string) : UniverseManager :=
  {| default_universe := default_universe;
     custom_watchlist := custom_watchlist;
     watchlist_dir :=
       if truthy_str watchlist_dir then Path (default "" watchlist_dir)
       else Path "universe/watchlists" |}.

(** [[t.upper() for t in tickers]]; [None] when it raises. *)
Definition upper_all (tickers : yaml) : option (list string) :=
  match tickers with
  | YSeq items =>
      mapM (fun t => match t with YStr s => Some (upper s) | _ => None end) items
  | YStr s => Some (upper <$> characters s)
  | YMap entries => Some (upper <$> entries_keys [] entries)
  | YNull | YInt _ => None
  end.

Definition _load_watchlist_file `{PathLib} (self : UniverseManager) (docs : Documents)
    (path : string) : list string :=
  let path := Path path in
  let path :=
    match docs !! path with
    | Some _ => path
    | None => joinpath (watchlist_dir self) (path +:+ ".yaml")
    end in
  match docs !! path with
  | None => []
  | Some None => []
  | Some (Some data) =>
      match data with
      | YMap entries =>
          let tickers := default (YSeq []) (entries_get "tickers" entries) in
          default [] (upper_all tickers)
      | _ => []
      end
  end.

Definition _load_custom_watchlist `{PathLib} (self : UniverseManager) (docs : Documents)
    : list string :=
  let watchlist_path := Path (custom_watchlist self) in
  _load_watchlist_file self docs watchlist_path.

Definition _get_sp500 : list string :=
  ["AAPL"; "MSFT"; "AMZN"; "NVDA"; "GOOGL"; "META"; "GOOG"; "BRK.B";
   "UNH"; "XOM"; "LLY"; "JPM"; "JNJ"; "V"; "PG"; "MA"; "AVGO"; "HD";
   "CVX"; "MRK"; "ABBV"; "COST"; "PEP"; "KO"; "ADBE"; "WMT"; "MCD";
   "CSCO"; "CRM"; "BAC"; "PFE"; "ACN"; "TMO"; "NFLX"; "AMD"; "LIN";
   "ORCL"; "ABT"; "DHR"; "DIS"; "CMCSA"; "VZ"; "INTC"; "WFC"; "PM";
   "NEE"; "TXN"; "RTX"; "UPS"; "HON"].

Definition _get_nasdaq100 : list string :=
  ["AAPL"; "MSFT"; "AMZN"; "NVDA"; "GOOGL"; "META"; "GOOG"; "AVGO";
   "TSLA"; "ADBE"; "COST"; "PEP"; "CSCO"; "NFLX"; "AMD"; "CMCSA";
   "INTC"; "TMUS"; "TXN"; "QCOM"; "AMGN"; "HON"; "INTU"; "AMAT";
   "ISRG"; "BKNG"; "SBUX"; "MDLZ"; "GILD"; "ADI"].

Definition _get_dow30 : list string :=
  ["AAPL"; "AMGN"; "AXP"; "BA"; "CAT"; "CRM"; "CSCO"; "CVX"; "DIS";
   "DOW"; "GS"; "HD"; "HON"; "IBM"; "INTC"; "JNJ"; "JPM"; "KO";
   "MCD"; "MMM"; "MRK"; "MSFT"; "NKE"; "PG"; "TRV"; "UNH"; "V";
   "VZ"; "WBA"; "WMT"].

Definition get_tickers `{PathLib} (self : UniverseManager) (docs : Documents)
    (universe : option string) : list string :=
  let universe := default (default_universe self) universe in
  let universe := lower universe in
  if String.eqb universe "custom" then _load_custom_watchlist self docs
  else if String.eqb universe "sp500" then _get_sp500
  else if String.eqb universe "nasdaq100" then _get_nasdaq100
  else if String.eqb universe "dow30" then _get_dow30
  else _load_watchlist_file self docs universe.

(** The operating system behind [save_watchlist].  [mkdir directory docs]
    is [Path(directory).mkdir(parents=True, exist_ok=True)]: the store with
    the directories it made, which then exist without being documents, or
    the text of the [OSError].  [open_for_writing path docs] is
    [open(path, "w")]: the text of the [OSError] when the file cannot be
    created (a directory on the way is missing, the path is a directory,
    permission is denied), [None] when it is opened. *)
Class Storage : Type := {
  mkdir : string -> Documents -> Result Documents;
  open_for_writing : string -> Documents -> option string;
}.

(** [save_watchlist] returns the path written and the store after it.  The
    document written is the one [yaml.safe_load] reads back from what
    [yaml.dump] wrote, keys sorted. *)
Definition save_watchlist `{PathLib} `{Storage} (self : UniverseManager) (name : string)
    (tickers : list string) (description : string) (docs : Documents)
    : Result string * Documents :=
  match mkdir (watchlist_dir self) docs with
  | Raise e => (Raise e, docs)
  | Ok docs =>
      let filename := replace " " "_" (lower name) +:+ ".yaml" in
      let path := joinpath (watchlist_dir self) filename in
      let data :=
        YMap [("description", YStr description);
              ("name", YStr name);
              ("tickers", YSeq (YStr <$> (upper <$> tickers)))] in
      match open_for_writing path docs with
      | Some e => (Raise e, docs)
      | None => (Ok path, <[path := Some data]> docs)
      end
  end.

End Universe.

(** ** Scanning a universe ([Scanner.scan_universe]) *)

Module ScanUniverse.


End ScanUniverse.

(** ** Further sample data *)

Module Cases.

(** A manager whose TTL for daily bars is zero. *)
Definition zero_ttl_cache : Cache.CacheManager :=
  Cache.init default_config None (Some (<["1d" := 0%Z]> ∅)) None.

(** A store that cannot be written. *)
Definition read_only_world : World :=
  {| clock := clock Sample.world; utcoffset := utcoffset Sample.world;
     unconvertible := unconvertible Sample.world; files := files Sample.world;
     read_only := true; source_calls := source_calls Sample.world |}.

(** The world after [Sample.fetcher] ran in [Sample.world]. *)
Definition fetched_world : World := log_source_call "AAPL" Sample.world.

(** A zone two hours ahead of UTC until the instant [change], when its
    clocks are put back, and one hour ahead from then on. *)
Definition clocks_put_back (change t : Z) : Z :=
  if (t <? change)%Z then 7200000000%Z else 3600000000%Z.

(** 2024-10-27, 01:30 UTC, in a zone whose clocks went back at 01:00 UTC;
    the store holds an entry for (AAPL, 1h) written at 00:45 UTC. *)
Definition autumn_world : World :=
  {| clock := 1729992600000000;
     utcoffset := clocks_put_back 1729990800000000;
     unconvertible := fun _ => None;
     files := <[Cache._get_cache_path Sample.cache "AAPL" "1h"
                 := {| st_mtime := 1729989900000000; payload := Parquet Sample.frame |}]> ∅;
     read_only := false;
     source_calls := [] |}.

(** A manager whose TTL for hourly bars is 10^15 minutes. *)
Definition endless_ttl_cache : Cache.CacheManager :=
  Cache.init default_config None (Some (<["1h" := 1000000000000000%Z]> ∅)) None.

(** The default configuration but for the two settings of the scanner. *)
Definition scanner_config (max_concurrent batch_delay_ms : Z) : AppConfig :=
  {| rsi_config_threshold := rsi_config_threshold default_config;
     stochastics_config_threshold := stochastics_config_threshold default_config;
     data_lookback_days := data_lookback_days default_config;
     cache_config_enabled := cache_config_enabled default_config;
     cache_config_directory := cache_config_directory default_config;
     cache_config_ttl_minutes := cache_config_ttl_minutes default_config;
     scanner_max_concurrent := max_concurrent;
     scanner_batch_delay_ms := batch_delay_ms |}.

(** A scanner configured with [scanner.max_concurrent: 0]. *)
Definition empty_pool_scanner : Scan.Scanner :=
  Scan.init (scanner_config 0 100) Sample.source None.

(** A scanner configured with [scanner.batch_delay_ms: 10000000000000000]. *)
Definition endless_pause_scanner : Scan.Scanner :=
  Scan.init (scanner_config 10 10000000000000000) Sample.source None.

End Cases.

(** The pause [Scanner.scan_symbols] makes after each completion, in
    microseconds. *)
Definition pause_microseconds (self : Scan.Scanner) : Z :=
  if bool_decide (0 < Scan.batch_delay_ms self)%Z
  then (Scan.batch_delay_ms self * 1000)%Z
  else 0%Z.

Module SignalCases.

(** An indicator engine that fails on every frame. *)
Definition failing_engine : Signals.IndicatorEngine :=
  {| Signals.add_all_indicators := fun _ => Raise "'NoneType' object has no attribute 'iloc'" |}.

Definition failing_generator : Signals.SignalGenerator :=
  Signals.init default_config failing_engine.

(** [Sample.frame] with the four indicator columns filled in. *)
Definition frame_with_indicators : DataFrame :=
  match Signals.add_all_indicators
          (Sample.engine (Some 55%Q) (Some 62%Q) (Some 1%Q) (Some 0%Q)) Sample.frame with
  | Ok df => df
  | Raise _ => Sample.frame
  end.

End SignalCases.

Module SignalCases2.

(** The signal for [Sample.frame] when the engine reports 55, 62, 1, 0. *)
Definition bullish_signal : Signals.Signal :=
  match @Signals.generate_signal Sample.fixed_format
          (Sample.generator (Some 55%Q) (Some 62%Q) (Some 1%Q) (Some 0%Q))
          Sample.frame true with
  | Ok s => s
  | Raise _ =>
      {| Signals.type := Signals.NEUTRAL; Signals.strength := 0; Signals.rsi := None;
         Signals.stoch := None; Signals.macd := None; Signals.macd_signal := None;
         Signals.reason := "" |}
  end.

End SignalCases2.

Module BatchCases.

(** Two scan results: a series, and a failed fetch. *)
Definition scan_results : list Scan.ScanResult :=
  [ {| Scan.symbol := "AAPL"; Scan.data := Some Sample.frame; Scan.error := None |};
    {| Scan.symbol := "BAD"; Scan.data := None;
       Scan.error := Some "Could not fetch data for BAD" |} ].

Definition batch : list (gmap string pyval) :=
  @Signals.generate_signals_batch Sample.fixed_format
    (Sample.generator (Some 55%Q) (Some 62%Q) (Some 1%Q) (Some 0%Q)) scan_results.

Definition first_record : gmap string pyval := default ∅ (head batch).

End BatchCases.

Module TimeCases.

(** A platform whose clock counts 2^63 nanoseconds. *)
#[export] Instance sample_time : PyTime :=
  {| sleep_error := fun _ ms =>
       if (ms <=? 9223372036854)%Z then None
       else Some "timestamp too large to convert to C _PyTime_t" |}.

End TimeCases.

Module FilterCases.

#[export] Instance plain_errors : PyErrors :=
  {| not_comparable := fun _ => "'>=' not supported" |}.

End FilterCases.

(** The characters a glob pattern takes literally. *)
Definition literal_char (c : ascii) : bool :=
  negb (Ascii.eqb c "*" || Ascii.eqb c "?" || Ascii.eqb c "[" || Ascii.eqb c "/"
        || Ascii.eqb c "\").

Fixpoint literal_string (s : string) : bool :=
  match s with
  | EmptyString => true
  | String c rest => literal_char c && literal_string rest
  end.

(** A pattern of one component: it holds no separator. *)
Definition one_component (pattern : string) : bool :=
  negb (contains_char "/" pattern) && negb (contains_char "\" pattern).

(** What [Path.glob] does with a pattern of one component that begins with
    literal characters: of the entries of the directory it yields only
    those whose name begins with these characters, letter case apart where
    the file system ignores it. *)
Definition matches_literally `{Glob} : Prop :=
  forall directory literal rest fs paths name,
    literal_string literal = true ->
    one_component (literal +:+ rest) = true ->
    glob_paths directory (literal +:+ rest) fs = Ok paths ->
    Cache.path_join directory name ∈ paths ->
    exists head tail, name = head +:+ tail /\ upper head = upper literal.

Module GlobCases.

Fixpoint strip_prefix (prefix s : string) : option string :=
  match prefix, s with
  | EmptyString, _ => Some s
  | String c p, String d r => if Ascii.eqb c d then strip_prefix p r else None
  | String _ _, EmptyString => None
  end.

(** The path of a file below [directory], relative to it. *)
Definition relative_to (directory path : string) : option string :=
  strip_prefix (Cache.path_join directory "") path.

(** A matcher for patterns of literal characters, [?] and [*], neither of
    the two crossing a [/]. *)
Fixpoint simple_match (pattern : string) : string -> bool :=
  match pattern with
  | EmptyString =>
      fun name => match name with EmptyString => true | String _ _ => false end
  | String c rest =>
      if Ascii.eqb c "*" then
        fix star (name : string) : bool :=
          simple_match rest name
          || match name with
             | EmptyString => false
             | String d name' => negb (Ascii.eqb d "/") && star name'
             end
      else if Ascii.eqb c "?" then
        fun name =>
          match name with
          | EmptyString => false
          | String d name' => negb (Ascii.eqb d "/") && simple_match rest name'
          end
      else
        fun name =>
          match name with
          | EmptyString => false
          | String d name' => Ascii.eqb c d && simple_match rest name'
          end
  end.

Definition selects (directory pattern path : string) : bool :=
  match relative_to directory path with
  | Some rel => simple_match pattern rel
  | None => false
  end.

(** A small [glob] for the examples: the files below the directory whose
    relative path the pattern matches, on a file system that tells letter
    case apart. *)
Definition simple_paths (directory pattern : string) (fs : gmap string file)
    : Result (list string) :=
  Ok (filter (fun path => selects directory pattern path = true) (map_to_list fs).*1).

#[export] Instance simple_glob : Glob := {| glob_paths := simple_paths |}.

(** A store with entries for AAPL and BRK.B and a file outside the cache. *)
Definition world : World :=
  with_files
    (<[Cache._get_cache_path Sample.cache "AAPL" "1d"
        := {| st_mtime := 0; payload := Parquet Sample.frame |}]>
     (<[Cache._get_cache_path Sample.cache "BRK.B" "1d"
         := {| st_mtime := 0; payload := Parquet Sample.frame |}]>
      (<["notes/AAPL_1d.parquet"
          := {| st_mtime := 0; payload := Parquet Sample.frame |}]> ∅)))
    Sample.world.

End GlobCases.

Module DateCases.

(** Three expiration dates and their day numbers. *)
Definition sample_strptime (s : string) : Result Z :=
  if String.eqb s "2024-01-19" then Ok 19741%Z
  else if String.eqb s "2024-02-16" then Ok 19769%Z
  else if String.eqb s "2024-03-15" then Ok 19797%Z
  else Raise ("time data '" +:+ s +:+ "' does not match format '%Y-%m-%d'").

#[export] Instance sample_dates : PyDates :=
  {| str_date := fun d => "day " +:+ pretty d;
     strptime := sample_strptime;
     empty_min := "min() arg is an empty sequence" |}.

Definition expirations : list string := ["2024-01-19"; "2024-02-16"; "2024-03-15"].

End DateCases.

(** A string that does not begin with white space. *)
Definition headed (s : string) : Prop :=
  match s with
  | EmptyString => True
  | String c _ => Provider.is_space c = false
  end.

Module UniverseCases.

(** Paths kept as they are written, joined with a slash. *)
#[export] Instance plain_paths : PathLib :=
  {| Path := fun s => s; joinpath := Cache.path_join |}.

Definition manager : Universe.UniverseManager :=
  @Universe.init plain_paths "custom" "universe/watchlists/default.yaml" None.

(** A disk on which the watchlist directory exists and every file in it can
    be written; elsewhere the directory on the way is missing. *)
#[export] Instance plain_storage : Universe.Storage :=
  {| Universe.mkdir := fun _ docs => Ok docs;
     Universe.open_for_writing := fun path _ =>
       match GlobCases.relative_to "universe/watchlists" path with
       | Some name =>
           if contains_char "/" name
           then Some ("[Errno 2] No such file or directory: '" +:+ path +:+ "'")
           else None
       | None => Some ("[Errno 2] No such file or directory: '" +:+ path +:+ "'")
       end |}.

(** The default watchlist, as shipped, in lower case. *)
Definition docs : Universe.Documents :=
  <["universe/watchlists/default.yaml"
     := Some (Universe.YMap [("name", Universe.YStr "Default");
                             ("tickers", Universe.YSeq [Universe.YStr "aapl";
                                                        Universe.YStr "msft"])])]> ∅.

End UniverseCases.

(** * Properties *)

(** ** Strings and file names *)

Section FileNames.

Lemma plain_symbol_sanitised s :
  plain_symbol s = true ->
  replace "." "_" (replace "/" "_" (upper s)) = s /\ contains_char "_" s = false.
Proof.
  unfold replace, upper.
  induction s as [|c s IH]; cbn [plain_symbol map_chars contains_char]; [done|].
  rewrite !andb_true_iff, !negb_true_iff.
  intros [[[[Hup Hslash] Hdot] Hus] Hrest].
  destruct (IH Hrest) as [IHs IHc].
  apply Ascii.eqb_eq in Hup. rewrite Hup, Hslash, Hdot, Hus, IHs, IHc. done.
Qed.

Lemma append_underscore_inj s1 s2 t1 t2 :
  contains_char "_" s1 = false -> contains_char "_" s2 = false ->
  s1 +:+ String "_" t1 = s2 +:+ String "_" t2 -> s1 = s2 /\ t1 = t2.
Proof.
  revert s2. induction s1 as [|c s1 IH]; intros [|d s2]; simpl.
  - intros _ _ Heq. by inversion Heq.
  - rewrite orb_false_iff. intros _ [Hd _] Heq. inversion Heq; subst.
    by rewrite Ascii.eqb_refl in Hd.
  - rewrite orb_false_iff. intros [Hc _] _ Heq. inversion Heq; subst.
    by rewrite Ascii.eqb_refl in Hc.
  - rewrite !orb_false_iff. intros [_ H1] [_ H2] Heq. inversion Heq; subst.
    destruct (IH s2 H1 H2) as [-> ->]; done.
Qed.

Lemma length_append s t :
  String.length (s +:+ t) = (String.length s + String.length t)%nat.
Proof. induction s as [|c s IH]; simpl; [done|]. by rewrite IH. Qed.

Lemma append_inv_tail s1 s2 t : s1 +:+ t = s2 +:+ t -> s1 = s2.
Proof.
  revert s2. induction s1 as [|c s1 IH]; intros [|d s2] Heq; simpl in *.
  - done.
  - apply (f_equal String.length) in Heq.
    rewrite ?length_append in Heq. simpl in Heq.
    rewrite ?length_append in Heq. lia.
  - apply (f_equal String.length) in Heq.
    rewrite ?length_append in Heq. simpl in Heq.
    rewrite ?length_append in Heq. lia.
  - inversion Heq; subst. f_equal. by apply IH.
Qed.

Lemma append_inv_head s t1 t2 : s +:+ t1 = s +:+ t2 -> t1 = t2.
Proof. induction s as [|c s IH]; simpl; intros Heq; [done|]. inversion Heq. auto. Qed.

End FileNames.

(** C9, as stated, fails: keys that differ in letter case, in the
    characters the sanitising replaces, or in where the underscore falls
    share one file name. *)
Lemma cache_filename_collision :
  ("aapl", "1d") <> ("AAPL", "1d")
  /\ Cache.cache_filename "aapl" "1d" = Cache.cache_filename "AAPL" "1d"
  /\ ("BRK.B", "1d") <> ("BRK/B", "1d")
  /\ Cache.cache_filename "BRK.B" "1d" = Cache.cache_filename "BRK/B" "1d"
  /\ ("A_B", "1d") <> ("A", "B_1d")
  /\ Cache.cache_filename "A_B" "1d" = Cache.cache_filename "A" "B_1d".
Proof. repeat split; (discriminate || reflexivity). Qed.

(** C9, amended: the file name is a function of the key, and on keys whose
    symbol is upper-case and free of [/], [.] and [_] it is injective: two
    such keys with one file name are the same key. *)
Theorem cache_filename_injective_on_plain_symbols (s1 i1 s2 i2 : string) :
  plain_symbol s1 = true -> plain_symbol s2 = true ->
  Cache.cache_filename s1 i1 = Cache.cache_filename s2 i2 ->
  s1 = s2 /\ i1 = i2.
Proof.
  intros H1 H2. unfold Cache.cache_filename.
  destruct (plain_symbol_sanitised s1 H1) as [-> Hc1].
  destruct (plain_symbol_sanitised s2 H2) as [-> Hc2].
  intros Heq.
  apply (append_underscore_inj s1 s2) in Heq as [-> Heq]; [|done..].
  split; [done|]. by apply append_inv_tail in Heq.
Qed.

Lemma cache_filename_injective_on_plain_symbols_witness :
  "AAPL" = "AAPL" /\ "1d" = "1d".
Proof.
  apply (cache_filename_injective_on_plain_symbols "AAPL" "1d" "AAPL" "1d");
    reflexivity.
Defined.

(** ** Freshness *)

Section Freshness.
Import Cache.

Lemma is_fresh_present self symbol interval w f :
  enabled self = true ->
  files w !! _get_cache_path self symbol interval = Some f ->
  is_fresh self symbol interval w
  = match expiry self interval w (st_mtime f) with
    | Ok e => Ok (bool_decide (now w < e)%Z)
    | Raise e => Raise e
    end.
Proof.
  intros Hen Hf. unfold is_fresh. rewrite Hen, Hf. simpl.
  unfold mbind, Result_bind. by destruct (expiry _ _ _ _).
Qed.

(** When the expiry can be computed it is the local time of the stamp plus
    the TTL. *)
Lemma expiry_value self interval w t e :
  expiry self interval w t = Ok e ->
  e = (t + utcoffset w t + timedelta_minutes (_get_ttl self interval))%Z.
Proof.
  unfold expiry, fromtimestamp, timedelta, datetime_add, mbind, Result_bind.
  destruct (unconvertible w t); [done|].
  destruct (negb _); [done|]. destruct (negb _); [done|].
  destruct (_ && _); [|done]. by inversion 1.
Qed.

Lemma is_fresh_true self symbol interval w :
  is_fresh self symbol interval w = Ok true ->
  enabled self = true
  /\ exists f e, files w !! _get_cache_path self symbol interval = Some f
       /\ expiry self interval w (st_mtime f) = Ok e /\ (now w < e)%Z.
Proof.
  unfold is_fresh. destruct (enabled self); simpl; [|done].
  destruct (files w !! _) as [f|]; [|done].
  unfold mbind, Result_bind.
  destruct (expiry _ _ _ _) as [e|] eqn:He; [|done].
  intros [= Hlt%bool_decide_eq_true]. split; [done|]. by exists f, e.
Qed.

(** With the same offset from UTC at the write and now, and an expiry that
    can be computed, freshness is the comparison of the time elapsed with
    the TTL. *)
Lemma is_fresh_elapsed self symbol interval w f x :
  enabled self = true ->
  files w !! _get_cache_path self symbol interval = Some f ->
  utcoffset w (st_mtime f) = utcoffset w (clock w) ->
  expiry self interval w (st_mtime f) = Ok x ->
  is_fresh self symbol interval w
  = Ok (bool_decide (clock w - st_mtime f < timedelta_minutes (_get_ttl self interval))%Z).
Proof.
  intros Hen Hf Hoff Hx.
  rewrite (is_fresh_present _ _ _ _ f) by done. rewrite Hx.
  apply expiry_value in Hx. subst x. f_equal.
  apply bool_decide_ext. unfold now. lia.
Qed.

End Freshness.

(** What holds of C3 in the code: with caching disabled or no entry
    [is_fresh] is false; the TTL is the one listed for the interval and 60
    minutes for an interval that is not listed; and as long as the offset
    of local time from UTC is the same at the write and now, and the local
    expiry time is one [datetime] represents, [is_fresh] holds exactly when
    the time elapsed since the write is below the TTL, an entry aged
    exactly the TTL being stale. *)
Lemma is_fresh_iff_elapsed_below_ttl (self : Cache.CacheManager)
    (symbol interval : string) (w : World) :
  (Cache.enabled self = false -> Cache.is_fresh self symbol interval w = Ok false)
  /\ (files w !! Cache._get_cache_path self symbol interval = None ->
      Cache.is_fresh self symbol interval w = Ok false)
  /\ (forall f x, Cache.enabled self = true ->
      files w !! Cache._get_cache_path self symbol interval = Some f ->
      utcoffset w (st_mtime f) = utcoffset w (clock w) ->
      Cache.expiry self interval w (st_mtime f) = Ok x ->
      let e := (clock w - st_mtime f)%Z in
      let T := timedelta_minutes (Cache._get_ttl self interval) in
      (Cache.is_fresh self symbol interval w = Ok true <-> (e < T)%Z)
      /\ (e = T -> Cache.is_fresh self symbol interval w = Ok false))
  /\ (forall t, Cache.ttl_minutes self !! interval = Some t ->
      Cache._get_ttl self interval = t)
  /\ (Cache.ttl_minutes self !! interval = None ->
      Cache._get_ttl self interval = 60%Z).
Proof.
  split; [|split; [|split; [|split]]].
  - intros Hen. unfold Cache.is_fresh. by rewrite Hen.
  - intros Hf. unfold Cache.is_fresh. rewrite Hf. by destruct (Cache.enabled self).
  - intros f x Hen Hf Hoff Hx e T.
    rewrite (is_fresh_elapsed _ _ _ _ f x) by done. fold e T. split.
    + split.
      * intros [= Hlt]. by apply bool_decide_eq_true in Hlt.
      * intros Hlt. f_equal. by apply bool_decide_eq_true.
    + intros HeT. f_equal. apply bool_decide_eq_false. lia.
  - intros t Ht. unfold Cache._get_ttl. by rewrite Ht.
  - intros Ht. unfold Cache._get_ttl. by rewrite Ht.
Qed.

(** C3, where the code departs from it: [is_fresh] compares local wall
    clock times.  In a zone whose clocks were put back one hour at 01:00
    UTC, an entry for (AAPL, 1h) written at 00:45 UTC, whose TTL is 30
    minutes, is still reported fresh at 01:30 UTC, 45 minutes after the
    write; and with a TTL past what [timedelta] takes [is_fresh] raises
    where an answer is due. *)
Theorem is_fresh_across_clock_change :
  (exists f,
     files Cases.autumn_world !! Cache._get_cache_path Sample.cache "AAPL" "1h" = Some f
     /\ (clock Cases.autumn_world - st_mtime f)%Z = timedelta_minutes 45)
  /\ Cache._get_ttl Sample.cache "1h" = 30%Z
  /\ Cache.is_fresh Sample.cache "AAPL" "1h" Cases.autumn_world = Ok true
  /\ Cache.is_fresh Cases.endless_ttl_cache "AAPL" "1h" Cases.autumn_world
     = Raise "Python int too large to convert to C int".
Proof.
  split; [|split; [|split]].
  - eexists. split; [reflexivity|]. reflexivity.
  - reflexivity.
  - vm_compute. reflexivity.
  - vm_compute. reflexivity.
Qed.

(** ** The cache-aware fetch *)

Section CacheAwareFetch.
Import Cache.

Lemma get_fresh_readable self symbol interval w f df :
  is_fresh self symbol interval w = Ok true ->
  files w !! _get_cache_path self symbol interval = Some f ->
  payload f = Parquet df ->
  get self symbol interval w = (Ok (Some df), w).
Proof.
  intros Hfresh Hf Hp.
  destruct (is_fresh_true _ _ _ _ Hfresh) as [Hen _].
  unfold get. rewrite Hen. simpl. rewrite Hfresh. simpl.
  unfold try_except, mbind, M_bind, read_parquet. rewrite Hf.
  destruct f as [mt pl]. simpl in Hp. subst pl. done.
Qed.

Lemma set_true self symbol interval df w w1 :
  set self symbol interval df w = (Ok true, w1) ->
  enabled self = true /\ read_only w = false
  /\ w1 = with_files (<[_get_cache_path self symbol interval
                         := {| st_mtime := clock w; payload := Parquet df |}]> (files w)) w.
Proof.
  unfold set. destruct (enabled self); simpl; [|by inversion 1].
  unfold try_except, mbind, M_bind, to_parquet.
  destruct (read_only w); simpl; [by inversion 1|].
  by inversion 1.
Qed.

Lemma set_succeeds self symbol interval df w :
  enabled self = true -> read_only w = false ->
  (set self symbol interval df w).1 = Ok true.
Proof.
  intros Hen Hro. unfold set. rewrite Hen. simpl.
  unfold try_except, mbind, M_bind, to_parquet. by rewrite Hro.
Qed.

(** [get] leaves the world alone, and [set] does not raise. *)
Lemma get_keeps_world self symbol interval w :
  (get self symbol interval w).2 = w.
Proof.
  unfold get. destruct (enabled self); simpl; [|done].
  destruct (is_fresh self symbol interval w) as [[|]|]; simpl; [|done..].
  unfold try_except, mbind, M_bind, read_parquet.
  by destruct (files w !! _) as [[mt [df|]]|].
Qed.

Lemma set_never_raises self symbol interval df w :
  exists saved w', set self symbol interval df w = (Ok saved, w').
Proof.
  unfold set. destruct (enabled self); simpl; [|by eexists _, _].
  unfold try_except, mbind, M_bind, to_parquet.
  destruct (read_only w); simpl; by eexists _, _.
Qed.

(** On a miss the fetcher runs once; what it returns is handed back
    whether or not the write to the cache succeeds, and what it raises
    reaches the caller. *)
Lemma get_or_fetch_miss config cache symbol interval fetcher w :
  get cache symbol interval w = (Ok None, w) ->
  get_or_fetch config symbol interval fetcher (Some cache) w
  = match fetcher w with
    | (Ok df, w1) => (Ok df, (set cache symbol interval df w1).2)
    | (Raise e, w1) => (Raise e, w1)
    end.
Proof.
  intros Hmiss. unfold get_or_fetch.
  unfold mbind at 1. unfold M_bind at 1. rewrite Hmiss.
  unfold mbind at 1. unfold M_bind at 1.
  destruct (fetcher w) as [[df|e] w1]; [|done].
  unfold mbind, M_bind.
  destruct (set_never_raises cache symbol interval df w1) as (saved & w2 & ->).
  done.
Qed.

(** An entry stamped with the time of [w] is served [d] later, when [d]
    is below the TTL, its expiry can be computed and the offset from UTC has
    not changed. *)
Lemma stored_entry_is_served self symbol interval df w d x path :
  enabled self = true ->
  path = _get_cache_path self symbol interval ->
  expiry self interval w (clock w) = Ok x ->
  utcoffset w (clock w + d) = utcoffset w (clock w) ->
  (d < timedelta_minutes (_get_ttl self interval))%Z ->
  let w1 := with_files (<[path := {| st_mtime := clock w; payload := Parquet df |}]>
                          (files w)) w in
  get self symbol interval (elapse d w1) = (Ok (Some df), elapse d w1).
Proof.
  intros Hen -> Hx Hoff Hd w1.
  apply (get_fresh_readable _ _ _ _
           {| st_mtime := clock w; payload := Parquet df |}); [| |done].
  - rewrite (is_fresh_elapsed _ _ _ _ {| st_mtime := clock w; payload := Parquet df |} x);
      [|done| | |].
    + f_equal. apply bool_decide_eq_true. simpl. lia.
    + simpl. apply lookup_insert_eq.
    + simpl. done.
    + exact Hx.
  - simpl. apply lookup_insert_eq.
Qed.

End CacheAwareFetch.

(** C4, as stated, fails: an entry that is fresh but cannot be read is a
    miss, and the source is called. *)
Lemma fresh_unreadable_entry_calls_source :
  Cache.is_fresh Sample.cache "AAPL" "1d" Sample.corrupt_world = Ok true
  /\ source_calls Sample.corrupt_world = []
  /\ source_calls
       (Cache.get_or_fetch default_config "AAPL" "1d" Sample.fetcher
          (Some Sample.cache) Sample.corrupt_world).2 = ["AAPL"].
Proof. vm_compute. done. Qed.

(** C4, amended: when the entry is fresh and its file can be read,
    [get_or_fetch] returns the cached series and leaves the world as it
    was, whatever the fetcher is: the fetcher is not run. *)
Theorem get_or_fetch_fresh_readable_skips_source (config : AppConfig)
    (cache : Cache.CacheManager) (symbol interval : string) (w : World)
    (f : file) (df : DataFrame) (fetcher : M DataFrame) :
  Cache.is_fresh cache symbol interval w = Ok true ->
  files w !! Cache._get_cache_path cache symbol interval = Some f ->
  payload f = Parquet df ->
  Cache.get_or_fetch config symbol interval fetcher (Some cache) w = (Ok df, w).
Proof.
  intros Hfresh Hf Hp. unfold Cache.get_or_fetch.
  unfold mbind at 1. unfold M_bind.
  by rewrite (get_fresh_readable _ _ _ _ f df).
Qed.

Lemma get_or_fetch_fresh_readable_skips_source_witness :
  Cache.get_or_fetch default_config "AAPL" "1d" Sample.fetcher
    (Some Sample.cache) Sample.cached_world
  = (Ok Sample.frame, Sample.cached_world).
Proof.
  apply (get_or_fetch_fresh_readable_skips_source default_config Sample.cache
           "AAPL" "1d" Sample.cached_world
           {| st_mtime := 0; payload := Parquet Sample.frame |});
    reflexivity.
Defined.

(** C5, as stated, fails: on a manager with caching disabled [set] stores
    nothing and the [get] that follows at once, well inside the TTL, finds
    nothing. *)
Lemma disabled_cache_set_then_get_misses :
  (0 < timedelta_minutes (Cache._get_ttl Sample.disabled_cache "1d"))%Z
  /\ (Cache.set Sample.disabled_cache "AAPL" "1d" Sample.frame Sample.world).1
     = Ok false
  /\ (Cache.get Sample.disabled_cache "AAPL" "1d"
        (Cache.set Sample.disabled_cache "AAPL" "1d" Sample.frame Sample.world).2).1
     = Ok None.
Proof. vm_compute. done. Qed.

(** C5, amended: when [set] reports success (caching is enabled and the
    write went through), a [get] for the same key after a delay [d] below
    the TTL of the interval returns the series that was stored, as long as
    the expiry of the entry can be computed (the time of the write and the
    TTL are within what [datetime] takes) and the offset of local time from
    UTC is at the read what it was at the write. *)
Theorem set_then_get_returns_stored (self : Cache.CacheManager)
    (symbol interval : string) (df : DataFrame) (w w1 : World) (d x : Z) :
  Cache.set self symbol interval df w = (Ok true, w1) ->
  Cache.expiry self interval w (clock w) = Ok x ->
  utcoffset w (clock w + d) = utcoffset w (clock w) ->
  (d < timedelta_minutes (Cache._get_ttl self interval))%Z ->
  Cache.get self symbol interval (elapse d w1) = (Ok (Some df), elapse d w1).
Proof.
  intros Hset Hx Hoff Hd.
  destruct (set_true _ _ _ _ _ _ Hset) as (Hen & _ & ->).
  by apply stored_entry_is_served with (x := x).
Qed.

Lemma set_then_get_returns_stored_witness :
  Cache.get Sample.cache "AAPL" "1d"
    (elapse 1000000 (Cache.set Sample.cache "AAPL" "1d" Sample.frame Sample.world).2)
  = (Ok (Some Sample.frame),
     elapse 1000000 (Cache.set Sample.cache "AAPL" "1d" Sample.frame Sample.world).2).
Proof.
  apply (set_then_get_returns_stored Sample.cache "AAPL" "1d" Sample.frame
           Sample.world _ 1000000 14460000000);
    [reflexivity | reflexivity | reflexivity | vm_compute; reflexivity].
Defined.

(** ** Fan-out *)

Section FanOut.
Import Scan.
Context `{PyTime}.

(** [fetch_symbol] raises only what the computation of the start date
    raises, before the [try]; after it, what [get_or_fetch] returns
    becomes the data of the result and what it raises becomes its error. *)
Lemma fetch_symbol_outcome self sym interval lookback_days w :
  match start_date (today w)
          (default (data_lookback_days (config self)) lookback_days) with
  | Raise e => fetch_symbol self sym interval lookback_days w = (Raise e, w)
  | Ok start =>
      exists r w',
        fetch_symbol self sym interval lookback_days w = (Ok r, w')
        /\ symbol r = sym
        /\ match (Cache.get_or_fetch (config self) sym interval
                    (fetch_ohlcv (provider self) sym start (today w) interval)
                    (Some (cache self)) w).1 with
           | Ok df => data r = Some df /\ error r = None
           | Raise e => data r = None /\ error r = Some e
           end
  end.
Proof.
  unfold fetch_symbol.
  replace (match lookback_days with
           | Some d => d
           | None => data_lookback_days (config self)
           end) with (default (data_lookback_days (config self)) lookback_days)
    by by destruct lookback_days.
  destruct (start_date _ _) as [start|e]; [|done].
  unfold try_except. unfold mbind at 1. unfold M_bind.
  destruct (Cache.get_or_fetch _ _ _ _ _ w) as [[df|e] w1]; simpl;
    eexists _, _; (split; [reflexivity|]); done.
Qed.

(** A pause that [time.sleep] takes at every time is made. *)
Lemma pause_returns self w :
  (forall t, sleep_error t (batch_delay_ms self) = None) ->
  exists w', pause self w = (Ok tt, w').
Proof.
  intros Hsleep. unfold pause. case_bool_decide as Hpos; [|by eexists].
  unfold sleep. destruct (Z.ltb_spec (batch_delay_ms self) 0) as [?|_]; [lia|].
  rewrite Hsleep. by eexists.
Qed.

Lemma as_completed_collects self work (P : ScanResult -> Prop) fuel :
  (forall t, sleep_error t (batch_delay_ms self) = None) ->
  (forall sym w0,
      match (work sym w0).1 with
      | Ok r => symbol r = sym /\ P r
      | Raise e => P {| symbol := sym; data := None; error := Some e |}
      end) ->
  forall schedule futures results w,
    length futures <= fuel ->
    exists out w',
      as_completed self work schedule futures fuel results w = (Ok out, w')
      /\ length out = length results + length futures
      /\ symbol <$> out ≡ₚ (symbol <$> results) ++ futures
      /\ (Forall P results -> Forall P out).
Proof.
  intros Hsleep Hwork.
  induction fuel as [|fuel IH]; intros schedule futures results w Hlen.
  - destruct futures; simpl in *; [|lia].
    eexists _, _. split; [reflexivity|].
    rewrite Nat.add_0_r, app_nil_r. done.
  - cbn [as_completed].
    destruct (futures !! (hd 0 schedule mod length futures)) as [sym|] eqn:Hi.
    + specialize (Hwork sym w).
      destruct (work sym w) as [outcome w0].
      set (result := match outcome with
                     | Ok result => result
                     | Raise e => {| symbol := sym; data := None; error := Some e |}
                     end).
      assert (symbol result = sym /\ P result) as [Hsym HP].
      { subst result. destruct outcome; simpl in *; [done|]. done. }
      assert (length (delete (hd 0 schedule mod length futures) futures)
              = length futures - 1) as Hdel by (apply length_delete; eauto).
      assert (0 < length futures) by (apply lookup_lt_Some in Hi; lia).
      destruct (pause_returns self w0 Hsleep) as [w1 ->].
      destruct (IH (tl schedule) (delete (hd 0 schedule mod length futures) futures)
                  (results ++ [result]) w1) as (out & w' & -> & IHl & IHp & IHf); [lia|].
      eexists _, _. split; [reflexivity|]. split; [|split].
      * rewrite IHl, length_app, Hdel. simpl. lia.
      * etrans; [exact IHp|].
        rewrite fmap_app. simpl. rewrite Hsym, <- app_assoc. simpl.
        apply Permutation_app_head. symmetry. by apply delete_Permutation.
      * intros HF. apply IHf. apply Forall_app. split; [done|]. by constructor.
    + apply lookup_ge_None in Hi.
      destruct futures as [|s futures].
      * eexists _, _. split; [reflexivity|].
        simpl. rewrite Nat.add_0_r, app_nil_r. done.
      * exfalso.
        assert (hd 0 schedule mod length (s :: futures) < length (s :: futures))
          by (apply Nat.mod_upper_bound; simpl; lia).
        lia.
Qed.

(** What holds of every outcome of the work holds of every result
    collected. *)
Lemma as_completed_Forall self work (P : ScanResult -> Prop) fuel :
  (forall sym w0,
      match (work sym w0).1 with
      | Ok r => P r
      | Raise e => P {| symbol := sym; data := None; error := Some e |}
      end) ->
  forall schedule futures results w out w',
    as_completed self work schedule futures fuel results w = (Ok out, w') ->
    Forall P results -> Forall P out.
Proof.
  intros Hwork.
  induction fuel as [|fuel IH]; intros schedule futures results w out w'.
  - simpl. by intros [= <- _].
  - cbn [as_completed].
    destruct (futures !! (hd 0 schedule mod length futures)) as [sym|];
      [|by intros [= <- _]].
    specialize (Hwork sym w). destruct (work sym w) as [outcome w0].
    destruct (pause self w0) as [[[]|e] w1]; [|done].
    intros Heq HF. eapply IH; [exact Heq|].
    apply Forall_app. split; [done|]. constructor; [|done].
    by destruct outcome.
Qed.

End FanOut.

(** C2, as stated, fails: a scanner whose [max_concurrent] is 0 returns no
    list of results, not even for the empty list of symbols: the pool
    refuses to be made and [scan_symbols] raises.  So does a scanner whose
    pause is longer than [time.sleep] takes, after the first completion. *)
Lemma scan_symbols_refuses_empty_pool :
  Scan.max_concurrent Cases.empty_pool_scanner = 0%Z
  /\ @Scan.scan_symbols TimeCases.sample_time Cases.empty_pool_scanner [] "1d" []
       Sample.world
     = (Raise "max_workers must be greater than 0", Sample.world)
  /\ @Scan.scan_symbols TimeCases.sample_time Cases.empty_pool_scanner ["AAPL"] "1d" []
       Sample.world
     = (Raise "max_workers must be greater than 0", Sample.world)
  /\ (@Scan.scan_symbols TimeCases.sample_time Cases.endless_pause_scanner ["AAPL"]
        "1d" [] Sample.world).1
     = Raise "timestamp too large to convert to C _PyTime_t".
Proof. repeat split. Qed.

(** C2, amended: on a scanner whose pool has a worker and whose pause
    [time.sleep] takes, whatever order the pool completes the fetches in,
    [scan_symbols] returns as many results as symbols given (none for an
    empty list), the symbols of the results are the input symbols up to
    order, and each result is the outcome of the fetch for its own symbol:
    the series when the fetch returns, the message in the error field when
    it raises, be it in the date arithmetic before the fetch or in the
    fetch. *)
Theorem scan_symbols_one_result_per_symbol `{PyTime} (self : Scan.Scanner)
    (symbols : list string) (interval : string) (schedule : list nat) (w : World) :
  (0 < Scan.max_concurrent self)%Z ->
  (forall t, sleep_error t (Scan.batch_delay_ms self) = None) ->
  exists results w',
    Scan.scan_symbols self symbols interval schedule w = (Ok results, w')
    /\ length results = length symbols
    /\ Scan.symbol <$> results ≡ₚ symbols
    /\ Forall (fun r => exists w0,
         match Scan.start_date (today w0) (data_lookback_days (Scan.config self)) with
         | Raise e => Scan.data r = None /\ Scan.error r = Some e
         | Ok start =>
             match (Cache.get_or_fetch (Scan.config self) (Scan.symbol r) interval
                      (Scan.fetch_ohlcv (Scan.provider self) (Scan.symbol r)
                         start (today w0) interval)
                      (Some (Scan.cache self)) w0).1 with
             | Ok df => Scan.data r = Some df /\ Scan.error r = None
             | Raise e => Scan.data r = None /\ Scan.error r = Some e
             end
         end) results.
Proof.
  intros Hpool Hsleep. unfold Scan.scan_symbols.
  case_bool_decide as Hle; [lia|].
  match goal with |- context [Forall ?Q _] => set (P := Q) end.
  destruct (as_completed_collects self
              (fun symbol => Scan.fetch_symbol self symbol interval None) P
              (length symbols) Hsleep) with (schedule := schedule) (futures := symbols)
              (results := @nil Scan.ScanResult) (w := w)
    as (out & w' & Heq & Hl & Hp & Hf).
  - intros sym w0.
    pose proof (fetch_symbol_outcome self sym interval None w0) as Hout.
    subst P. simpl in *.
    destruct (Scan.start_date _ _) as [start|e] eqn:Hstart.
    + destruct Hout as (r & w1 & Heq & Hsym & Hout).
      rewrite Heq. simpl. split; [done|].
      exists w0. rewrite Hstart. by rewrite Hsym.
    + rewrite Hout. simpl. exists w0. by rewrite Hstart.
  - done.
  - exists out, w'. split; [exact Heq|]. split; [done|]. split; [done|]. by apply Hf.
Qed.

Lemma scan_symbols_one_result_per_symbol_witness :
  exists results w',
    @Scan.scan_symbols TimeCases.sample_time Sample.scanner ["AAPL"; "BAD"] "1d" [1]
      Sample.world = (Ok results, w')
    /\ length results = 2
    /\ Scan.symbol <$> results ≡ₚ ["AAPL"; "BAD"]
    /\ Forall (fun r => exists w0,
         match Scan.start_date (today w0) (data_lookback_days (Scan.config Sample.scanner)) with
         | Raise e => Scan.data r = None /\ Scan.error r = Some e
         | Ok start =>
             match (Cache.get_or_fetch (Scan.config Sample.scanner) (Scan.symbol r) "1d"
                      (Scan.fetch_ohlcv (Scan.provider Sample.scanner) (Scan.symbol r)
                         start (today w0) "1d")
                      (Some (Scan.cache Sample.scanner)) w0).1 with
             | Ok df => Scan.data r = Some df /\ Scan.error r = None
             | Raise e => Scan.data r = None /\ Scan.error r = Some e
             end
         end) results.
Proof.
  apply (@scan_symbols_one_result_per_symbol TimeCases.sample_time Sample.scanner
           ["AAPL"; "BAD"] "1d" [1] Sample.world); [reflexivity | reflexivity].
Defined.

(** ** Signal evaluation *)

Section Comparisons.

Lemma Qlt_bool_iff x y : Qlt_bool x y = true <-> (x < y)%Q.
Proof.
  unfold Qlt_bool. rewrite negb_true_iff. split.
  - intros Hle. apply Qnot_le_lt. intros Hc.
    apply Qle_bool_iff in Hc. congruence.
  - intros Hlt. destruct (Qle_bool y x) eqn:Hle; [|done].
    apply Qle_bool_iff in Hle. exfalso. by apply (Qlt_not_le x y).
Qed.

Lemma Qlt_bool_false_iff x y : Qlt_bool x y = false <-> (y <= x)%Q.
Proof.
  unfold Qlt_bool. rewrite negb_false_iff. apply Qle_bool_iff.
Qed.

Lemma Qlt_bool_reflect x y : reflect (x < y)%Q (Qlt_bool x y).
Proof. apply iff_reflect. symmetry. apply Qlt_bool_iff. Qed.

Lemma py_min_cases a b :
  (py_min a b = a /\ (a <= b)%Q) \/ (py_min a b = b /\ (b < a)%Q).
Proof.
  unfold py_min. destruct (Qlt_bool_reflect b a) as [Hlt|Hge]; [by right|].
  left. split; [done|]. by apply Qnot_lt_le.
Qed.

Lemma py_min_Qmin a b : (py_min a b == Qmin a b)%Q.
Proof.
  destruct (py_min_cases a b) as [[-> Hle]|[-> Hlt]].
  - symmetry. by apply Q.min_l.
  - symmetry. apply Q.min_r. by apply Qlt_le_weak.
Qed.

End Comparisons.

Section Unanimity.
Context `{PyFormat}.
Import Signals.

Lemma evaluate_conditions_type self rsi stoch macd macd_signal :
  (evaluate_conditions self rsi stoch macd macd_signal).1
  = if Qlt_bool (rsi_threshold self) rsi && Qlt_bool (stoch_threshold self) stoch
       && Qlt_bool macd_signal macd then BUY
    else if Qlt_bool rsi (rsi_threshold self) && Qlt_bool stoch (stoch_threshold self)
            && Qlt_bool macd macd_signal then SELL
    else NEUTRAL.
Proof.
  unfold evaluate_conditions.
  repeat match goal with |- context [if ?b then _ else _] => destruct b end;
    reflexivity.
Qed.

End Unanimity.

(** C1: on four present values the evaluator answers BUY exactly when RSI
    is above its threshold, the stochastic above its threshold and MACD
    above its signal line; SELL exactly when all three are below; NEUTRAL
    exactly when neither holds.  In particular, turning any one of three
    agreeing comparisons to the opposite side gives NEUTRAL. *)
Theorem evaluate_conditions_unanimous `{PyFormat} (self : Signals.SignalGenerator)
    (rsi stoch macd macd_signal : Q) :
  let t := (Signals.evaluate_conditions self rsi stoch macd macd_signal).1 in
  let rsi_t := Signals.rsi_threshold self in
  let stoch_t := Signals.stoch_threshold self in
  (t = Signals.BUY <-> (rsi_t < rsi /\ stoch_t < stoch /\ macd_signal < macd)%Q)
  /\ (t = Signals.SELL <-> (rsi < rsi_t /\ stoch < stoch_t /\ macd < macd_signal)%Q)
  /\ (t = Signals.NEUTRAL <->
        ~ (rsi_t < rsi /\ stoch_t < stoch /\ macd_signal < macd)%Q
        /\ ~ (rsi < rsi_t /\ stoch < stoch_t /\ macd < macd_signal)%Q)
  /\ ((rsi < rsi_t /\ stoch_t < stoch /\ macd_signal < macd)%Q -> t = Signals.NEUTRAL)
  /\ ((rsi_t < rsi /\ stoch < stoch_t /\ macd_signal < macd)%Q -> t = Signals.NEUTRAL)
  /\ ((rsi_t < rsi /\ stoch_t < stoch /\ macd < macd_signal)%Q -> t = Signals.NEUTRAL)
  /\ ((rsi_t < rsi /\ stoch < stoch_t /\ macd < macd_signal)%Q -> t = Signals.NEUTRAL)
  /\ ((rsi < rsi_t /\ stoch_t < stoch /\ macd < macd_signal)%Q -> t = Signals.NEUTRAL)
  /\ ((rsi < rsi_t /\ stoch < stoch_t /\ macd_signal < macd)%Q -> t = Signals.NEUTRAL).
Proof.
  intros t rsi_t stoch_t. subst t. rewrite evaluate_conditions_type.
  fold rsi_t stoch_t.
  destruct (Qlt_bool_reflect rsi_t rsi) as [R1|R1];
  destruct (Qlt_bool_reflect stoch_t stoch) as [S1|S1];
  destruct (Qlt_bool_reflect macd_signal macd) as [M1|M1];
  destruct (Qlt_bool_reflect rsi rsi_t) as [R2|R2];
  destruct (Qlt_bool_reflect stoch stoch_t) as [S2|S2];
  destruct (Qlt_bool_reflect macd macd_signal) as [M2|M2];
  simpl;
  try (exfalso; lra);
  repeat split; try done; try (intros; exfalso; lra); try tauto;
  try (intros [? [? ?]]; exfalso; lra).
Qed.

(** ** Strength *)

Section Strength.
Import Signals.

Lemma calculate_strength_neutral self rsi stoch macd macd_signal :
  calculate_strength self NEUTRAL rsi stoch macd macd_signal = 0%Q.
Proof. reflexivity. Qed.

Lemma component_bounds x :
  (0 <= py_min (Qabs x) 50 * 2 <= 100)%Q.
Proof.
  pose proof (Qabs_nonneg x).
  destruct (py_min_cases (Qabs x) 50) as [[-> ?]|[-> ?]]; lra.
Qed.

Lemma trend_component_bounds x :
  (0 <= py_min (Qabs x * 50) 100 <= 100)%Q.
Proof.
  pose proof (Qabs_nonneg x).
  destruct (py_min_cases (Qabs x * 50) 100) as [[-> ?]|[-> ?]]; lra.
Qed.

Lemma average_bounds a b c :
  (0 <= a <= 100)%Q -> (0 <= b <= 100)%Q -> (0 <= c <= 100)%Q ->
  (0 <= (a + b + c) / 3 <= 100)%Q.
Proof.
  intros Ha Hb Hc. split.
  - apply Qle_shift_div_l; lra.
  - apply Qle_shift_div_r; lra.
Qed.

(** The score is the plain average of the three components, each within
    0..100, and so is itself within 0..100; the last [min] changes nothing. *)
Lemma calculate_strength_average self t rsi stoch macd macd_signal :
  t <> NEUTRAL ->
  let score := calculate_strength self t rsi stoch macd macd_signal in
  (score == (py_min (Qabs (rsi - 50)) 50 * 2
             + py_min (Qabs (stoch - 50)) 50 * 2
             + py_min (Qabs (macd - macd_signal) * 50) 100) / 3)%Q
  /\ (0 <= score <= 100)%Q.
Proof.
  intros Ht. unfold calculate_strength.
  replace (is_neutral t) with false by by destruct t.
  pose proof (component_bounds (rsi - 50)).
  pose proof (component_bounds (stoch - 50)).
  pose proof (trend_component_bounds (macd - macd_signal)).
  cbv zeta.
  match goal with |- context [py_min ((?a + ?b + ?c) / 3) 100] =>
    pose proof (average_bounds a b c) as Havg;
    destruct (py_min_cases ((a + b + c) / 3) 100) as [[-> Hs]|[-> Hs]]
  end.
  - split; [reflexivity|]. by apply Havg.
  - exfalso. apply (Qlt_not_le _ _ Hs). by apply Havg.
Qed.

(** With both thresholds at 50, their default, the score is the one the
    specification words. *)
Lemma calculate_strength_at_default_thresholds self t rsi stoch macd macd_signal :
  (rsi_threshold self == 50)%Q -> (stoch_threshold self == 50)%Q ->
  (calculate_strength self t rsi stoch macd macd_signal
   == spec_strength self t rsi stoch macd macd_signal)%Q.
Proof.
  intros Hr Hs. destruct t; [| |reflexivity].
  - destruct (calculate_strength_average self BUY rsi stoch macd macd_signal) as [-> _];
      [done|].
    unfold spec_strength. rewrite Hr, Hs, !py_min_Qmin. reflexivity.
  - destruct (calculate_strength_average self SELL rsi stoch macd macd_signal) as [-> _];
      [done|].
    unfold spec_strength. rewrite Hr, Hs, !py_min_Qmin. reflexivity.
Qed.

End Strength.

(** C7 does not hold of the code: the momentum and oscillator components
    measure the distance from the constant 50, not from the configured
    thresholds the signal was decided with.  With the RSI threshold set to
    60, the snapshot (65, 60, 1, 0) is a BUY whose score is 100/3, whereas
    the average of the distances from the thresholds is 80/3. *)
Theorem calculate_strength_ignores_threshold :
  (@Signals.evaluate_conditions Sample.fixed_format Sample.generator_60 65 60 1 0).1
  = Signals.BUY
  /\ (Signals.calculate_strength Sample.generator_60 Signals.BUY 65 60 1 0 == 100 # 3)%Q
  /\ (Signals.spec_strength Sample.generator_60 Signals.BUY 65 60 1 0 == 80 # 3)%Q
  /\ ~ (Signals.calculate_strength Sample.generator_60 Signals.BUY 65 60 1 0
        == Signals.spec_strength Sample.generator_60 Signals.BUY 65 60 1 0)%Q.
Proof. repeat split; vm_compute; congruence. Qed.

(** ** Missing indicator values *)

(** C6: when the frame carrying the indicators has a latest bar and one of
    [rsi], [stoch_d], [macd], [macd_signal] is absent there, [generate_signal]
    returns, without raising, the NEUTRAL signal of strength 0 whose reason
    is "Insufficient data for indicators", the values that are present
    being reported as they are. *)
Theorem generate_signal_insufficient_data `{PyFormat} (self : Signals.SignalGenerator)
    (df df' : DataFrame) (add_indicators : bool) (latest : gmap string (option Q)) :
  empty df = false ->
  Signals.with_indicators self df add_indicators = Ok df' ->
  Signals.iloc_last df' = Ok latest ->
  Signals.latest_get latest "rsi" = None
  \/ Signals.latest_get latest "stoch_d" = None
  \/ Signals.latest_get latest "macd" = None
  \/ Signals.latest_get latest "macd_signal" = None ->
  Signals.generate_signal self df add_indicators
  = Ok {| Signals.type := Signals.NEUTRAL;
          Signals.strength := 0;
          Signals.rsi := Signals.latest_get latest "rsi";
          Signals.stoch := Signals.latest_get latest "stoch_d";
          Signals.macd := Signals.latest_get latest "macd";
          Signals.macd_signal := Signals.latest_get latest "macd_signal";
          Signals.reason := "Insufficient data for indicators" |}.
Proof.
  intros Hne Hind Hlast Habs. unfold Signals.generate_signal.
  rewrite Hne, Hind, Hlast.
  destruct (Signals.latest_get latest "rsi") as [r|];
    destruct (Signals.latest_get latest "stoch_d") as [s|];
    destruct (Signals.latest_get latest "macd") as [m|];
    destruct (Signals.latest_get latest "macd_signal") as [ms|];
    try reflexivity.
  exfalso. destruct Habs as [Ha|[Ha|[Ha|Ha]]]; discriminate.
Qed.

Lemma generate_signal_insufficient_data_witness :
  @Signals.generate_signal Sample.fixed_format
    (Sample.generator (Some 55%Q) None (Some 1%Q) (Some 0%Q)) Sample.frame true
  = Ok {| Signals.type := Signals.NEUTRAL;
          Signals.strength := 0;
          Signals.rsi := Some 55%Q;
          Signals.stoch := None;
          Signals.macd := Some 1%Q;
          Signals.macd_signal := Some 0%Q;
          Signals.reason := "Insufficient data for indicators" |}.
Proof.
  etrans.
  apply (@generate_signal_insufficient_data Sample.fixed_format
           (Sample.generator (Some 55%Q) None (Some 1%Q) (Some 0%Q)) Sample.frame
           {| columns := columns Sample.frame ++ ["rsi"; "stoch_d"; "macd"; "macd_signal"];
              rows := (fun row => <["rsi" := Some 55%Q]> (<["stoch_d" := None]>
                        (<["macd" := Some 1%Q]> (<["macd_signal" := Some 0%Q]> row))))
                      <$> rows Sample.frame |}
           true
           (<["rsi" := Some 55%Q]> (<["stoch_d" := None]>
              (<["macd" := Some 1%Q]> (<["macd_signal" := Some 0%Q]> (Sample.bar 101))))));
    [reflexivity | reflexivity | reflexivity | right; left; vm_compute; reflexivity].
  vm_compute. reflexivity.
Defined.

(** ** Serialisation *)

Section Serialisation.
Import Signals.

Lemma rounded_if_truthy_cases x ndigits :
  (x = None -> rounded_if_truthy x ndigits = VNone)
  /\ (forall q, x = Some q -> (q == 0)%Q -> rounded_if_truthy x ndigits = VNone)
  /\ (forall q, x = Some q -> ~ (q == 0)%Q ->
      rounded_if_truthy x ndigits = VNum (py_round q ndigits)).
Proof.
  unfold rounded_if_truthy, truthy_float. split; [|split].
  - by intros ->.
  - intros q -> Hq. apply Qeq_bool_iff in Hq. by rewrite Hq.
  - intros q -> Hq. destruct (Qeq_bool q 0) eqn:Hb; [|done].
    apply Qeq_bool_iff in Hb. done.
Qed.

Lemma to_dict_components self :
  to_dict self !! "rsi" = Some (rounded_if_truthy (rsi self) 2)
  /\ to_dict self !! "stoch" = Some (rounded_if_truthy (stoch self) 2)
  /\ to_dict self !! "macd" = Some (rounded_if_truthy (macd self) 6)
  /\ to_dict self !! "macd_signal" = Some (rounded_if_truthy (macd_signal self) 6).
Proof. unfold to_dict. repeat split; by simplify_map_eq. Qed.

Lemma to_dict_no_symbol self : to_dict self !! "symbol" = None.
Proof. unfold to_dict. by simplify_map_eq. Qed.

End Serialisation.

(** C10: for each of the components [rsi], [stoch], [macd] and
    [macd_signal], [to_dict] reports [None] when the value is absent and
    also when it is exactly zero, the test being one of truthiness, and the
    value rounded (to 2, 2, 6 and 6 digits) when it is present and not zero. *)
Theorem to_dict_reports_zero_as_absent (self : Signals.Signal) :
  let reported (key : string) (x : option Q) (ndigits : nat) :=
    (x = None -> Signals.to_dict self !! key = Some VNone)
    /\ (forall q, x = Some q -> (q == 0)%Q -> Signals.to_dict self !! key = Some VNone)
    /\ (forall q, x = Some q -> ~ (q == 0)%Q ->
        Signals.to_dict self !! key = Some (VNum (py_round q ndigits))) in
  reported "rsi" (Signals.rsi self) 2
  /\ reported "stoch" (Signals.stoch self) 2
  /\ reported "macd" (Signals.macd self) 6
  /\ reported "macd_signal" (Signals.macd_signal self) 6.
Proof.
  intros reported. subst reported. cbv beta.
  destruct (to_dict_components self) as (-> & -> & -> & ->).
  pose proof (rounded_if_truthy_cases (Signals.rsi self) 2) as (R1 & R2 & R3).
  pose proof (rounded_if_truthy_cases (Signals.stoch self) 2) as (S1 & S2 & S3).
  pose proof (rounded_if_truthy_cases (Signals.macd self) 6) as (M1 & M2 & M3).
  pose proof (rounded_if_truthy_cases (Signals.macd_signal self) 6) as (N1 & N2 & N3).
  repeat split; intros; f_equal; eauto.
Qed.

(** ** Batch evaluation *)

Section Batch.
Context `{PyFormat}.
Import Signals.

Lemma batch_loop_step self result rest signals :
  batch_loop self (result :: rest) signals
  = batch_loop self rest (signals ++ [batch_record self result]).
Proof.
  unfold batch_record. cbn [batch_loop].
  destruct (is_none (Scan.data result) || truthy_str (Scan.error result));
    [reflexivity|].
  destruct (Scan.data result) as [df|]; [|reflexivity].
  destruct (generate_signal self df true); reflexivity.
Qed.

Lemma batch_loop_appends self scan_results signals :
  batch_loop self scan_results signals
  = signals ++ (batch_record self <$> scan_results).
Proof.
  revert signals. induction scan_results as [|result rest IH]; intros signals.
  - simpl. by rewrite app_nil_r.
  - rewrite batch_loop_step, IH, <- app_assoc. reflexivity.
Qed.

Lemma batch_record_symbol self result :
  batch_record self result !! "symbol" = Some (VStr (Scan.symbol result)).
Proof.
  unfold batch_record. cbn [batch_loop].
  destruct (is_none (Scan.data result) || truthy_str (Scan.error result)).
  { simpl. unfold error_record. by simplify_map_eq. }
  destruct (Scan.data result) as [df|].
  - destruct (generate_signal self df true) as [signal|e]; simpl.
    + rewrite lookup_union_r by apply to_dict_no_symbol.
      by simplify_map_eq.
    + unfold error_record. by simplify_map_eq.
  - simpl. unfold error_record. by simplify_map_eq.
Qed.

Lemma batch_record_error self result :
  Scan.data result = None
  \/ (exists msg, Scan.error result = Some msg /\ msg <> "") ->
  batch_record self result
  = error_record (Scan.symbol result) (error_value (Scan.error result)).
Proof.
  intros Hguard. unfold batch_record. cbn [batch_loop].
  replace (is_none (Scan.data result) || truthy_str (Scan.error result)) with true;
    [reflexivity|].
  symmetry. destruct Hguard as [->|(msg & -> & Hmsg)]; [reflexivity|].
  destruct msg; [done|]. simpl. apply orb_true_r.
Qed.

End Batch.

(** C8: the batch has one record per scan result, the record at each
    position bearing the symbol of the result at that position; and for a
    result whose data is absent (as it is in every result that leaves the
    scanner with an error), or whose error is a message that is not empty,
    the record is the error record: the symbol, the signal "ERROR" and the
    error field of the result unchanged, and nothing else. *)
Theorem generate_signals_batch_one_record_per_result `{PyFormat}
    (self : Signals.SignalGenerator) (scan_results : list Scan.ScanResult) :
  let signals := Signals.generate_signals_batch self scan_results in
  length signals = length scan_results
  /\ (forall i r, scan_results !! i = Some r ->
      exists record, signals !! i = Some record
        /\ record !! "symbol" = Some (VStr (Scan.symbol r)))
  /\ (forall i r, scan_results !! i = Some r ->
      Scan.data r = None \/ (exists msg, Scan.error r = Some msg /\ msg <> "") ->
      signals !! i
      = Some (<["symbol" := VStr (Scan.symbol r)]>
              (<["signal" := VStr "ERROR"]>
              (<["error" := match Scan.error r with
                            | Some msg => VStr msg
                            | None => VNone
                            end]> ∅)))).
Proof.
  intros signals. subst signals. unfold Signals.generate_signals_batch.
  rewrite batch_loop_appends, app_nil_l. split; [|split].
  - by rewrite length_fmap.
  - intros i r Hi. exists (Signals.batch_record self r). split.
    + by rewrite list_lookup_fmap, Hi.
    + apply batch_record_symbol.
  - intros i r Hi Hguard.
    rewrite list_lookup_fmap, Hi. simpl. f_equal.
    by apply batch_record_error.
Qed.

(** ** The pipeline end to end *)

(** A result of a scan never has both a series and an error. *)
Lemma scan_symbols_results_exclusive `{PyTime} (self : Scan.Scanner)
    (symbols : list string) (interval : string) (schedule : list nat) (w w' : World)
    (results : list Scan.ScanResult) :
  Scan.scan_symbols self symbols interval schedule w = (Ok results, w') ->
  Forall (fun r => is_Some (Scan.error r) -> Scan.data r = None) results.
Proof.
  unfold Scan.scan_symbols. case_bool_decide; [done|]. intros Hscan.
  eapply as_completed_Forall; [|exact Hscan|constructor].
  intros sym w0.
  pose proof (fetch_symbol_outcome self sym interval None w0) as Hout.
  simpl in Hout. destruct (Scan.start_date _ _) as [start|e].
  - destruct Hout as (r & w1 & -> & Hsym & Hout). simpl.
    destruct (Cache.get_or_fetch _ _ _ _ _ w0).1; destruct Hout as [Hd He].
    + rewrite He. by intros [? ?].
    + done.
  - rewrite Hout. done.
Qed.

(** Every scanned symbol whose fetch failed comes out of the batch as an
    error record with the message of the failure. *)
Lemma scanned_errors_become_error_records `{PyFormat} `{PyTime}
    (gen : Signals.SignalGenerator)
    (self : Scan.Scanner) (symbols : list string) (interval : string)
    (schedule : list nat) (w w' : World) (results : list Scan.ScanResult)
    (i : nat) (r : Scan.ScanResult) (msg : string) :
  Scan.scan_symbols self symbols interval schedule w = (Ok results, w') ->
  results !! i = Some r ->
  Scan.error r = Some msg ->
  Signals.generate_signals_batch gen results !! i
  = Some (Signals.error_record (Scan.symbol r) (VStr msg)).
Proof.
  intros Hscan Hi Herr. unfold Signals.generate_signals_batch.
  rewrite batch_loop_appends, app_nil_l, list_lookup_fmap, Hi. simpl. f_equal.
  rewrite batch_record_error, Herr; [done|]. left.
  pose proof (scan_symbols_results_exclusive self symbols interval schedule w w'
                results Hscan) as HF.
  rewrite Forall_lookup in HF. apply (HF i r Hi). rewrite Herr. eauto.
Qed.

(** A scan of three symbols, the second unknown to the source, completed
    in the order third, first, second: three results, one of them an error,
    and three records out of the batch. *)
Example scan_isolates_failure :
  exists results w',
    @Scan.scan_symbols TimeCases.sample_time Sample.scanner ["AAPL"; "BAD"; "MSFT"]
      "1d" [2; 0; 0] Sample.world = (Ok results, w')
    /\ ((fun r => (Scan.symbol r, Scan.error r)) <$> results)
       = [("MSFT", None); ("AAPL", None); ("BAD", Some "Could not fetch data for BAD")]
    /\ ((fun record => record !! "signal")
          <$> @Signals.generate_signals_batch Sample.fixed_format
                (Sample.generator (Some 55%Q) (Some 62%Q) (Some 1%Q) (Some 0%Q)) results)
       = [Some (VStr "BUY"); Some (VStr "BUY"); Some (VStr "ERROR")].
Proof. eexists _, _. split; [reflexivity|]. vm_compute. done. Qed.

(** The two worked examples of the specification: momentum 55, oscillator
    62 and a trend above its reference give BUY with a positive strength;
    with the oscillator at 40 the answer is NEUTRAL. *)
Example unanimity_worked_examples :
  let gen := Sample.generator None None None None in
  (@Signals.evaluate_conditions Sample.fixed_format gen 55 62 (2 # 1000) (-1 # 1000)).1
  = Signals.BUY
  /\ (0 < Signals.calculate_strength gen Signals.BUY 55 62 (2 # 1000) (-1 # 1000))%Q
  /\ (@Signals.evaluate_conditions Sample.fixed_format gen 55 40 (2 # 1000) (-1 # 1000))
     = (Signals.NEUTRAL, ["RSI bullish"; "Stoch bearish"; "MACD bullish"]).
Proof. vm_compute. done. Qed.

(** * Further properties of the code *)

(** ** The cache store *)

Section CacheStore.
Import Cache.

Lemma get_value self symbol interval w :
  get self symbol interval w
  = (match is_fresh self symbol interval w with
     | Raise e => Raise e
     | Ok false => Ok None
     | Ok true =>
         Ok match files w !! _get_cache_path self symbol interval with
            | Some {| payload := Parquet df |} => Some df
            | _ => None
            end
     end, w).
Proof.
  unfold get. destruct (enabled self) eqn:Hen; simpl.
  - destruct (is_fresh self symbol interval w) as [[|]|]; simpl; [|done..].
    unfold try_except, mbind, M_bind, read_parquet.
    destruct (files w !! _) as [[mt [df|]]|]; done.
  - unfold is_fresh. by rewrite Hen.
Qed.

(** A [get] that returns [None] has left the world alone. *)
Lemma get_miss self symbol interval w :
  (get self symbol interval w).1 = Ok None ->
  get self symbol interval w = (Ok None, w).
Proof.
  intros Hmiss. rewrite (surjective_pairing (get self symbol interval w)).
  by rewrite Hmiss, get_keeps_world.
Qed.

Lemma set_value self symbol interval df w :
  set self symbol interval df w
  = if enabled self && negb (read_only w)
    then (Ok true,
          with_files (<[_get_cache_path self symbol interval
                         := {| st_mtime := clock w; payload := Parquet df |}]> (files w)) w)
    else (Ok false, w).
Proof.
  unfold set. destruct (enabled self); simpl; [|done].
  unfold try_except, mbind, M_bind, to_parquet.
  by destruct (read_only w).
Qed.

Lemma is_fresh_other_path self self' symbol interval symbol' interval' w entry :
  _get_cache_path self' symbol' interval' <> _get_cache_path self symbol interval ->
  is_fresh self' symbol' interval'
    (with_files (<[_get_cache_path self symbol interval := entry]> (files w)) w)
  = is_fresh self' symbol' interval' w.
Proof.
  intros Hne. unfold is_fresh. simpl. by rewrite lookup_insert_ne.
Qed.

End CacheStore.

(** X1: [get] never changes the world.  It returns a series exactly when
    the entry is fresh and its file holds that series, and it raises
    exactly what the freshness test raises (the stamp of the file or the
    TTL is past what [datetime] takes); in every other case (caching
    disabled, no file, a stale file, a file that cannot be read) it
    returns [None]. *)
Theorem get_returns_exactly_fresh_readable (self : Cache.CacheManager)
    (symbol interval : string) (w : World) :
  (Cache.get self symbol interval w).2 = w
  /\ (forall df,
        (Cache.get self symbol interval w).1 = Ok (Some df)
        <-> Cache.is_fresh self symbol interval w = Ok true
            /\ exists f, files w !! Cache._get_cache_path self symbol interval = Some f
                 /\ payload f = Parquet df)
  /\ (forall e,
        (Cache.get self symbol interval w).1 = Raise e
        <-> Cache.is_fresh self symbol interval w = Raise e).
Proof.
  rewrite get_value. simpl. split; [done|].
  destruct (Cache.is_fresh self symbol interval w) as [[|]|e0] eqn:Hfresh.
  - destruct (files w !! _) as [[mt [df'|]]|] eqn:Hf.
    + split.
      * intros df. split.
        -- intros [= ->]. split; [done|]. by eexists.
        -- intros [_ (f & [= <-] & Hp)]. simpl in Hp. by inversion Hp.
      * intros e. split; done.
    + split; [|done]. intros df. split; [done|].
      intros [_ (f & [= <-] & Hp)]. done.
    + split; [|done]. intros df. split; [done|].
      intros [_ (f & ? & _)]. done.
  - split; [|done]. intros df. split; [done|]. by intros [? _].
  - split.
    + intros df. split; [done|]. by intros [? _].
    + intros e. split; by intros [= ->].
Qed.

(** X2: [set] never raises.  It reports success exactly when caching is
    enabled and the store can be written; then the file of the key holds
    the series, stamped with the current time, and no other file is
    touched.  When it reports failure the world is as it was. *)
Theorem set_reports_what_it_did (self : Cache.CacheManager)
    (symbol interval : string) (df : DataFrame) (w : World) :
  exists saved w',
    Cache.set self symbol interval df w = (Ok saved, w')
    /\ (saved = true <-> Cache.enabled self = true /\ read_only w = false)
    /\ (saved = false -> w' = w)
    /\ (saved = true ->
        clock w' = clock w
        /\ files w' !! Cache._get_cache_path self symbol interval
           = Some {| st_mtime := clock w; payload := Parquet df |}
        /\ forall path, path <> Cache._get_cache_path self symbol interval ->
             files w' !! path = files w !! path).
Proof.
  rewrite set_value.
  destruct (Cache.enabled self), (read_only w); simpl; eexists _, _;
    (split; [reflexivity|]); repeat split; try done; try tauto;
    try (by intros [? ?]).
  - simpl. apply lookup_insert_eq.
  - intros path Hne. simpl. by rewrite lookup_insert_ne.
Qed.

(** X3: a write touches one entry only: for a key kept in another file,
    freshness and what [get] returns are the same before and after [set]. *)
Theorem set_leaves_other_entries (self : Cache.CacheManager)
    (symbol interval symbol' interval' : string) (df : DataFrame) (w : World) :
  Cache._get_cache_path self symbol' interval' <> Cache._get_cache_path self symbol interval ->
  let w' := (Cache.set self symbol interval df w).2 in
  Cache.is_fresh self symbol' interval' w' = Cache.is_fresh self symbol' interval' w
  /\ (Cache.get self symbol' interval' w').1 = (Cache.get self symbol' interval' w).1.
Proof.
  intros Hne w'. subst w'. rewrite set_value.
  destruct (Cache.enabled self && negb (read_only w)); simpl; [|done].
  rewrite !get_value. simpl.
  rewrite is_fresh_other_path by done. split; [done|].
  by rewrite lookup_insert_ne.
Qed.

Lemma set_leaves_other_entries_witness :
  let w' := (Cache.set Sample.cache "MSFT" "1d" Sample.frame Sample.cached_world).2 in
  Cache.is_fresh Sample.cache "AAPL" "1d" w'
  = Cache.is_fresh Sample.cache "AAPL" "1d" Sample.cached_world
  /\ (Cache.get Sample.cache "AAPL" "1d" w').1
     = (Cache.get Sample.cache "AAPL" "1d" Sample.cached_world).1.
Proof.
  apply (set_leaves_other_entries Sample.cache "MSFT" "1d" "AAPL" "1d").
  vm_compute. discriminate.
Defined.

(** X4: with a TTL of zero or less for the interval, the cache never
    serves what it stores: once [set] has succeeded, a [get] made when the
    local clock is not behind the time of the write returns [None], or
    raises what the freshness test raises. *)
Theorem nonpositive_ttl_never_hits (self : Cache.CacheManager)
    (symbol interval : string) (df : DataFrame) (w w1 : World) (d : Z) :
  (Cache._get_ttl self interval <= 0)%Z ->
  Cache.set self symbol interval df w = (Ok true, w1) ->
  (now w <= now (elapse d w1))%Z ->
  (Cache.get self symbol interval (elapse d w1)).1 = Ok None
  \/ exists e,
       Cache.is_fresh self symbol interval (elapse d w1) = Raise e
       /\ (Cache.get self symbol interval (elapse d w1)).1 = Raise e.
Proof.
  intros Httl Hset Hd.
  destruct (set_true _ _ _ _ _ _ Hset) as (Hen & _ & ->).
  rewrite get_value.
  rewrite (is_fresh_present _ _ _ _ {| st_mtime := clock w; payload := Parquet df |});
    [|done|simpl; apply lookup_insert_eq].
  cbn [st_mtime fst].
  destruct (Cache.expiry _ _ _ _) as [x|e] eqn:Hx; [|right; by exists e].
  left. apply expiry_value in Hx. rewrite bool_decide_eq_false_2; [done|].
  subst x. unfold now in *. simpl in *.
  unfold timedelta_minutes, microseconds_per_minute. lia.
Qed.

Lemma nonpositive_ttl_never_hits_witness :
  (Cache.get Cases.zero_ttl_cache "AAPL" "1d"
     (elapse 0 (Cache.set Cases.zero_ttl_cache "AAPL" "1d" Sample.frame
                  Sample.world).2)).1 = Ok None
  \/ exists e,
       Cache.is_fresh Cases.zero_ttl_cache "AAPL" "1d"
         (elapse 0 (Cache.set Cases.zero_ttl_cache "AAPL" "1d" Sample.frame
                      Sample.world).2) = Raise e
       /\ (Cache.get Cases.zero_ttl_cache "AAPL" "1d"
             (elapse 0 (Cache.set Cases.zero_ttl_cache "AAPL" "1d" Sample.frame
                          Sample.world).2)).1 = Raise e.
Proof.
  apply (nonpositive_ttl_never_hits Cases.zero_ttl_cache "AAPL" "1d" Sample.frame
           Sample.world); [vm_compute; discriminate | reflexivity
                          | vm_compute; discriminate].
Defined.

(** X5: keys that share a file name share the entry: what is stored under
    one key is what [get] returns under the other, for as long as the TTL
    of the reader's interval allows, the expiry under that TTL can be
    computed and the offset of local time from UTC has not changed. *)
Theorem keys_with_one_file_name_share_entry (self : Cache.CacheManager)
    (s1 i1 s2 i2 : string) (df : DataFrame) (w w1 : World) (d x : Z) :
  Cache.cache_filename s1 i1 = Cache.cache_filename s2 i2 ->
  Cache.set self s1 i1 df w = (Ok true, w1) ->
  Cache.expiry self i2 w (clock w) = Ok x ->
  utcoffset w (clock w + d) = utcoffset w (clock w) ->
  (d < timedelta_minutes (Cache._get_ttl self i2))%Z ->
  Cache.get self s2 i2 (elapse d w1) = (Ok (Some df), elapse d w1).
Proof.
  intros Hname Hset Hx Hoff Hd.
  destruct (set_true _ _ _ _ _ _ Hset) as (Hen & _ & ->).
  apply stored_entry_is_served with (x := x); [done| |done..].
  unfold Cache._get_cache_path. by rewrite Hname.
Qed.

Lemma keys_with_one_file_name_share_entry_witness :
  Cache.get Sample.cache "BRK/B" "1d"
    (elapse 1000000 (Cache.set Sample.cache "brk.b" "1d" Sample.frame Sample.world).2)
  = (Ok (Some Sample.frame),
     elapse 1000000 (Cache.set Sample.cache "brk.b" "1d" Sample.frame Sample.world).2).
Proof.
  apply (keys_with_one_file_name_share_entry Sample.cache "brk.b" "1d" "BRK/B" "1d"
           Sample.frame Sample.world _ 1000000 14460000000);
    [reflexivity | reflexivity | reflexivity | reflexivity | vm_compute; reflexivity].
Defined.

(** ** The cache-aware fetch, on a miss *)

(** X6: on a miss the fetcher decides the answer: the series it returns is
    handed back whether or not the cache could be written, the store being
    left as the fetcher left it when caching is disabled or the store is
    read-only; and what the fetcher raises reaches the caller, nothing
    being written. *)
Theorem get_or_fetch_miss_follows_fetcher (config : AppConfig)
    (cache : Cache.CacheManager) (symbol interval : string)
    (fetcher : M DataFrame) (w : World) :
  (Cache.get cache symbol interval w).1 = Ok None ->
  (forall df w1, fetcher w = (Ok df, w1) ->
     exists w2,
       Cache.get_or_fetch config symbol interval fetcher (Some cache) w = (Ok df, w2)
       /\ (Cache.enabled cache = false \/ read_only w1 = true -> w2 = w1)
       /\ (Cache.enabled cache = true -> read_only w1 = false ->
           files w2 !! Cache._get_cache_path cache symbol interval
           = Some {| st_mtime := clock w1; payload := Parquet df |}))
  /\ (forall e w1, fetcher w = (Raise e, w1) ->
      Cache.get_or_fetch config symbol interval fetcher (Some cache) w = (Raise e, w1)).
Proof.
  intros Hmiss. apply get_miss in Hmiss as Hget.
  rewrite (get_or_fetch_miss _ _ _ _ _ _ Hget). split.
  - intros df w1 ->. eexists. split; [reflexivity|].
    rewrite set_value. split.
    + intros [->| ->]; simpl; [done|]. by rewrite andb_false_r.
    + intros -> ->. simpl. apply lookup_insert_eq.
  - by intros e w1 ->.
Qed.

Lemma get_or_fetch_miss_follows_fetcher_witness :
  (forall df w1, Sample.fetcher Sample.world = (Ok df, w1) ->
     exists w2,
       Cache.get_or_fetch default_config "AAPL" "1d" Sample.fetcher
         (Some Sample.cache) Sample.world = (Ok df, w2)
       /\ (Cache.enabled Sample.cache = false \/ read_only w1 = true -> w2 = w1)
       /\ (Cache.enabled Sample.cache = true -> read_only w1 = false ->
           files w2 !! Cache._get_cache_path Sample.cache "AAPL" "1d"
           = Some {| st_mtime := clock w1; payload := Parquet df |}))
  /\ (forall e w1, Sample.fetcher Sample.world = (Raise e, w1) ->
      Cache.get_or_fetch default_config "AAPL" "1d" Sample.fetcher
        (Some Sample.cache) Sample.world = (Raise e, w1)).
Proof.
  apply (get_or_fetch_miss_follows_fetcher default_config Sample.cache "AAPL" "1d"
           Sample.fetcher Sample.world).
  reflexivity.
Defined.

(** X7: a fetch is paid for once: after a miss whose fetch returned and
    whose write went through, the same request within the TTL is served
    from the cache, whatever the fetcher would do now, as long as the
    expiry of the entry can be computed and the offset of local time from
    UTC has not changed since the write. *)
Theorem get_or_fetch_again_is_served_from_cache (config : AppConfig)
    (cache : Cache.CacheManager) (symbol interval : string)
    (fetcher again : M DataFrame) (w w1 w2 : World) (df : DataFrame) (d x : Z) :
  (Cache.get cache symbol interval w).1 = Ok None ->
  fetcher w = (Ok df, w1) ->
  Cache.enabled cache = true -> read_only w1 = false ->
  Cache.get_or_fetch config symbol interval fetcher (Some cache) w = (Ok df, w2) ->
  Cache.expiry cache interval w1 (clock w1) = Ok x ->
  utcoffset w1 (clock w1 + d) = utcoffset w1 (clock w1) ->
  (d < timedelta_minutes (Cache._get_ttl cache interval))%Z ->
  Cache.get_or_fetch config symbol interval again (Some cache) (elapse d w2)
  = (Ok df, elapse d w2).
Proof.
  intros Hmiss Hfetch Hen Hro Hfirst Hx Hoff Hd. apply get_miss in Hmiss as Hget.
  rewrite (get_or_fetch_miss _ _ _ _ _ _ Hget), Hfetch, set_value, Hen, Hro in Hfirst.
  simpl in Hfirst. inversion Hfirst as [Hw2]. clear Hfirst.
  unfold Cache.get_or_fetch. unfold mbind at 1. unfold M_bind.
  by rewrite (stored_entry_is_served cache symbol interval df w1 d x).
Qed.

Lemma get_or_fetch_again_is_served_from_cache_witness :
  Cache.get_or_fetch default_config "AAPL" "1d" (raise "offline") (Some Sample.cache)
    (elapse 1000000
       (Cache.get_or_fetch default_config "AAPL" "1d" Sample.fetcher
          (Some Sample.cache) Sample.world).2)
  = (Ok Sample.frame,
     elapse 1000000
       (Cache.get_or_fetch default_config "AAPL" "1d" Sample.fetcher
          (Some Sample.cache) Sample.world).2).
Proof.
  apply (get_or_fetch_again_is_served_from_cache default_config Sample.cache
           "AAPL" "1d" Sample.fetcher (raise "offline") Sample.world
           Cases.fetched_world _ _ 1000000 14460000000);
    [reflexivity | reflexivity | reflexivity | reflexivity | reflexivity
    | reflexivity | reflexivity | vm_compute; reflexivity].
Defined.

(** X8: with caching disabled [get_or_fetch] is the fetcher: every request
    runs it, and the world is changed by it alone. *)
Theorem get_or_fetch_disabled_is_fetcher (config : AppConfig)
    (cache : Cache.CacheManager) (symbol interval : string)
    (fetcher : M DataFrame) (w : World) :
  Cache.enabled cache = false ->
  Cache.get_or_fetch config symbol interval fetcher (Some cache) w = fetcher w.
Proof.
  intros Hdis.
  assert (Cache.get cache symbol interval w = (Ok None, w)) as Hget.
  { rewrite get_value. unfold Cache.is_fresh. by rewrite Hdis. }
  rewrite (get_or_fetch_miss _ _ _ _ _ _ Hget).
  destruct (fetcher w) as [[df|e] w1]; [|done].
  rewrite set_value, Hdis. done.
Qed.

Lemma get_or_fetch_disabled_is_fetcher_witness :
  Cache.get_or_fetch default_config "AAPL" "1d" Sample.fetcher
    (Some Sample.disabled_cache) Sample.cached_world
  = Sample.fetcher Sample.cached_world.
Proof.
  apply (get_or_fetch_disabled_is_fetcher default_config Sample.disabled_cache).
  reflexivity.
Defined.

(** ** The scan: pacing and a warm cache *)

Section ScanWorld.
Import Scan.
Context `{PyTime}.

Lemma elapse_0 w : elapse 0 w = w.
Proof. destruct w. unfold elapse. simpl. by rewrite Z.add_0_r. Qed.

Lemma elapse_elapse a b w : elapse b (elapse a w) = elapse (a + b) w.
Proof. unfold elapse. simpl. by rewrite Z.add_assoc. Qed.

Lemma pause_is_elapse self w :
  (forall t, sleep_error t (batch_delay_ms self) = None) ->
  pause self w = (Ok tt, elapse (pause_microseconds self) w).
Proof.
  intros Hsleep. unfold pause, pause_microseconds.
  case_bool_decide; [|by rewrite elapse_0].
  unfold sleep. destruct (Z.ltb_spec (batch_delay_ms self) 0) as [?|_]; [lia|].
  by rewrite Hsleep.
Qed.

Lemma pause_microseconds_nonneg self : (0 <= pause_microseconds self)%Z.
Proof. unfold pause_microseconds. case_bool_decide; lia. Qed.

Lemma get_or_fetch_keeps_clock config cache symbol interval fetcher w :
  (forall w0, clock (fetcher w0).2 = clock w0) ->
  clock (Cache.get_or_fetch config symbol interval fetcher (Some cache) w).2 = clock w.
Proof.
  intros Hf. unfold Cache.get_or_fetch. unfold mbind at 1. unfold M_bind at 1.
  rewrite get_value.
  destruct (Cache.is_fresh cache symbol interval w) as [[|]|e]; [| |done].
  - destruct (files w !! _) as [[mt [df|]]|]; [done|..];
      (unfold mbind at 1; unfold M_bind at 1;
       specialize (Hf w); destruct (fetcher w) as [[df|e] w1]; simpl in *; [|done];
       unfold mbind, M_bind; rewrite set_value;
       destruct (Cache.enabled cache && negb (read_only w1)); simpl; done).
  - unfold mbind at 1. unfold M_bind at 1.
    specialize (Hf w). destruct (fetcher w) as [[df|e] w1]; simpl in *; [|done].
    unfold mbind, M_bind. rewrite set_value.
    destruct (Cache.enabled cache && negb (read_only w1)); simpl; done.
Qed.

Lemma fetch_symbol_keeps_clock self sym interval lookback_days w :
  (forall sym start end_ interval w0,
      clock (fetch_ohlcv (provider self) sym start end_ interval w0).2 = clock w0) ->
  clock (fetch_symbol self sym interval lookback_days w).2 = clock w.
Proof.
  intros Hp. unfold fetch_symbol.
  destruct (start_date _ _) as [start|e]; [|done].
  unfold try_except. unfold mbind at 1. unfold M_bind.
  match goal with |- context [Cache.get_or_fetch ?c ?s ?i ?f ?m w] =>
    pose proof (get_or_fetch_keeps_clock c (cache self) s i f w) as Hk;
    destruct (Cache.get_or_fetch c s i f m w) as [[df|e] w1]
  end; simpl in *; apply Hk; intros w0; apply Hp.
Qed.

Lemma as_completed_clock self work fuel :
  (forall t, sleep_error t (batch_delay_ms self) = None) ->
  (forall sym w0, clock (work sym w0).2 = clock w0) ->
  forall schedule futures results w,
    length futures <= fuel ->
    clock (as_completed self work schedule futures fuel results w).2
    = (clock w + Z.of_nat (length futures) * pause_microseconds self)%Z.
Proof.
  intros Hsleep Hwork.
  induction fuel as [|fuel IH]; intros schedule futures results w Hlen.
  - destruct futures; simpl in *; lia.
  - cbn [as_completed].
    destruct (futures !! (hd 0 schedule mod length futures)) as [sym|] eqn:Hi.
    + specialize (Hwork sym w). destruct (work sym w) as [outcome w0]. simpl in Hwork.
      assert (length (delete (hd 0 schedule mod length futures) futures)
              = length futures - 1) as Hdel by (apply length_delete; eauto).
      assert (0 < length futures) by (apply lookup_lt_Some in Hi; lia).
      rewrite pause_is_elapse by done.
      rewrite IH by lia. rewrite Hdel. simpl. rewrite Hwork.
      replace (Z.of_nat (length futures))
        with (Z.of_nat (length futures - 1) + 1)%Z by lia.
      lia.
    + apply lookup_ge_None in Hi. destruct futures as [|s futures]; [simpl; lia|].
      exfalso.
      assert (hd 0 schedule mod length (s :: futures) < length (s :: futures))
        by (apply Nat.mod_upper_bound; simpl; lia).
      lia.
Qed.

(** A fresh, readable entry makes the unit of work a pure read, once the
    start date is computed. *)
Lemma fetch_symbol_hit self sym interval lookback_days w start f df :
  start_date (today w) (default (data_lookback_days (config self)) lookback_days)
  = Ok start ->
  Cache.is_fresh (cache self) sym interval w = Ok true ->
  files w !! Cache._get_cache_path (cache self) sym interval = Some f ->
  payload f = Parquet df ->
  fetch_symbol self sym interval lookback_days w
  = (Ok {| symbol := sym; data := Some df; error := None |}, w).
Proof.
  intros Hstart Hfresh Hf Hp. unfold fetch_symbol.
  replace (match lookback_days with
           | Some d => d
           | None => data_lookback_days (config self)
           end) with (default (data_lookback_days (config self)) lookback_days)
    by by destruct lookback_days.
  rewrite Hstart. unfold try_except.
  unfold mbind at 1. unfold M_bind.
  unfold Cache.get_or_fetch. unfold mbind at 1. unfold M_bind.
  by rewrite (get_fresh_readable _ _ _ _ f df).
Qed.

Lemma as_completed_warm self interval fuel (cached : string -> option DataFrame) :
  (forall t, sleep_error t (batch_delay_ms self) = None) ->
  forall schedule futures results w t,
    length futures <= fuel ->
    (forall sym (k : nat), sym ∈ futures -> k < length futures ->
       let w_k := elapse (t + Z.of_nat k * pause_microseconds self) w in
       (exists start,
          start_date (today w_k) (data_lookback_days (config self)) = Ok start)
       /\ Cache.is_fresh (cache self) sym interval w_k = Ok true
       /\ exists f df, files w !! Cache._get_cache_path (cache self) sym interval = Some f
            /\ payload f = Parquet df /\ cached sym = Some df) ->
    exists out,
      as_completed self (fun sym => fetch_symbol self sym interval None)
        schedule futures fuel results (elapse t w)
      = (Ok out, elapse (t + Z.of_nat (length futures) * pause_microseconds self) w)
      /\ (Forall (fun r => data r = cached (symbol r) /\ error r = None) results ->
          Forall (fun r => data r = cached (symbol r) /\ error r = None) out).
Proof.
  intros Hsleep.
  induction fuel as [|fuel IH]; intros schedule futures results w t Hlen Hwarm.
  - destruct futures; simpl in *; [|lia]. exists results. split; [|done].
    f_equal. f_equal. lia.
  - cbn [as_completed].
    destruct (futures !! (hd 0 schedule mod length futures)) as [sym|] eqn:Hi.
    + assert (0 < length futures) by (apply lookup_lt_Some in Hi; lia).
      assert (length (delete (hd 0 schedule mod length futures) futures)
              = length futures - 1) as Hdel by (apply length_delete; eauto).
      destruct (Hwarm sym 0) as ([start Hstart] & Hfresh & f & df & Hf & Hpl & Hc).
      { apply list_elem_of_lookup. eauto. }
      { lia. }
      cbv zeta in Hstart, Hfresh.
      replace (t + Z.of_nat 0 * pause_microseconds self)%Z with t in Hstart, Hfresh
        by lia.
      rewrite (fetch_symbol_hit self sym interval None (elapse t w) start f df
                 Hstart Hfresh Hf Hpl).
      rewrite pause_is_elapse by done. rewrite elapse_elapse.
      destruct (IH (tl schedule) (delete (hd 0 schedule mod length futures) futures)
                  (results ++ [{| symbol := sym; data := Some df; error := None |}])
                  w (t + pause_microseconds self)%Z) as (out & Heq & IHr); [lia| |].
      * intros sym' k Hin Hk. rewrite Hdel in Hk.
        replace (t + pause_microseconds self + Z.of_nat k * pause_microseconds self)%Z
          with (t + Z.of_nat (S k) * pause_microseconds self)%Z by lia.
        apply Hwarm; [|lia]. by apply list_elem_of_delete_inv in Hin.
      * exists out. split.
        -- rewrite Heq, Hdel. f_equal. f_equal.
           replace (Z.of_nat (length futures))
             with (Z.of_nat (length futures - 1) + 1)%Z by lia.
           lia.
        -- intros HF. apply IHr. apply Forall_app. split; [done|].
           constructor; [|constructor]. simpl. by rewrite Hc.
    + apply lookup_ge_None in Hi. destruct futures as [|s futures].
      * simpl. exists results. split; [|done]. f_equal. f_equal. lia.
      * exfalso.
        assert (hd 0 schedule mod length (s :: futures) < length (s :: futures))
          by (apply Nat.mod_upper_bound; simpl; lia).
        lia.
Qed.

End ScanWorld.

(** X9: the pause is made after every completion, the last one included:
    on a scanner whose pool has a worker and whose pause [time.sleep]
    takes, when the source leaves the clock alone, a scan of N symbols
    returns exactly N pauses after it started, in whatever order the
    fetches complete and whether they succeed or not. *)
Theorem scan_symbols_pauses_after_every_completion `{PyTime} (self : Scan.Scanner)
    (symbols : list string) (interval : string) (schedule : list nat) (w : World) :
  (0 < Scan.max_concurrent self)%Z ->
  (forall t, sleep_error t (Scan.batch_delay_ms self) = None) ->
  (forall sym start end_ interval w0,
      clock (Scan.fetch_ohlcv (Scan.provider self) sym start end_ interval w0).2
      = clock w0) ->
  exists results w',
    Scan.scan_symbols self symbols interval schedule w = (Ok results, w')
    /\ clock w' = (clock w + Z.of_nat (length symbols) * pause_microseconds self)%Z.
Proof.
  intros Hpool Hsleep Hp. unfold Scan.scan_symbols.
  case_bool_decide as Hle; [lia|].
  destruct (as_completed_collects self
              (fun symbol => Scan.fetch_symbol self symbol interval None)
              (fun _ => True) (length symbols) Hsleep)
    with (schedule := schedule) (futures := symbols)
         (results := @nil Scan.ScanResult) (w := w)
    as (out & w' & Heq & _).
  - intros sym w0.
    pose proof (fetch_symbol_outcome self sym interval None w0) as Hout.
    simpl in Hout. destruct (Scan.start_date _ _) as [start|e].
    + by destruct Hout as (r & w1 & -> & Hsym & _).
    + by rewrite Hout.
  - done.
  - exists out, w'. split; [done|].
    replace w' with
      (Scan.as_completed self (fun symbol => Scan.fetch_symbol self symbol interval None)
         schedule symbols (length symbols) [] w).2 by by rewrite Heq.
    apply as_completed_clock; [done| |done].
    intros sym w0. by apply fetch_symbol_keeps_clock.
Qed.

Lemma scan_symbols_pauses_after_every_completion_witness :
  exists results w',
    @Scan.scan_symbols TimeCases.sample_time Sample.scanner ["AAPL"; "BAD"; "MSFT"]
      "1d" [2; 0; 0] Sample.world = (Ok results, w')
    /\ clock w'
       = (clock Sample.world
          + Z.of_nat (length ["AAPL"; "BAD"; "MSFT"])
            * pause_microseconds Sample.scanner)%Z.
Proof.
  apply (@scan_symbols_pauses_after_every_completion TimeCases.sample_time
           Sample.scanner); [reflexivity | reflexivity |].
  intros sym start end_ interval w0. simpl.
  destruct (String.eqb sym "BAD"); reflexivity.
Defined.

(** X10: a scan over a warm cache does not touch the source: on a scanner
    whose pool has a worker and whose pause [time.sleep] takes, when at
    each of the times a fetch is made the start date can be computed and
    every symbol has a fresh entry that can be read, the scan leaves the
    world as it was but for the pauses, and every result carries the
    cached series and no error. *)
Theorem scan_symbols_warm_cache_skips_source `{PyTime} (self : Scan.Scanner)
    (symbols : list string) (interval : string) (schedule : list nat) (w : World)
    (cached : string -> DataFrame) :
  (0 < Scan.max_concurrent self)%Z ->
  (forall t, sleep_error t (Scan.batch_delay_ms self) = None) ->
  (forall sym (k : nat), sym ∈ symbols -> (k < length symbols)%nat ->
     let w_k := elapse (Z.of_nat k * pause_microseconds self) w in
     (exists start,
        Scan.start_date (today w_k) (data_lookback_days (Scan.config self)) = Ok start)
     /\ Cache.is_fresh (Scan.cache self) sym interval w_k = Ok true
     /\ exists f, files w !! Cache._get_cache_path (Scan.cache self) sym interval = Some f
          /\ payload f = Parquet (cached sym)) ->
  exists results,
    Scan.scan_symbols self symbols interval schedule w
    = (Ok results, elapse (Z.of_nat (length symbols) * pause_microseconds self) w)
    /\ Forall (fun r => Scan.data r = Some (cached (Scan.symbol r))
                        /\ Scan.error r = None) results.
Proof.
  intros Hpool Hsleep Hwarm. unfold Scan.scan_symbols.
  case_bool_decide as Hle; [lia|].
  destruct (as_completed_warm self interval (length symbols)
              (fun sym => Some (cached sym)) Hsleep schedule symbols [] w 0%Z)
    as (out & Heq & Hr).
  - done.
  - intros sym k Hin Hk. rewrite Z.add_0_l.
    destruct (Hwarm sym k Hin Hk) as (Hstart & Hfresh & f & Hf & Hpl).
    split; [done|]. split; [done|]. by exists f, (cached sym).
  - exists out. rewrite Z.add_0_l, elapse_0 in Heq. split; [done|]. by apply Hr.
Qed.

Lemma scan_symbols_warm_cache_skips_source_witness :
  exists results,
    @Scan.scan_symbols TimeCases.sample_time Sample.scanner ["AAPL"; "aapl"] "1d" [1; 0]
      Sample.cached_world
    = (Ok results,
       elapse (Z.of_nat (length ["AAPL"; "aapl"]) * pause_microseconds Sample.scanner)
         Sample.cached_world)
    /\ Forall (fun r => Scan.data r = Some Sample.frame /\ Scan.error r = None) results.
Proof.
  apply (@scan_symbols_warm_cache_skips_source TimeCases.sample_time Sample.scanner
           ["AAPL"; "aapl"] "1d" [1; 0] Sample.cached_world (fun _ => Sample.frame));
    [reflexivity | reflexivity |].
  intros sym k Hin Hk.
  assert (sym = "AAPL" \/ sym = "aapl") as Hsym.
  { apply elem_of_cons in Hin as [->|Hin]; [by left|].
    apply elem_of_cons in Hin as [->|Hin]; [by right|]. by apply elem_of_nil in Hin. }
  assert (k = 0 \/ k = 1) as Hk' by (simpl in Hk; lia).
  destruct Hsym as [-> | ->], Hk' as [-> | ->];
    (split; [by eexists|]; split; [vm_compute; reflexivity|];
     exists {| st_mtime := 0; payload := Parquet Sample.frame |};
     split; reflexivity).
Defined.

(** ** What a generated signal looks like *)

Section GeneratedSignals.
Context `{PyFormat}.
Import Signals.

Lemma evaluate_conditions_reasons_length self rsi stoch macd macd_signal :
  length (evaluate_conditions self rsi stoch macd macd_signal).2 = 3.
Proof.
  unfold evaluate_conditions.
  repeat match goal with |- context [if ?b then _ else _] => destruct b end;
    reflexivity.
Qed.

(** The three shapes of a signal [generate_signal] returns. *)
Lemma generate_signal_shapes self df add_indicators s :
  generate_signal self df add_indicators = Ok s ->
  (empty df = true /\ type s = NEUTRAL /\ strength s = 0%Q /\ reason s = "No data"
   /\ rsi s = None /\ stoch s = None /\ macd s = None /\ macd_signal s = None)
  \/ (empty df = false /\ type s = NEUTRAL /\ strength s = 0%Q
      /\ reason s = "Insufficient data for indicators"
      /\ (rsi s = None \/ stoch s = None \/ macd s = None \/ macd_signal s = None))
  \/ (empty df = false
      /\ exists r st m ms,
           rsi s = Some r /\ stoch s = Some st /\ macd s = Some m /\ macd_signal s = Some ms
           /\ type s = (evaluate_conditions self r st m ms).1
           /\ strength s = calculate_strength self (type s) r st m ms
           /\ reason s = join " | " (evaluate_conditions self r st m ms).2).
Proof.
  unfold generate_signal. destruct (empty df) eqn:He.
  { intros [= <-]. left. simpl. tauto. }
  destruct (with_indicators self df add_indicators) as [df'|e]; [|done].
  destruct (iloc_last df') as [latest|e]; [|done].
  destruct (latest_get latest "rsi") as [r|] eqn:Hr;
    destruct (latest_get latest "stoch_d") as [st|] eqn:Hs;
    destruct (latest_get latest "macd") as [m|] eqn:Hm;
    destruct (latest_get latest "macd_signal") as [ms|] eqn:Hms;
    try (intros [= <-]; right; left; simpl; tauto).
  destruct (evaluate_conditions self r st m ms) as [t reasons] eqn:Hev.
  intros [= <-]. right. right. split; [done|].
  exists r, st, m, ms. simpl. rewrite Hev. simpl. tauto.
Qed.

End GeneratedSignals.

Lemma generated_signal_facts `{PyFormat}
    (self : Signals.SignalGenerator) (df : DataFrame) (add_indicators : bool)
    (s : Signals.Signal) :
  Signals.generate_signal self df add_indicators = Ok s ->
  (0 <= Signals.strength s <= 100)%Q
  /\ (Signals.type s = Signals.NEUTRAL -> Signals.strength s = 0%Q)
  /\ (Signals.type s <> Signals.NEUTRAL ->
      exists r st m ms,
        Signals.rsi s = Some r /\ Signals.stoch s = Some st
        /\ Signals.macd s = Some m /\ Signals.macd_signal s = Some ms
        /\ (Signals.type s = Signals.BUY ->
            (Signals.rsi_threshold self < r /\ Signals.stoch_threshold self < st
             /\ ms < m)%Q)
        /\ (Signals.type s = Signals.SELL ->
            (r < Signals.rsi_threshold self /\ st < Signals.stoch_threshold self
             /\ m < ms)%Q)).
Proof.
  intros Hgen.
  destruct (generate_signal_shapes _ _ _ _ Hgen)
    as [(_ & Ht & Hs & _)|[(_ & Ht & Hs & _)|(_ & r & st & m & ms & Hr & Hst & Hm & Hms & Ht & Hs & _)]].
  - rewrite Hs, Ht. repeat split; done.
  - rewrite Hs, Ht. repeat split; done.
  - split; [|split].
    + destruct (Signals.type s) eqn:Hty.
      * rewrite Hs. apply calculate_strength_average. done.
      * rewrite Hs. apply calculate_strength_average. done.
      * rewrite Hs. simpl. done.
    + intros Hn. rewrite Hs, Hn. reflexivity.
    + intros _. exists r, st, m, ms. repeat split; try done.
      * rewrite Ht, evaluate_conditions_type in H0.
        destruct (Qlt_bool_reflect (Signals.rsi_threshold self) r); [done|].
        simpl in H0. by repeat case_match.
      * rewrite Ht, evaluate_conditions_type in H0.
        destruct (Qlt_bool_reflect (Signals.stoch_threshold self) st); [done|].
        rewrite andb_false_r in H0. simpl in H0. by repeat case_match.
      * rewrite Ht, evaluate_conditions_type in H0.
        destruct (Qlt_bool_reflect ms m); [done|].
        rewrite andb_false_r in H0. by repeat case_match.
      * rewrite Ht, evaluate_conditions_type in H0.
        destruct (Qlt_bool_reflect r (Signals.rsi_threshold self)); [done|].
        simpl in H0. by repeat case_match.
      * rewrite Ht, evaluate_conditions_type in H0.
        destruct (Qlt_bool_reflect st (Signals.stoch_threshold self)); [done|].
        rewrite andb_false_r in H0. simpl in H0. by repeat case_match.
      * rewrite Ht, evaluate_conditions_type in H0.
        destruct (Qlt_bool_reflect m ms); [done|].
        rewrite andb_false_r in H0. by repeat case_match.
Qed.


(** X11: every signal [generate_signal] returns has a strength between 0
    and 100, which is 0 when the signal is NEUTRAL; and a BUY or a SELL
    comes with all four indicator values present, each on the side of its
    threshold that the signal names. *)
Theorem generate_signal_result_is_consistent `{PyFormat}
    (self : Signals.SignalGenerator) (df : DataFrame) (add_indicators : bool)
    (s : Signals.Signal) :
  Signals.generate_signal self df add_indicators = Ok s ->
  (0 <= Signals.strength s <= 100)%Q
  /\ (Signals.type s = Signals.NEUTRAL -> Signals.strength s = 0%Q)
  /\ (Signals.type s <> Signals.NEUTRAL ->
      exists r st m ms,
        Signals.rsi s = Some r /\ Signals.stoch s = Some st
        /\ Signals.macd s = Some m /\ Signals.macd_signal s = Some ms
        /\ (Signals.type s = Signals.BUY ->
            (Signals.rsi_threshold self < r /\ Signals.stoch_threshold self < st
             /\ ms < m)%Q)
        /\ (Signals.type s = Signals.SELL ->
            (r < Signals.rsi_threshold self /\ st < Signals.stoch_threshold self
             /\ m < ms)%Q)).
Proof. apply generated_signal_facts. Qed.

Lemma generate_signal_result_is_consistent_witness :
  (0 <= Signals.strength SignalCases2.bullish_signal <= 100)%Q
  /\ (Signals.type SignalCases2.bullish_signal = Signals.NEUTRAL ->
      Signals.strength SignalCases2.bullish_signal = 0%Q)
  /\ (Signals.type SignalCases2.bullish_signal <> Signals.NEUTRAL ->
      exists r st m ms,
        Signals.rsi SignalCases2.bullish_signal = Some r
        /\ Signals.stoch SignalCases2.bullish_signal = Some st
        /\ Signals.macd SignalCases2.bullish_signal = Some m
        /\ Signals.macd_signal SignalCases2.bullish_signal = Some ms
        /\ (Signals.type SignalCases2.bullish_signal = Signals.BUY ->
            (Signals.rsi_threshold
               (Sample.generator (Some 55%Q) (Some 62%Q) (Some 1%Q) (Some 0%Q)) < r
             /\ Signals.stoch_threshold
                  (Sample.generator (Some 55%Q) (Some 62%Q) (Some 1%Q) (Some 0%Q)) < st
             /\ ms < m)%Q)
        /\ (Signals.type SignalCases2.bullish_signal = Signals.SELL ->
            (r < Signals.rsi_threshold
                   (Sample.generator (Some 55%Q) (Some 62%Q) (Some 1%Q) (Some 0%Q))
             /\ st < Signals.stoch_threshold
                       (Sample.generator (Some 55%Q) (Some 62%Q) (Some 1%Q) (Some 0%Q))
             /\ m < ms)%Q)).
Proof.
  apply (@generate_signal_result_is_consistent Sample.fixed_format
           (Sample.generator (Some 55%Q) (Some 62%Q) (Some 1%Q) (Some 0%Q))
           Sample.frame true).
  vm_compute. reflexivity.
Defined.

(** X12: [generate_signal] raises only what the indicator engine raises,
    or the index error of an engine result without rows; on an empty frame
    it returns the "No data" signal without consulting the engine. *)
Theorem generate_signal_raises_only_through_engine `{PyFormat}
    (self : Signals.SignalGenerator) (df : DataFrame) (add_indicators : bool)
    (e : string) :
  Signals.generate_signal self df add_indicators = Raise e ->
  empty df = false
  /\ (Signals.with_indicators self df add_indicators = Raise e
      \/ exists df', Signals.with_indicators self df add_indicators = Ok df'
           /\ rows df' = []).
Proof.
  unfold Signals.generate_signal. destruct (empty df); [done|].
  destruct (Signals.with_indicators self df add_indicators) as [df'|e'].
  - unfold Signals.iloc_last. destruct (last (rows df')) as [latest|] eqn:Hlast.
    + destruct (Signals.latest_get latest "rsi");
        destruct (Signals.latest_get latest "stoch_d");
        destruct (Signals.latest_get latest "macd");
        destruct (Signals.latest_get latest "macd_signal"); try done.
      by destruct (Signals.evaluate_conditions _ _ _ _ _).
    + intros _. split; [done|]. right. exists df'. split; [done|].
      by apply last_None.
  - intros [= ->]. by split; [|left].
Qed.

Lemma generate_signal_raises_only_through_engine_witness :
  empty Sample.frame = false
  /\ (Signals.with_indicators SignalCases.failing_generator Sample.frame true
      = Raise "'NoneType' object has no attribute 'iloc'"
      \/ exists df', Signals.with_indicators SignalCases.failing_generator Sample.frame true
                     = Ok df'
           /\ rows df' = []).
Proof.
  apply (@generate_signal_raises_only_through_engine Sample.fixed_format
           SignalCases.failing_generator Sample.frame true).
  reflexivity.
Defined.

(** X13: with [add_indicators] off and an [rsi] column already in the
    frame, the indicator engine is not consulted: the signal is read off
    the frame as it is, whatever engine the generator holds. *)
Theorem generate_signal_keeps_given_indicators `{PyFormat}
    (self : Signals.SignalGenerator) (engine : Signals.IndicatorEngine)
    (df : DataFrame) :
  "rsi" ∈ columns df ->
  Signals.generate_signal self df false
  = Signals.generate_signal
      {| Signals.indicators := engine;
         Signals.rsi_threshold := Signals.rsi_threshold self;
         Signals.stoch_threshold := Signals.stoch_threshold self |} df false.
Proof.
  intros Hin. unfold Signals.generate_signal, Signals.with_indicators.
  rewrite bool_decide_eq_true_2 by done. simpl. done.
Qed.

Lemma generate_signal_keeps_given_indicators_witness :
  @Signals.generate_signal Sample.fixed_format
    (Sample.generator None None None None) SignalCases.frame_with_indicators false
  = @Signals.generate_signal Sample.fixed_format
      {| Signals.indicators := SignalCases.failing_engine;
         Signals.rsi_threshold :=
           Signals.rsi_threshold (Sample.generator None None None None);
         Signals.stoch_threshold :=
           Signals.stoch_threshold (Sample.generator None None None None) |}
      SignalCases.frame_with_indicators false.
Proof.
  apply (@generate_signal_keeps_given_indicators Sample.fixed_format).
  vm_compute. repeat (first [by left | right]).
Defined.

(** ** Rounding *)

Section Rounding.

Lemma round_half_even_cases q :
  round_half_even q = Qfloor q \/ round_half_even q = (Qfloor q + 1)%Z.
Proof.
  unfold round_half_even.
  destruct (Qlt_bool _ _); [by left|].
  destruct (Qlt_bool _ _); [by right|].
  destruct (Z.even _); [by left|by right].
Qed.


Lemma round_half_even_between (a b : Z) q :
  (inject_Z a <= q <= inject_Z b)%Q -> (a <= round_half_even q <= b)%Z.
Proof.
  intros [Ha Hb].
  pose proof (Qfloor_resp_le _ _ Ha) as Hfa. rewrite Qfloor_Z in Hfa.
  pose proof (Qfloor_resp_le _ _ Hb) as Hfb. rewrite Qfloor_Z in Hfb.
  destruct (round_half_even_cases q) as [->| Hup]; [lia|].
  split; [lia|].
  destruct (Z.eq_dec (Qfloor q) b) as [Heq|Hne]; [|lia].
  exfalso. revert Hup. unfold round_half_even.
  pose proof (Qfloor_le q) as Hlo. rewrite Heq in Hlo.
  destruct (Qlt_bool_reflect (q - inject_Z (Qfloor q)) (1 # 2)) as [H1|H1]; [lia|].
  rewrite Heq in H1. lra.
Qed.


Lemma py_round_1_range x : (0 <= x <= 100)%Q -> (0 <= py_round x 1 <= 100)%Q.
Proof.
  intros Hx. unfold py_round. change (inject_Z (10 ^ Z.of_nat 1)) with 10%Q.
  destruct (round_half_even_between 0 1000 (x * 10)) as [Hlo Hhi].
  { change (inject_Z 0) with 0%Q. change (inject_Z 1000) with 1000%Q. lra. }
  set (n := round_half_even (x * 10)) in *.
  assert (inject_Z n / 10 == inject_Z n * (1 # 10))%Q as -> by (field).
  assert (0 <= inject_Z n)%Q by (change 0%Q with (inject_Z 0); by rewrite <- Zle_Qle).
  assert (inject_Z n <= 1000)%Q by (change 1000%Q with (inject_Z 1000); by rewrite <- Zle_Qle).
  lra.
Qed.

End Rounding.


(** ** The records of a batch *)

Section BatchRecords.
Context `{PyFormat}.
Import Signals.

Lemma batch_record_cases self r :
  batch_record self r = error_record (Scan.symbol r) (error_value (Scan.error r))
  \/ (exists df e, Scan.data r = Some df /\ generate_signal self df true = Raise e
        /\ batch_record self r = error_record (Scan.symbol r) (VStr e))
  \/ (exists df s, Scan.data r = Some df /\ generate_signal self df true = Ok s
        /\ batch_record self r = to_dict s ∪ {["symbol" := VStr (Scan.symbol r)]}).
Proof.
  unfold batch_record. cbn [batch_loop].
  destruct (is_none (Scan.data r) || truthy_str (Scan.error r)) eqn:Hg; [by left|].
  destruct (Scan.data r) as [df|]; [|done].
  destruct (generate_signal self df true) as [s|e] eqn:Hgen.
  - right. right. by exists df, s.
  - right. left. by exists df, e.
Qed.

Lemma batch_record_failure self r df e :
  Scan.data r = Some df -> truthy_str (Scan.error r) = false ->
  generate_signal self df true = Raise e ->
  batch_record self r = error_record (Scan.symbol r) (VStr e).
Proof.
  intros Hd He Hgen. unfold batch_record. cbn [batch_loop].
  rewrite Hd, He. simpl. by rewrite Hgen.
Qed.

Lemma error_record_shape symbol v :
  error_record symbol v !! "signal" = Some (VStr "ERROR")
  /\ error_record symbol v !! "error" = Some v
  /\ error_record symbol v !! "strength" = None
  /\ error_record symbol v !! "rsi" = None
  /\ error_record symbol v !! "stoch" = None
  /\ error_record symbol v !! "macd" = None
  /\ error_record symbol v !! "macd_signal" = None
  /\ error_record symbol v !! "reason" = None.
Proof. unfold error_record. repeat split; by simplify_map_eq. Qed.

Lemma signal_record_shape (s : Signal) symbol :
  let record := to_dict s ∪ {["symbol" := VStr symbol]} in
  record !! "signal" = Some (VStr (value (type s)))
  /\ record !! "strength" = Some (VNum (py_round (strength s) 1))
  /\ record !! "error" = None
  /\ is_Some (record !! "rsi") /\ is_Some (record !! "stoch")
  /\ is_Some (record !! "macd") /\ is_Some (record !! "macd_signal")
  /\ record !! "reason" = Some (VStr (reason s)).
Proof.
  intros record. subst record. unfold to_dict.
  repeat split; rewrite ?lookup_union_Some_raw, ?lookup_union_None;
    try (by simplify_map_eq); try (eexists; left; by simplify_map_eq);
    try (left; by simplify_map_eq).
Qed.

Lemma value_not_error t : value t <> "ERROR".
Proof. by destruct t. Qed.

Lemma batch_records_shape self scan_results record :
  record ∈ generate_signals_batch self scan_results ->
  (record !! "signal" = Some (VStr "ERROR")
   /\ is_Some (record !! "error") /\ record !! "strength" = None
   /\ record !! "rsi" = None /\ record !! "stoch" = None /\ record !! "macd" = None
   /\ record !! "macd_signal" = None /\ record !! "reason" = None)
  \/ (exists t y,
        record !! "signal" = Some (VStr (value t))
        /\ record !! "strength" = Some (VNum y) /\ (0 <= y <= 100)%Q
        /\ record !! "error" = None
        /\ is_Some (record !! "rsi") /\ is_Some (record !! "stoch")
        /\ is_Some (record !! "macd") /\ is_Some (record !! "macd_signal")
        /\ is_Some (record !! "reason")).
Proof.
  unfold generate_signals_batch. rewrite batch_loop_appends, app_nil_l.
  intros (r & -> & _)%list_elem_of_fmap.
  destruct (batch_record_cases self r)
    as [->|[(df & e & _ & _ & ->)|(df & s & _ & Hgen & ->)]].
  - left. destruct (error_record_shape (Scan.symbol r) (error_value (Scan.error r)))
      as (? & ? & ? & ? & ? & ? & ? & ?). repeat split; eauto.
  - left. destruct (error_record_shape (Scan.symbol r) (VStr e))
      as (? & ? & ? & ? & ? & ? & ? & ?). repeat split; eauto.
  - right. destruct (signal_record_shape s (Scan.symbol r))
      as (? & ? & ? & ? & ? & ? & ? & ?).
    exists (type s), (py_round (strength s) 1). repeat split; eauto.
    + apply py_round_1_range. by apply (generated_signal_facts self df true s).
    + apply py_round_1_range. by apply (generated_signal_facts self df true s).
Qed.

End BatchRecords.

(** X15: a record of a batch is of one of two kinds.  An error record has
    the signal "ERROR" and an error field, and none of the fields strength,
    rsi, stoch, macd, macd_signal, reason.  A signal record has the signal
    BUY, SELL or NEUTRAL, a strength between 0 and 100, all of those
    fields, and no error field. *)
Theorem generate_signals_batch_record_kinds `{PyFormat}
    (self : Signals.SignalGenerator) (scan_results : list Scan.ScanResult)
    (record : gmap string pyval) :
  record ∈ Signals.generate_signals_batch self scan_results ->
  (record !! "signal" = Some (VStr "ERROR")
   /\ is_Some (record !! "error") /\ record !! "strength" = None
   /\ record !! "rsi" = None /\ record !! "stoch" = None /\ record !! "macd" = None
   /\ record !! "macd_signal" = None /\ record !! "reason" = None)
  \/ (exists t y,
        record !! "signal" = Some (VStr (Signals.value t))
        /\ record !! "strength" = Some (VNum y) /\ (0 <= y <= 100)%Q
        /\ record !! "error" = None
        /\ is_Some (record !! "rsi") /\ is_Some (record !! "stoch")
        /\ is_Some (record !! "macd") /\ is_Some (record !! "macd_signal")
        /\ is_Some (record !! "reason")).
Proof. apply batch_records_shape. Qed.

(** X16: when generating the signal of a scan result raises, the batch
    goes on: the record at that position is the error record with the
    message of the exception. *)
Theorem generate_signals_batch_wraps_failure `{PyFormat}
    (self : Signals.SignalGenerator) (scan_results : list Scan.ScanResult)
    (i : nat) (r : Scan.ScanResult) (df : DataFrame) (e : string) :
  scan_results !! i = Some r ->
  Scan.data r = Some df -> truthy_str (Scan.error r) = false ->
  Signals.generate_signal self df true = Raise e ->
  length (Signals.generate_signals_batch self scan_results) = length scan_results
  /\ Signals.generate_signals_batch self scan_results !! i
     = Some (<["symbol" := VStr (Scan.symbol r)]>
             (<["signal" := VStr "ERROR"]> (<["error" := VStr e]> ∅))).
Proof.
  intros Hi Hd He Hgen. unfold Signals.generate_signals_batch.
  rewrite batch_loop_appends, app_nil_l, length_fmap, list_lookup_fmap, Hi.
  split; [done|]. simpl. f_equal. by apply (batch_record_failure self r df e).
Qed.

Lemma generate_signals_batch_record_kinds_witness :
  (BatchCases.first_record !! "signal" = Some (VStr "ERROR")
   /\ is_Some (BatchCases.first_record !! "error")
   /\ BatchCases.first_record !! "strength" = None
   /\ BatchCases.first_record !! "rsi" = None
   /\ BatchCases.first_record !! "stoch" = None
   /\ BatchCases.first_record !! "macd" = None
   /\ BatchCases.first_record !! "macd_signal" = None
   /\ BatchCases.first_record !! "reason" = None)
  \/ (exists t y,
        BatchCases.first_record !! "signal" = Some (VStr (Signals.value t))
        /\ BatchCases.first_record !! "strength" = Some (VNum y) /\ (0 <= y <= 100)%Q
        /\ BatchCases.first_record !! "error" = None
        /\ is_Some (BatchCases.first_record !! "rsi")
        /\ is_Some (BatchCases.first_record !! "stoch")
        /\ is_Some (BatchCases.first_record !! "macd")
        /\ is_Some (BatchCases.first_record !! "macd_signal")
        /\ is_Some (BatchCases.first_record !! "reason")).
Proof.
  apply (@generate_signals_batch_record_kinds Sample.fixed_format
           (Sample.generator (Some 55%Q) (Some 62%Q) (Some 1%Q) (Some 0%Q))
           BatchCases.scan_results).
  vm_compute. left.
Defined.

Lemma generate_signals_batch_wraps_failure_witness :
  length (@Signals.generate_signals_batch Sample.fixed_format
            SignalCases.failing_generator BatchCases.scan_results)
  = length BatchCases.scan_results
  /\ @Signals.generate_signals_batch Sample.fixed_format
       SignalCases.failing_generator BatchCases.scan_results !! 0
     = Some (<["symbol" := VStr "AAPL"]>
             (<["signal" := VStr "ERROR"]>
             (<["error" := VStr "'NoneType' object has no attribute 'iloc'"]> ∅))).
Proof.
  apply (@generate_signals_batch_wraps_failure Sample.fixed_format
           SignalCases.failing_generator BatchCases.scan_results 0
           {| Scan.symbol := "AAPL"; Scan.data := Some Sample.frame; Scan.error := None |}
           Sample.frame);
    reflexivity.
Defined.

(** ** Filtering *)

Section Filtering.
Context `{PyErrors}.
Import Filter.

Lemma comprehension_sublist target min_strength signals kept :
  comprehension target min_strength signals = Ok kept ->
  kept `sublist_of` signals /\ Forall (fun s => signal_is target s = true) kept.
Proof.
  revert kept. induction signals as [|s rest IH]; intros kept; simpl.
  - intros [= <-]. split; [done|constructor].
  - destruct (signal_is target s) eqn:Hs.
    + destruct (strength_at_least min_strength s) as [keep|e]; [|done].
      destruct (comprehension target min_strength rest) as [kept'|e]; [|done].
      destruct (IH kept' eq_refl) as [Hsub Hall].
      intros [= <-]. destruct keep.
      * split; [by apply sublist_skip|by constructor].
      * split; [by apply sublist_cons|done].
    + destruct (comprehension target min_strength rest) as [kept'|e]; [|done].
      destruct (IH kept' eq_refl) as [Hsub Hall].
      intros [= <-]. split; [by apply sublist_cons|done].
Qed.

Lemma comprehension_monotone target m m' signals kept :
  (m' <= m)%Q ->
  comprehension target m signals = Ok kept ->
  exists kept', comprehension target m' signals = Ok kept' /\ kept `sublist_of` kept'.
Proof.
  intros Hm. revert kept. induction signals as [|s rest IH]; intros kept; simpl.
  - intros [= <-]. by exists [].
  - destruct (signal_is target s) eqn:Hs.
    + unfold strength_at_least.
      destruct (default (VNum 0) (s !! "strength")) as [|?|y]; [done|done|].
      destruct (comprehension target m rest) as [kept0|e]; [|done].
      destruct (IH kept0 eq_refl) as (kept1 & -> & Hsub).
      intros [= <-]. eexists. split; [reflexivity|].
      destruct (Qle_bool m y) eqn:Hy.
      * apply Qle_bool_iff in Hy.
        assert (Qle_bool m' y = true) as -> by (apply Qle_bool_iff; lra).
        by apply sublist_skip.
      * destruct (Qle_bool m' y); [by apply sublist_cons|done].
    + destruct (comprehension target m rest) as [kept0|e]; [|done].
      destruct (IH kept0 eq_refl) as (kept1 & -> & Hsub).
      intros [= <-]. by eexists.
Qed.

Lemma comprehension_numeric target min_strength signals :
  Forall (fun s => s !! "strength" = None \/ exists y, s !! "strength" = Some (VNum y))
    signals ->
  comprehension target min_strength signals
  = Ok (List.filter (keeps target min_strength) signals).
Proof.
  induction 1 as [|s rest Hs _ IH]; simpl; [done|].
  rewrite IH. unfold keeps, strength_at_least.
  destruct (signal_is target s); simpl; [|done].
  destruct Hs as [->|[y ->]]; simpl; done.
Qed.

Lemma keeps_spec target min_strength s :
  keeps target min_strength s = true
  <-> s !! "signal" = Some (VStr target)
      /\ ((exists y, s !! "strength" = Some (VNum y) /\ (min_strength <= y)%Q)
          \/ (s !! "strength" = None /\ (min_strength <= 0)%Q)).
Proof.
  unfold keeps, signal_is. rewrite andb_true_iff. split.
  - intros [Hsig Hst]. split.
    + destruct (s !! "signal") as [[|x|]|]; try done.
      apply String.eqb_eq in Hsig. by subst.
    + destruct (s !! "strength") as [[|?|y]|]; try done.
      * left. exists y. split; [done|]. by apply Qle_bool_iff.
      * right. split; [done|]. by apply Qle_bool_iff.
  - intros [Hsig Hst]. rewrite Hsig, String.eqb_refl. split; [done|].
    destruct Hst as [(y & -> & Hy)|[-> H0]]; by apply Qle_bool_iff.
Qed.

Lemma List_filter_sublist {A : Type} (f : A -> bool) (l : list A) :
  List.filter f l `sublist_of` l.
Proof.
  induction l as [|x l IH]; simpl; [done|].
  destruct (f x); [by apply sublist_skip|by apply sublist_cons].
Qed.

Lemma filter_on_batch `{PyFormat} self scan_results target min_strength :
  let batch := Signals.generate_signals_batch self scan_results in
  exists kept,
    comprehension target min_strength batch = Ok kept
    /\ kept `sublist_of` batch
    /\ forall s, s ∈ kept
         <-> s ∈ batch /\ s !! "signal" = Some (VStr target)
             /\ ((exists y, s !! "strength" = Some (VNum y) /\ (min_strength <= y)%Q)
                 \/ (s !! "strength" = None /\ (min_strength <= 0)%Q)).
Proof.
  intros batch. exists (List.filter (keeps target min_strength) batch).
  split; [|split].
  - apply comprehension_numeric. apply Forall_forall. intros s Hs.
    destruct (batch_records_shape self scan_results s Hs)
      as [(_ & _ & -> & _)|(t & y & _ & -> & _)]; [by left|right; by exists y].
  - apply List_filter_sublist.
  - intros s. rewrite <- keeps_spec, !list_elem_of_In, filter_In. done.
Qed.

End Filtering.

(** X17: over the records of a batch [filter_by_signal] never raises; it
    returns, in their order, exactly the records whose signal is the
    target and whose strength is at least the minimum, an error record
    counting as strength 0. *)
Theorem filter_by_signal_on_batch `{PyErrors} `{PyFormat}
    (self : Signals.SignalGenerator) (scan_results : list Scan.ScanResult)
    (signal_type : Signals.SignalType + string) (min_strength : Q) :
  let batch := Signals.generate_signals_batch self scan_results in
  let target :=
    match signal_type with
    | inl t => Signals.value t
    | inr s => upper s
    end in
  exists kept,
    Filter.filter_by_signal batch signal_type min_strength = Ok kept
    /\ kept `sublist_of` batch
    /\ forall s, s ∈ kept
         <-> s ∈ batch /\ s !! "signal" = Some (VStr target)
             /\ ((exists y, s !! "strength" = Some (VNum y) /\ (min_strength <= y)%Q)
                 \/ (s !! "strength" = None /\ (min_strength <= 0)%Q)).
Proof. intros batch target. apply filter_on_batch. Qed.

(** X18: what [filter_by_signal] returns is a sub-list of its input, in
    the input's order, whose records all carry the target signal; and a
    lower minimum strength returns a list that contains it. *)
Theorem filter_by_signal_selects_and_grows `{PyErrors}
    (signals kept : list (gmap string pyval))
    (signal_type : Signals.SignalType + string) (min_strength : Q) :
  Filter.filter_by_signal signals signal_type min_strength = Ok kept ->
  let target :=
    match signal_type with
    | inl t => Signals.value t
    | inr s => upper s
    end in
  kept `sublist_of` signals
  /\ Forall (fun s => s !! "signal" = Some (VStr target)) kept
  /\ forall lower_minimum, (lower_minimum <= min_strength)%Q ->
       exists more,
         Filter.filter_by_signal signals signal_type lower_minimum = Ok more
         /\ kept `sublist_of` more.
Proof.
  unfold Filter.filter_by_signal. intros Hk. cbv zeta.
  destruct (comprehension_sublist _ _ _ _ Hk) as [Hsub Hall]. split; [done|]. split.
  - eapply Forall_impl; [exact Hall|]. intros s Hs. simpl in Hs.
    unfold Filter.signal_is in Hs.
    destruct (s !! "signal") as [[|x|]|]; try done.
    apply String.eqb_eq in Hs. by subst.
  - intros m' Hm. by apply (comprehension_monotone _ min_strength).
Qed.

Lemma filter_by_signal_selects_and_grows_witness :
  let target := upper "buy" in
  [BatchCases.first_record] `sublist_of` BatchCases.batch
  /\ Forall (fun s => s !! "signal" = Some (VStr target)) [BatchCases.first_record]
  /\ forall lower_minimum, (lower_minimum <= 20)%Q ->
       exists more,
         @Filter.filter_by_signal FilterCases.plain_errors BatchCases.batch
           (inr "buy") lower_minimum = Ok more
         /\ [BatchCases.first_record] `sublist_of` more.
Proof.
  apply (@filter_by_signal_selects_and_grows FilterCases.plain_errors
           BatchCases.batch [BatchCases.first_record] (inr "buy") 20).
  vm_compute. reflexivity.
Defined.

(** ** Invalidation *)

Section Invalidation.
Import Invalidate.

(** The loop of the pattern branch deletes none but the paths it is
    given, wherever it stops. *)
Lemma unlink_all_keeps paths w p :
  p ∉ paths -> files (for_each unlink paths w).2 !! p = files w !! p.
Proof.
  revert w. induction paths as [|q paths IH]; intros w Hp; simpl; [done|].
  apply not_elem_of_cons in Hp as [Hne Hp].
  unfold mbind, M_bind. unfold unlink at 1.
  destruct (files w !! q); [|done]. destruct (read_only w); [done|].
  rewrite IH by done. simpl. by rewrite lookup_delete_ne.
Qed.

(** With a symbol and an interval, [invalidate] is the removal of one
    file. *)
Lemma invalidate_key self `{Glob} symbol interval w :
  symbol <> "" -> interval <> "" ->
  invalidate self (Some symbol) (Some interval) w
  = match files w !! Cache._get_cache_path self symbol interval with
    | Some _ =>
        if read_only w then (Raise "Permission denied", w)
        else (Ok tt, with_files (delete (Cache._get_cache_path self symbol interval)
                                   (files w)) w)
    | None => (Ok tt, w)
    end.
Proof.
  intros Hs Hi. unfold invalidate.
  destruct symbol as [|c symbol]; [done|]. destruct interval as [|c' interval]; [done|].
  simpl. unfold unlink.
  by destruct (files w !! Cache._get_cache_path self (String c symbol) (String c' interval)).
Qed.

End Invalidation.



(** X20: once a key has been invalidated the next [get_or_fetch] for it
    runs the fetcher, however fresh the entry was. *)
Theorem invalidate_forces_refetch `{Glob} (config : AppConfig)
    (self : Cache.CacheManager) (symbol interval : string)
    (fetcher : M DataFrame) (w w' : World) :
  symbol <> "" -> interval <> "" ->
  Invalidate.invalidate self (Some symbol) (Some interval) w = (Ok tt, w') ->
  Cache.get_or_fetch config symbol interval fetcher (Some self) w'
  = match fetcher w' with
    | (Ok df, w1) => (Ok df, (Cache.set self symbol interval df w1).2)
    | (Raise e, w1) => (Raise e, w1)
    end.
Proof.
  intros Hs Hi Hinv. apply get_or_fetch_miss.
  rewrite get_value.
  assert (files w' !! Cache._get_cache_path self symbol interval = None) as Hgone.
  { revert Hinv. rewrite invalidate_key by done.
    destruct (files w !! Cache._get_cache_path self symbol interval) as [f|] eqn:Hf.
    - destruct (read_only w); [done|].
      intros [= <-]. simpl. apply lookup_delete_eq.
    - by intros [= <-]. }
  unfold Cache.is_fresh. rewrite Hgone. by destruct (Cache.enabled self).
Qed.

Lemma invalidate_forces_refetch_witness :
  Cache.get_or_fetch default_config "AAPL" "1d" Sample.fetcher (Some Sample.cache)
    (@Invalidate.invalidate GlobCases.simple_glob Sample.cache (Some "AAPL") (Some "1d")
       Sample.cached_world).2
  = match Sample.fetcher
            (@Invalidate.invalidate GlobCases.simple_glob Sample.cache (Some "AAPL")
               (Some "1d") Sample.cached_world).2 with
    | (Ok df, w1) => (Ok df, (Cache.set Sample.cache "AAPL" "1d" df w1).2)
    | (Raise e, w1) => (Raise e, w1)
    end.
Proof.
  apply (@invalidate_forces_refetch GlobCases.simple_glob default_config Sample.cache
           "AAPL" "1d" Sample.fetcher Sample.cached_world);
    [discriminate | discriminate | reflexivity].
Defined.

Section SymbolPatterns.

Lemma string_append_assoc (s t u : string) : (s +:+ t) +:+ u = s +:+ (t +:+ u).
Proof.
  induction s as [|c s IH]; [done|].
  change (String c ((s +:+ t) +:+ u) = String c (s +:+ (t +:+ u))). by f_equal.
Qed.

Lemma map_chars_append f s t : map_chars f (s +:+ t) = map_chars f s +:+ map_chars f t.
Proof. induction s as [|c s IH]; simpl; [done|]. by rewrite IH. Qed.

Lemma contains_char_append c s t :
  contains_char c (s +:+ t) = contains_char c s || contains_char c t.
Proof.
  induction s as [|d s IH]; [done|].
  change (contains_char c (String d (s +:+ t))
          = contains_char c (String d s) || contains_char c t).
  simpl. by rewrite IH, orb_assoc.
Qed.

Lemma literal_string_append s t :
  literal_string (s +:+ t) = literal_string s && literal_string t.
Proof.
  induction s as [|d s IH]; [done|].
  change (literal_string (String d (s +:+ t))
          = literal_string (String d s) && literal_string t).
  simpl. by rewrite IH, andb_assoc.
Qed.

Lemma literal_string_one_component s :
  literal_string s = true -> one_component s = true.
Proof.
  unfold one_component. induction s as [|c s IH]; [done|]. simpl.
  unfold literal_char. rewrite andb_true_iff, negb_true_iff, !orb_false_iff.
  intros [[[[[_ _] _] Hslash] Hback] Hlit]. specialize (IH Hlit).
  apply andb_true_iff in IH as [IH1%negb_true_iff IH2%negb_true_iff].
  by rewrite Hslash, Hback, IH1, IH2.
Qed.

Lemma one_component_append s t :
  one_component (s +:+ t) = one_component s && one_component t.
Proof.
  unfold one_component. rewrite !contains_char_append, !negb_orb.
  by destruct (contains_char "/" s), (contains_char "/" t),
       (contains_char "\" s), (contains_char "\" t).
Qed.

Lemma sanitise_literal s :
  literal_string s = true -> contains_char "." s = false ->
  replace "." "_" (replace "/" "_" s) = s.
Proof.
  unfold replace. induction s as [|c s IH]; simpl; [done|].
  unfold literal_char. rewrite andb_true_iff, negb_true_iff, !orb_false_iff.
  intros [Hc Hlit] [Hdot Hrest].
  destruct Hc as [[_ Hslash] _].
  rewrite Hslash, Hdot, IH by done. done.
Qed.

Lemma cache_filename_dotted before after interval :
  literal_string (upper before) = true -> contains_char "." (upper before) = false ->
  exists rest,
    Cache.cache_filename (before +:+ String "." after) interval
    = upper before +:+ String "_" rest.
Proof.
  intros Hlit Hdot. pose proof (sanitise_literal _ Hlit Hdot) as Hsan.
  unfold Cache.cache_filename, upper, replace in *.
  rewrite !map_chars_append. simpl. rewrite Hsan.
  rewrite string_append_assoc. simpl. by eexists.
Qed.

(** A name with an underscore where the pattern has a dot does not begin
    with the literal part of the pattern, letter case apart. *)
Lemma underscore_is_no_dot literal rest head tail :
  literal +:+ String "_" rest = head +:+ tail ->
  upper head = upper (literal +:+ ".") ->
  False.
Proof.
  revert head. induction literal as [|c literal IH]; intros head.
  - destruct head as [|d head]; [done|].
    change (String "_" rest = String d (head +:+ tail) ->
            String (upper_char d) (upper head) = "." -> False).
    intros [= <- _] Hupper. by inversion Hupper.
  - destruct head as [|d head]; [done|].
    change (String c (literal +:+ String "_" rest) = String d (head +:+ tail) ->
            String (upper_char d) (upper head)
            = String (upper_char c) (upper (literal +:+ ".")) -> False).
    intros [= _ Hname] [= _ Hupper]. by apply (IH head).
Qed.

Lemma simple_match_literal literal rest name :
  literal_string literal = true ->
  GlobCases.simple_match (literal +:+ rest) name = true ->
  exists tail, name = literal +:+ tail.
Proof.
  revert name. induction literal as [|c literal IH]; intros name Hlit Hm.
  - by exists name.
  - change (GlobCases.simple_match (String c (literal +:+ rest)) name = true) in Hm.
    simpl in Hlit. apply andb_true_iff in Hlit as [Hc Hlit]. simpl in Hm.
    destruct (Ascii.eqb c "*") eqn:Hstar.
    { apply Ascii.eqb_eq in Hstar. by subst c. }
    destruct (Ascii.eqb c "?") eqn:Hq.
    { apply Ascii.eqb_eq in Hq. by subst c. }
    destruct name as [|d name]; [done|].
    apply andb_true_iff in Hm as [Hcd Hm]. apply Ascii.eqb_eq in Hcd. subst d.
    destruct (IH name Hlit Hm) as [tail ->]. by exists tail.
Qed.

Lemma strip_prefix_append p s t :
  GlobCases.strip_prefix (p +:+ s) (p +:+ t) = GlobCases.strip_prefix s t.
Proof.
  induction p as [|c p IH]; simpl; [done|]. by rewrite Ascii.eqb_refl.
Qed.

Lemma relative_to_join directory name :
  GlobCases.relative_to directory (Cache.path_join directory name) = Some name.
Proof.
  unfold GlobCases.relative_to, Cache.path_join.
  destruct (Cache.ends_with_slash directory).
  - by rewrite strip_prefix_append.
  - by rewrite strip_prefix_append.
Qed.

End SymbolPatterns.

Lemma simple_glob_matches_literally : @matches_literally GlobCases.simple_glob.
Proof.
  intros directory literal rest fs paths name Hlit _ [= <-] Hin.
  apply list_elem_of_filter in Hin as [Hsel _].
  unfold GlobCases.selects in Hsel. rewrite relative_to_join in Hsel.
  destruct (simple_match_literal literal rest name Hlit Hsel) as [tail ->].
  by exists literal, tail.
Qed.

(** X22: [invalidate] with a symbol alone looks for file names that begin
    with the upper-cased symbol, while the file names were made from the
    sanitised symbol.  So for a symbol with a dot and no path separator,
    such as BRK.B, it deletes none of that symbol's entries, for any
    interval: the pattern has the dot where the file name has an
    underscore. *)
Theorem invalidate_by_dotted_symbol_keeps_its_entries `{Glob}
    (self : Cache.CacheManager) (before after interval : string) (w : World) :
  matches_literally ->
  literal_string (upper before) = true -> contains_char "." (upper before) = false ->
  one_component (upper after) = true ->
  let symbol := before +:+ String "." after in
  files (Invalidate.invalidate self (Some symbol) None w).2
    !! Cache._get_cache_path self symbol interval
  = files w !! Cache._get_cache_path self symbol interval.
Proof.
  intros Hlaw Hlit Hdot Hafter symbol.
  assert (truthy_str (Some symbol) = true) as Htruthy.
  { subst symbol. by destruct before. }
  unfold Invalidate.invalidate. rewrite Htruthy. simpl.
  unfold mbind, M_bind, Invalidate.glob.
  destruct (glob_paths _ _ _) as [paths|e] eqn:Hglob; [|done].
  apply unlink_all_keeps. intros Hin.
  subst symbol. unfold upper in Hglob. rewrite map_chars_append in Hglob.
  fold (upper before) in Hglob.
  change (map_chars upper_char (String "." after))
    with ("." +:+ upper after) in Hglob.
  rewrite <- string_append_assoc in Hglob. rewrite string_append_assoc in Hglob.
  destruct (cache_filename_dotted before after interval Hlit Hdot) as [rest Hname].
  unfold Cache._get_cache_path in Hin. rewrite Hname in Hin.
  assert (literal_string (upper before +:+ ".") = true) as Hliteral
    by by rewrite literal_string_append, Hlit.
  assert (one_component ((upper before +:+ ".") +:+ upper after +:+ "_*.parquet") = true)
    as Hone.
  { rewrite (one_component_append (upper before +:+ ".")).
    rewrite (one_component_append (upper after)), Hafter.
    by rewrite (literal_string_one_component _ Hliteral). }
  destruct (Hlaw _ _ _ _ _ _ Hliteral Hone Hglob Hin) as (head & tail & Heq & Hupper).
  by apply (underscore_is_no_dot _ _ _ _ Heq Hupper).
Qed.

Lemma invalidate_by_dotted_symbol_keeps_its_entries_witness :
  files (@Invalidate.invalidate GlobCases.simple_glob Sample.cache (Some "BRK.B") None
           GlobCases.world).2 !! Cache._get_cache_path Sample.cache "BRK.B" "1d"
  = files GlobCases.world !! Cache._get_cache_path Sample.cache "BRK.B" "1d".
Proof.
  apply (@invalidate_by_dotted_symbol_keeps_its_entries GlobCases.simple_glob
           Sample.cache "BRK" "B" "1d" GlobCases.world);
    [exact simple_glob_matches_literally | reflexivity | reflexivity | reflexivity].
Defined.

(** ** The provider's validations *)

(** X23: [validate_date_range] returns exactly when the start is neither
    after the end nor after today; it then returns the start unchanged and
    the end capped at today, a range that is ordered, ends no later than
    today and validates to itself.  In the other cases it raises. *)
Theorem validate_date_range_caps_the_end `{PyDates} (w : World) (start end_ : Z) :
  ((start <= end_)%Z -> (start <= today w)%Z ->
   Provider.validate_date_range w start end_ = Ok (start, Z.min end_ (today w)))
  /\ (forall s e, Provider.validate_date_range w start end_ = Ok (s, e) ->
        s = start /\ (s <= e <= today w)%Z /\ (e <= end_)%Z
        /\ Provider.validate_date_range w s e = Ok (s, e))
  /\ ((end_ < start)%Z \/ (today w < start)%Z ->
      exists message, Provider.validate_date_range w start end_ = Raise message).
Proof.
  unfold Provider.validate_date_range. split; [|split].
  - intros H1 H2.
    destruct (Z.ltb_spec end_ start); [lia|]. destruct (Z.ltb_spec (today w) start); [lia|].
    destruct (Z.ltb_spec (today w) end_); f_equal; f_equal; lia.
  - intros s e.
    destruct (Z.ltb_spec end_ start); [done|]. destruct (Z.ltb_spec (today w) start); [done|].
    intros [= <- <-].
    destruct (Z.ltb_spec (today w) end_).
    + repeat split; try lia.
      destruct (Z.ltb_spec (today w) start); [lia|].
      by rewrite Z.ltb_irrefl.
    + repeat split; try lia.
      destruct (Z.ltb_spec end_ start); [lia|].
      destruct (Z.ltb_spec (today w) start); [lia|].
      destruct (Z.ltb_spec (today w) end_); [lia|]. done.
  - intros [Hlt|Hlt].
    + destruct (Z.ltb_spec end_ start); [by eexists|lia].
    + destruct (Z.ltb_spec end_ start); [by eexists|].
      destruct (Z.ltb_spec (today w) start); [by eexists|lia].
Qed.

Section Closest.
Context `{PyDates}.
Import Provider.

Lemma min_by_distance_result target rest :
  forall best best_key x,
    min_by_distance target best best_key rest = Ok x ->
    (x = best
     /\ forall y, y ∈ rest ->
          exists dy, strptime y = Ok dy /\ (best_key <= Z.abs (dy - target))%Z)
    \/ (x ∈ rest
        /\ exists d, strptime x = Ok d /\ (Z.abs (d - target) < best_key)%Z
             /\ forall y, y ∈ rest ->
                  exists dy, strptime y = Ok dy
                    /\ (Z.abs (d - target) <= Z.abs (dy - target))%Z).
Proof.
  induction rest as [|z rest IH]; intros best best_key x; simpl.
  - intros [= <-]. left. split; [done|]. by intros y Hy%elem_of_nil.
  - destruct (strptime z) as [dz|e] eqn:Hz; [|done].
    destruct (Z.ltb_spec (Z.abs (dz - target)) best_key) as [Hlt|Hge]; intros Hx.
    + right. destruct (IH _ _ _ Hx) as [[-> Hall]|(Hin & d & Hd & Hlt' & Hall)].
      * split; [by left|]. exists dz. split; [done|]. split; [done|].
        intros y [->|Hy]%elem_of_cons.
        -- exists dz. split; [done|lia].
        -- destruct (Hall y Hy) as (dy & ? & ?). exists dy. split; [done|lia].
      * split; [by right|]. exists d. split; [done|]. split; [lia|].
        intros y [->|Hy]%elem_of_cons.
        -- exists dz. split; [done|lia].
        -- by apply Hall.
    + destruct (IH _ _ _ Hx) as [[-> Hall]|(Hin & d & Hd & Hlt' & Hall)].
      * left. split; [done|]. intros y [->|Hy]%elem_of_cons.
        -- exists dz. split; [done|lia].
        -- by apply Hall.
      * right. split; [by right|]. exists d. split; [done|]. split; [done|].
        intros y [->|Hy]%elem_of_cons.
        -- exists dz. split; [done|lia].
        -- by apply Hall.
Qed.

Lemma min_by_distance_total target rest :
  Forall (fun y => exists d, strptime y = Ok d) rest ->
  forall best best_key, exists x, min_by_distance target best best_key rest = Ok x.
Proof.
  induction 1 as [|z rest [dz Hz] _ IH]; intros best best_key; simpl; [by eexists|].
  rewrite Hz. destruct (Z.abs (dz - target) <? best_key)%Z; apply IH.
Qed.

End Closest.

(** X24: the expiration [_find_closest_expiration] returns is one of those
    given, and none of them is nearer the target date; it returns whenever
    the list is not empty and all of its dates parse. *)
Theorem find_closest_expiration_is_nearest `{PyDates}
    (expirations : list string) (target : Z) :
  (forall x, Provider._find_closest_expiration expirations target = Ok x ->
     x ∈ expirations
     /\ exists d, strptime x = Ok d
          /\ forall y, y ∈ expirations ->
               exists dy, strptime y = Ok dy
                 /\ (Z.abs (d - target) <= Z.abs (dy - target))%Z)
  /\ (expirations <> [] ->
      Forall (fun y => exists d, strptime y = Ok d) expirations ->
      exists x, Provider._find_closest_expiration expirations target = Ok x).
Proof.
  unfold Provider._find_closest_expiration. split.
  - intros x. destruct expirations as [|z rest]; [done|].
    destruct (strptime z) as [dz|e] eqn:Hz; [|done]. intros Hx.
    destruct (min_by_distance_result _ _ _ _ _ Hx) as [[-> Hall]|(Hin & d & Hd & Hlt & Hall)].
    + split; [by left|]. exists dz. split; [done|].
      intros y [->|Hy]%elem_of_cons; [exists dz; split; [done|lia]|by apply Hall].
    + split; [by right|]. exists d. split; [done|].
      intros y [->|Hy]%elem_of_cons; [exists dz; split; [done|lia]|by apply Hall].
  - intros Hne Hall. destruct expirations as [|z rest]; [done|].
    apply Forall_cons in Hall as [[dz ->] Hall].
    by apply min_by_distance_total.
Qed.

Section Symbols.
Import Provider.

Lemma upper_char_idempotent c : upper_char (upper_char c) = upper_char c.
Proof. by destruct c as [[] [] [] [] [] [] [] []]. Qed.

Lemma is_space_upper_char c : is_space (upper_char c) = is_space c.
Proof. by destruct c as [[] [] [] [] [] [] [] []]. Qed.

Lemma upper_idempotent s : upper (upper s) = upper s.
Proof.
  unfold upper. induction s as [|c s IH]; simpl; [done|].
  by rewrite upper_char_idempotent, IH.
Qed.

Lemma lstrip_upper s : lstrip (upper s) = upper (lstrip s).
Proof.
  unfold upper. induction s as [|c s IH]; simpl; [done|].
  rewrite is_space_upper_char. by destruct (is_space c).
Qed.

Lemma rstrip_upper s : rstrip (upper s) = upper (rstrip s).
Proof.
  unfold upper. induction s as [|c s IH]; simpl; [done|].
  rewrite IH, is_space_upper_char.
  destruct (rstrip s); simpl; [by destruct (is_space c)|done].
Qed.

Lemma lstrip_headed s : headed (lstrip s).
Proof.
  induction s as [|c s IH]; simpl; [done|].
  destruct (is_space c) eqn:Hc; [done|]. simpl. done.
Qed.

Lemma lstrip_of_headed s : headed s -> lstrip s = s.
Proof. destruct s as [|c s]; simpl; [done|]. by intros ->. Qed.

Lemma rstrip_headed s : headed s -> headed (rstrip s).
Proof.
  destruct s as [|c s]; simpl; [done|]. intros Hc.
  destruct (rstrip s); simpl; [by rewrite Hc|done].
Qed.

Lemma rstrip_idempotent s : rstrip (rstrip s) = rstrip s.
Proof.
  induction s as [|c s IH]; simpl; [done|].
  destruct (rstrip s) as [|d kept] eqn:Hk.
  - destruct (is_space c) eqn:Hc; simpl; [done|]. by rewrite Hc.
  - simpl in *. by rewrite IH.
Qed.

Lemma strip_idempotent s : strip (strip s) = strip s.
Proof.
  unfold strip.
  rewrite (lstrip_of_headed (rstrip (lstrip s))).
  - apply rstrip_idempotent.
  - apply rstrip_headed, lstrip_headed.
Qed.

Lemma strip_upper s : strip (upper s) = upper (strip s).
Proof. unfold strip. by rewrite lstrip_upper, rstrip_upper. Qed.

End Symbols.

(** X25: [validate_symbol] yields a normal form: the result has no white
    space at either end and no lower-case letter, and validating it again
    changes nothing. *)
Theorem validate_symbol_is_normal_form (symbol : string) :
  Provider.strip (Provider.validate_symbol symbol) = Provider.validate_symbol symbol
  /\ upper (Provider.validate_symbol symbol) = Provider.validate_symbol symbol
  /\ Provider.validate_symbol (Provider.validate_symbol symbol)
     = Provider.validate_symbol symbol.
Proof.
  unfold Provider.validate_symbol. split; [|split].
  - by rewrite strip_upper, strip_idempotent.
  - apply upper_idempotent.
  - by rewrite strip_upper, strip_idempotent, upper_idempotent.
Qed.

(** ** The configuration singleton *)

(** X26: the configuration is loaded once: after a [get_config] or a
    [reload_config] that returned, every later [get_config] returns that
    same configuration without looking at the files again; a load that
    raises leaves the global as it was, so a failed [reload_config] keeps
    the configuration in use. *)
Theorem get_config_loads_once (env : Settings.ConfigFiles) (_config : option AppConfig) :
  (forall config st,
     Settings.get_config env _config = (Ok config, st) ->
     st = Some config
     /\ forall env', Settings.get_config env' st = (Ok config, st))
  /\ (forall e st, Settings.get_config env _config = (Raise e, st) ->
        _config = None /\ st = None)
  /\ (forall config_path config st,
        Settings.reload_config env config_path _config = (Ok config, st) ->
        forall env', Settings.get_config env' st = (Ok config, st))
  /\ (forall config_path e st,
        Settings.reload_config env config_path _config = (Raise e, st) ->
        st = _config).
Proof.
  unfold Settings.get_config, Settings.reload_config.
  split; [|split; [|split]].
  - intros config st. destruct _config as [c|].
    + by intros [= <- <-].
    + destruct (Settings.load_config env None); [|done]. by intros [= <- <-].
  - intros e st. destruct _config as [c|]; [done|].
    destruct (Settings.load_config env None); [done|]. by intros [= <- <-].
  - intros config_path config st.
    destruct (Settings.load_config env config_path); [|done]. by intros [= <- <-].
  - intros config_path e st.
    destruct (Settings.load_config env config_path); [done|]. by intros [= <- <-].
Qed.

(** ** The universe of symbols *)

Section Tickers.
Context `{PathLib}.
Import Universe.

Lemma lower_char_idempotent c : lower_char (lower_char c) = lower_char c.
Proof. by destruct c as [[] [] [] [] [] [] [] []]. Qed.

Lemma lower_idempotent s : lower (lower s) = lower s.
Proof.
  unfold lower. induction s as [|c s IH]; simpl; [done|].
  by rewrite lower_char_idempotent, IH.
Qed.

Lemma Forall_upper_fmap (l : list string) : Forall (fun t => upper t = t) (upper <$> l).
Proof.
  induction l as [|t l IH]; simpl; constructor; [apply upper_idempotent|done].
Qed.

Lemma mapM_upper_strings items tickers :
  mapM (fun t : yaml => match t with YStr s => Some (upper s) | _ => None end) items
  = Some tickers ->
  Forall (fun t => upper t = t) tickers.
Proof.
  revert tickers. induction items as [|t items IH]; intros tickers; simpl.
  - intros [= <-]. constructor.
  - destruct t as [|s|n|l|m]; simpl; try done.
    destruct (mapM _ items) as [rest|]; simpl; [|done].
    intros [= <-]. constructor; [apply upper_idempotent|by apply IH].
Qed.

Lemma upper_all_upper tickers result :
  upper_all tickers = Some result -> Forall (fun t => upper t = t) result.
Proof.
  destruct tickers as [|s|n|items|entries]; simpl; try done.
  - intros [= <-]. apply Forall_upper_fmap.
  - apply mapM_upper_strings.
  - intros [= <-]. apply Forall_upper_fmap.
Qed.

Lemma load_watchlist_file_upper self docs path :
  Forall (fun t => upper t = t) (_load_watchlist_file self docs path).
Proof.
  unfold _load_watchlist_file.
  match goal with |- context [docs !! ?q] =>
    destruct (docs !! q) as [[data|]|]; try constructor
  end.
  destruct data as [|s|n|items|entries]; try constructor.
  destruct (upper_all _) as [result|] eqn:Hu; simpl; [|constructor].
  by apply upper_all_upper in Hu.
Qed.

Lemma presets_upper :
  Forall (fun t => upper t = t) _get_sp500
  /\ Forall (fun t => upper t = t) _get_nasdaq100
  /\ Forall (fun t => upper t = t) _get_dow30.
Proof. repeat split; repeat constructor. Qed.

Lemma get_tickers_upper self docs universe :
  Forall (fun t => upper t = t) (get_tickers self docs universe).
Proof.
  unfold get_tickers, _load_custom_watchlist.
  destruct presets_upper as (? & ? & ?).
  repeat case_match; try done; apply load_watchlist_file_upper.
Qed.

End Tickers.

(** X27: every ticker [get_tickers] returns is in upper case, whichever
    universe is asked for and whatever the watchlist files hold; and the
    name of the universe is taken without regard to letter case. *)
Theorem get_tickers_are_upper_case `{PathLib} (self : Universe.UniverseManager)
    (docs : Universe.Documents) (universe : string) :
  Forall (fun t => upper t = t) (Universe.get_tickers self docs (Some universe))
  /\ Forall (fun t => upper t = t) (Universe.get_tickers self docs None)
  /\ Universe.get_tickers self docs (Some (lower universe))
     = Universe.get_tickers self docs (Some universe).
Proof.
  split; [apply get_tickers_upper|]. split; [apply get_tickers_upper|].
  unfold Universe.get_tickers. simpl. by rewrite lower_idempotent.
Qed.

Lemma mapM_upper_roundtrip (tickers : list string) :
  mapM (fun t : Universe.yaml =>
          match t with Universe.YStr s => Some (upper s) | _ => None end)
    (Universe.YStr <$> (upper <$> tickers)) = Some (upper <$> tickers).
Proof.
  induction tickers as [|t tickers IH]; [done|].
  cbn [fmap list_fmap mapM]. rewrite IH. simpl. by rewrite upper_idempotent.
Qed.

(** X28: a watchlist that [save_watchlist] has written under a name is
    what [get_tickers] returns for that name, upper-cased, provided the
    name is none of the reserved ones, has no space in it (the file name
    replaces spaces, the lookup does not), denotes itself as a path, and
    nothing stands at that bare path after the save. *)
Theorem save_watchlist_then_get_tickers `{PathLib} `{Universe.Storage}
    (self : Universe.UniverseManager) (name description : string)
    (tickers : list string) (docs docs' : Universe.Documents) (path : string) :
  Universe.save_watchlist self name tickers description docs = (Ok path, docs') ->
  lower name <> "custom" -> lower name <> "sp500" ->
  lower name <> "nasdaq100" -> lower name <> "dow30" ->
  contains_char " " name = false ->
  Path (lower name) = lower name ->
  docs' !! lower name = None ->
  Universe.get_tickers self docs' (Some name) = upper <$> tickers.
Proof.
  intros Hsave H1 H2 H3 H4 Hsp Hpath Hbare.
  unfold Universe.get_tickers. simpl default.
  rewrite !(proj2 (String.eqb_neq _ _)) by done.
  unfold Universe._load_watchlist_file. rewrite Hpath, Hbare.
  assert (replace " " "_" (lower name) = lower name) as Hfile.
  { unfold replace, lower. clear -Hsp.
    induction name as [|c name IH]; simpl in *; [done|].
    apply orb_false_iff in Hsp as [Hc Hrest].
    rewrite IH by done.
    replace (Ascii.eqb (lower_char c) " ") with false; [done|].
    revert Hc. by destruct c as [[] [] [] [] [] [] [] []]. }
  unfold Universe.save_watchlist, Universe.Documents in *.
  destruct (Universe.mkdir _ docs) as [docs1|e]; [|done].
  destruct (Universe.open_for_writing _ docs1); [done|].
  rewrite Hfile in Hsave. injection Hsave as _ <-.
  rewrite lookup_insert_eq. simpl.
  by rewrite mapM_upper_roundtrip.
Qed.

Lemma save_watchlist_then_get_tickers_witness :
  @Universe.get_tickers UniverseCases.plain_paths UniverseCases.manager
    (@Universe.save_watchlist UniverseCases.plain_paths UniverseCases.plain_storage
       UniverseCases.manager "Tech" ["nvda"; "amd"] "chips" UniverseCases.docs).2
    (Some "Tech")
  = upper <$> ["nvda"; "amd"].
Proof.
  apply (@save_watchlist_then_get_tickers UniverseCases.plain_paths
           UniverseCases.plain_storage UniverseCases.manager "Tech" "chips"
           ["nvda"; "amd"] UniverseCases.docs _ "universe/watchlists/tech.yaml");
    try discriminate; reflexivity.
Defined.

(** ** Scanning a universe *)



(** ** The rationale of a verdict *)

(** X30: the rationale of [evaluate_conditions] has three entries, one per
    indicator, RSI first, then the stochastic, then MACD.  A value exactly
    at its threshold makes the verdict NEUTRAL and is listed as neutral;
    a MACD equal to its signal line also makes it NEUTRAL, but is listed
    as "MACD bearish", there being no neutral label for MACD. *)
Theorem evaluate_conditions_rationale `{PyFormat} (self : Signals.SignalGenerator)
    (rsi stoch macd macd_signal : Q) :
  let out := Signals.evaluate_conditions self rsi stoch macd macd_signal in
  length out.2 = 3
  /\ ((rsi == Signals.rsi_threshold self)%Q ->
      out.1 = Signals.NEUTRAL /\ out.2 !! 0 = Some "RSI neutral")
  /\ ((stoch == Signals.stoch_threshold self)%Q ->
      out.1 = Signals.NEUTRAL /\ out.2 !! 1 = Some "Stoch neutral")
  /\ ((macd == macd_signal)%Q ->
      out.1 = Signals.NEUTRAL /\ out.2 !! 2 = Some "MACD bearish").
Proof.
  intros out. subst out. split; [apply evaluate_conditions_reasons_length|].
  unfold Signals.evaluate_conditions.
  destruct (Qlt_bool_reflect (Signals.rsi_threshold self) rsi) as [R1|R1];
  destruct (Qlt_bool_reflect (Signals.stoch_threshold self) stoch) as [S1|S1];
  destruct (Qlt_bool_reflect macd_signal macd) as [M1|M1];
  destruct (Qlt_bool_reflect rsi (Signals.rsi_threshold self)) as [R2|R2];
  destruct (Qlt_bool_reflect stoch (Signals.stoch_threshold self)) as [S2|S2];
  destruct (Qlt_bool_reflect macd macd_signal) as [M2|M2];
  simpl; repeat split; intros; try done; exfalso; lra.
Qed.
